(** * python-poloniex: dispatch, nonce, retry and websocket demultiplexing

    A shallow embedding of [poloniex/__init__.py]: the command check, the
    nonce property, the retry decorator, [__call__], [_handleReturned] and
    the websocket [on_message] handler, with the properties the
    specification states about them.

    Conventions.
    - Python [int] is [Z] (unbounded, as in Python).
    - Python text is [string]; the only text operations the source applies
      ([in], [split], [lower], [int]) are modelled on the ASCII range, where
      the delimiters and patterns of the source live.
    - Every method that touches the instance or the outside world is a
      computation in the monad [M]: it takes a [World] and returns a
      [result] (a returned value or a raised exception) and the new world.
      A raised exception keeps the effects made before it, as in Python.
    - What the program does to its surroundings (waiting for the coach,
      signing, sending, sleeping, logging, invoking a callback) is recorded
      in the world's [log], oldest event first. *)

From Stdlib Require Import String Ascii ZArith List Bool Lia Sorted.
Import ListNotations.
Open Scope string_scope.
Open Scope Z_scope.
Set Warnings "-register-all".

(* ================================================================== *)
(** ** Text *)
(* ================================================================== *)

Module Text.

(** [pat in s] for two pieces of text. *)
Fixpoint contains (pat s : string) : bool :=
  match s with
  | EmptyString => String.prefix pat EmptyString
  | String _ s' => String.prefix pat s || contains pat s'
  end.

Definition lower_ascii (c : ascii) : ascii :=
  let n := nat_of_ascii c in
  if ((65 <=? n) && (n <=? 90))%nat then ascii_of_nat (n + 32) else c.

(** [s.lower()]. *)
Fixpoint lower (s : string) : string :=
  match s with
  | EmptyString => EmptyString
  | String c s' => String (lower_ascii c) (lower s')
  end.

Definition is_dot (c : ascii) : bool := Ascii.eqb c ".".

(** [s.split('.')[0]]: the text before the first full stop. *)
Fixpoint split_dot_head (s : string) : string :=
  match s with
  | EmptyString => EmptyString
  | String c s' => if is_dot c then EmptyString else String c (split_dot_head s')
  end.

(** [s.replace('.', '')]. *)
Fixpoint remove_dots (s : string) : string :=
  match s with
  | EmptyString => EmptyString
  | String c s' => if is_dot c then remove_dots s' else String c (remove_dots s')
  end.

(** The characters [str.split()] treats as separators: tab, line feed,
    vertical tab, form feed, carriage return, the four separators
    0x1c-0x1f, and the space. *)
Definition is_space (c : ascii) : bool :=
  let n := nat_of_ascii c in
  (((9 <=? n) && (n <=? 13)) || ((28 <=? n) && (n <=? 32)))%nat.

Definition is_empty (s : string) : bool :=
  match s with EmptyString => true | _ => false end.

(** [s.split()]: the maximal runs of non-separator characters, in order.
    [cur] is the word being read. *)
Fixpoint split_ws (s cur : string) : list string :=
  match s with
  | EmptyString => if is_empty cur then [] else [cur]
  | String c s' =>
      if is_space c
      then (if is_empty cur then split_ws s' "" else cur :: split_ws s' "")
      else split_ws s' (cur ++ String c "")
  end.

Definition split (s : string) : list string := split_ws s "".

(** [l[-1]]; [None] stands for the [IndexError] of an empty list. *)
Fixpoint last_item {A} (l : list A) : option A :=
  match l with
  | [] => None
  | [x] => Some x
  | _ :: l' => last_item l'
  end.

Definition digit_of_ascii (c : ascii) : option Z :=
  let n := nat_of_ascii c in
  if ((48 <=? n) && (n <=? 57))%nat then Some (Z.of_nat (n - 48)) else None.

Definition ascii_of_digit (d : Z) : ascii := ascii_of_nat (48 + Z.to_nat d).

Definition is_underscore (c : ascii) : bool := Ascii.eqb c "_".

(** Reading what follows a digit of a numeral, most significant first:
    more digits, where a single underscore may stand between two digits
    (as [int] reads a numeral since Python 3.6). *)
Fixpoint int_digits (s : string) (acc : Z) : option Z :=
  match s with
  | EmptyString => Some acc
  | String c s' =>
      match digit_of_ascii c with
      | Some d => int_digits s' (10 * acc + d)
      | None =>
          if is_underscore c then
            match s' with
            | EmptyString => None
            | String c' s'' =>
                match digit_of_ascii c' with
                | Some d => int_digits s'' (10 * acc + d)
                | None => None
                end
            end
          else None
      end
  end.

(** The text starts with a digit. *)
Definition starts_with_digit (s : string) : bool :=
  match s with
  | String c _ => match digit_of_ascii c with Some _ => true | None => false end
  | EmptyString => false
  end.

(** A numeral without sign: it starts with a digit. *)
Definition int_unsigned (s : string) : option Z :=
  match s with
  | EmptyString => None
  | String c s' =>
      match digit_of_ascii c with
      | Some d => int_digits s' d
      | None => None
      end
  end.

(** [int(s)] on a word of ASCII characters without surrounding blanks, as
    Python 3.6 and later read it: an optional sign, then decimal digits
    with single underscores allowed between them.  [None] stands for
    [ValueError].  The digits are the ASCII ones: [int] also reads the
    decimal digits of other scripts, which the statements about the
    number read leave aside by speaking of ASCII texts; and an
    interpreter may cap the length of a numeral (never below 640
    digits), which the model does not. *)
Definition int_of_str (s : string) : option Z :=
  match s with
  | String "-" s' => option_map Z.opp (int_unsigned s')
  | String "+" s' => int_unsigned s'
  | _ => int_unsigned s
  end.

(** The decimal digits of a natural number in front of [acc]; [fuel]
    bounds the number of digits. *)
Fixpoint digits_before (fuel : nat) (z : Z) (acc : string) : string :=
  match fuel with
  | O => acc
  | S f =>
      let acc' := String (ascii_of_digit (z mod 10)) acc in
      if z <? 10 then acc' else digits_before f (z / 10) acc'
  end.

Definition digit_fuel (z : Z) : nat := S (Z.to_nat (Z.log2 z)).

(** [str(z)] for an integer. *)
Definition str_of_Z (z : Z) : string :=
  if z <? 0 then String "-" (digits_before (digit_fuel (- z)) (- z) "")
  else digits_before (digit_fuel z) z "".

(** Exactly [n] decimal digits of [z], zero padded, in front of [acc]. *)
Fixpoint fixed_digits (n : nat) (z : Z) (acc : string) : string :=
  match n with
  | O => acc
  | S n' => fixed_digits n' (z / 10) (String (ascii_of_digit (z mod 10)) acc)
  end.

(** ["{:.6f}".format(t)] for a time [t >= 0] that the formatting rounds to
    [us] microseconds: the whole seconds, a full stop, six digits. *)
Definition format_6f (us : Z) : string :=
  str_of_Z (us / 1000000) ++ "." ++ fixed_digits 6 (us mod 1000000) "".

(** The character is an ASCII one. *)
Definition is_ascii (c : ascii) : bool := (nat_of_ascii c <? 128)%nat.

(** Every character of [s] satisfies [p]. *)
Fixpoint all_chars (p : ascii -> bool) (s : string) : bool :=
  match s with
  | EmptyString => true
  | String c s' => p c && all_chars p s'
  end.

(** A character that is neither a full stop nor a separator of [split]. *)
Definition is_plain (c : ascii) : bool := negb (is_dot c) && negb (is_space c).

End Text.

(* ================================================================== *)
(** ** Python values, dictionaries, exceptions *)
(* ================================================================== *)

(** What [json.loads] returns in the default number mode
    ([parse_float=str]: a JSON float arrives as text), and what the
    argument dictionaries hold. *)
Inductive pyval : Type :=
| PNone
| PBool (b : bool)
| PInt (z : Z)
| PStr (s : string)
| PList (l : list pyval)
| PDict (d : list (string * pyval)).

(** A [dict] with text keys, in insertion order (the order [urlencode]
    and iteration follow). *)
Definition dict := list (string * pyval).

Fixpoint dict_get (d : dict) (k : string) : option pyval :=
  match d with
  | [] => None
  | (k', v) :: d' => if String.eqb k' k then Some v else dict_get d' k
  end.

Definition dict_has (d : dict) (k : string) : bool :=
  match dict_get d k with Some _ => true | None => false end.

(** [d[k] = v]: overwrite in place, or append a new key. *)
Fixpoint dict_set (d : dict) (k : string) (v : pyval) : dict :=
  match d with
  | [] => [(k, v)]
  | (k', v') :: d' =>
      if String.eqb k' k then (k', v) :: d' else (k', v') :: dict_set d' k v
  end.

(** [v == n] for an integer literal [n]: an [int] compares by value and
    [True]/[False] are the integers 1 and 0. *)
Definition py_eq_int (v : pyval) (n : Z) : bool :=
  match v with
  | PInt z => z =? n
  | PBool b => (if b then 1 else 0) =? n
  | _ => false
  end.

(** [v == s] for a text literal [s]. *)
Definition py_eq_str (v : pyval) (s : string) : bool :=
  match v with
  | PStr t => String.eqb t s
  | _ => false
  end.

Inductive exn : Type :=
| RequestException (msg : string)   (* requests.exceptions.RequestException and subclasses *)
| PoloniexError (msg : string)
| RetryException (msg : string)     (* subclass of PoloniexError *)
| TypeError
| KeyError
| IndexError
| ValueError
| AttributeError.

Inductive result (A : Type) : Type :=
| Returned (a : A)
| Raised (e : exn).
Arguments Returned {A} a.
Arguments Raised {A} e.

(** [key] and [secret]: [False] (the default of [PoloniexBase]), [None]
    (the default of [PoloniexSocketed]) or text. *)
Inductive credential : Type :=
| CredFalse
| CredNone
| CredStr (s : string).

(** Truth value of a credential: [not self.key] holds for [False], [None]
    and the empty text. *)
Definition truthy (c : credential) : bool :=
  match c with
  | CredStr s => negb (Text.is_empty s)
  | _ => false
  end.

Definition cred_text (c : credential) : string :=
  match c with CredStr s => s | _ => "" end.

(* ================================================================== *)
(** ** Requests, responses, events, the world *)
(* ================================================================== *)

(** The hex digest of HMAC-SHA512 under [secret] over [urlencode(args)],
    kept symbolic. *)
Inductive mac : Type :=
| HmacSha512 (secret : string) (args : dict).

Inductive url : Type :=
| TradingApi                     (* 'https://poloniex.com/tradingApi' *)
| PublicQuery (args : dict).     (* 'https://poloniex.com/public?' + urlencode(args) *)

(** The keyword arguments of [session.post] / [session.get]. *)
Record payload : Type := {
  p_timeout : option Z;
  p_url : url;
  p_data : option dict;
  p_headers : option (mac * credential);   (* 'Sign', 'Key' *)
  p_proxies : option dict
}.

(** A [requests.Response]: [status_code] when the object has one, the
    body [text], and what [json.loads] makes of the body ([None] when it
    raises). *)
Record response : Type := {
  status_code : option Z;
  text : string;
  decoded : option pyval
}.

(** What a network call does: raise, or return a response. *)
Inductive net_outcome : Type :=
| NetRaises (e : exn)
| NetResponse (r : response).

Inductive level : Type := Debug | Info | Warning | Error.

(** The handlers a channel can hold. *)
Inductive handler : Type :=
| on_heartbeat
| user_handler (n : nat).

Inductive event : Type :=
| EvWait                                   (* self.coach.wait() *)
| EvNonce (n : Z)                          (* a read of self.nonce, returning n *)
| EvSign (m : mac)                         (* the signature is computed *)
| EvPost (p : payload)                     (* self.session.post with the payload *)
| EvGet (p : payload)                      (* self.session.get with the payload *)
| EvSleep (d : Z)                          (* sleep(delay) *)
| EvLog (l : level) (what : pyval)         (* self.logger.<level>(what) *)
| EvCallback (h : handler) (msg : list pyval). (* self.socket._callback(h, msg) *)

(** The mutable state a call can see.  [default_args] is the one
    dictionary object that is the default value of [args] in [__call__]
    (created once, when the function is defined); [caller_args] is the
    dictionary object a caller passes.  [network] is what the remote side
    answers to the n-th request, [requests] the number of requests sent. *)
Record World : Type := {
  _nonce : Z;
  default_args : dict;
  caller_args : dict;
  log : list event;
  network : nat -> net_outcome;
  requests : nat
}.

(** The attributes of a [PoloniexBase] that a call only reads. *)
Record Instance : Type := {
  key : credential;
  secret : credential;
  timeout : option Z;
  coach : bool;                 (* truth value of self.coach *)
  proxies : option dict
}.

(** Which dictionary object [args] is bound to. *)
Inductive argref : Type :=
| ArgDefault      (* args omitted: the default object *)
| ArgCaller.      (* the caller's dictionary *)

(* ================================================================== *)
(** ** The monad of methods *)
(* ================================================================== *)

Definition M (A : Type) : Type := World -> result A * World.

Definition ret {A} (a : A) : M A := fun w => (Returned a, w).

Definition raise {A} (e : exn) : M A := fun w => (Raised e, w).

Definition bind {A B} (c : M A) (k : A -> M B) : M B :=
  fun w =>
    match c w with
    | (Returned a, w') => k a w'
    | (Raised e, w') => (Raised e, w')
    end.

Notation "x <- c ;; k" := (bind c (fun x => k))
  (at level 61, c at next level, right associativity).
Notation "c ;;; k" := (bind c (fun _ => k))
  (at level 61, right associativity).

Definition emit (e : event) : M unit :=
  fun w => (Returned tt,
            {| _nonce := _nonce w; default_args := default_args w;
               caller_args := caller_args w; log := log w ++ [e];
               network := network w; requests := requests w |}).

Definition set_nonce (n : Z) : M unit :=
  fun w => (Returned tt,
            {| _nonce := n; default_args := default_args w;
               caller_args := caller_args w; log := log w;
               network := network w; requests := requests w |}).

Definition get_nonce : M Z := fun w => (Returned (_nonce w), w).

Definition read_args (r : argref) : M dict :=
  fun w => (Returned (match r with
                      | ArgDefault => default_args w
                      | ArgCaller => caller_args w
                      end), w).

Definition write_args (r : argref) (d : dict) : M unit :=
  fun w => (Returned tt,
            match r with
            | ArgDefault =>
                {| _nonce := _nonce w; default_args := d;
                   caller_args := caller_args w; log := log w;
                   network := network w; requests := requests w |}
            | ArgCaller =>
                {| _nonce := _nonce w; default_args := default_args w;
                   caller_args := d; log := log w;
                   network := network w; requests := requests w |}
            end).

(** [args[k] = v] on the object [r] refers to. *)
Definition args_setitem (r : argref) (k : string) (v : pyval) : M unit :=
  d <- read_args r ;; write_args r (dict_set d k v).

(** One request leaves; the remote side's answer to it comes back. *)
Definition send (e : event) : M response :=
  emit e ;;;
  (fun w =>
     let w' := {| _nonce := _nonce w; default_args := default_args w;
                  caller_args := caller_args w; log := log w;
                  network := network w; requests := S (requests w) |} in
     match network w (requests w) with
     | NetRaises x => (Raised x, w')
     | NetResponse r => (Returned r, w')
     end).

Definition when (b : bool) (c : M unit) : M unit :=
  if b then c else ret tt.

(** [try: c  except RequestException as problem: h problem]. *)
Definition try_except {A} (c : M A) (h : string -> M A) : M A :=
  fun w =>
    match c w with
    | (Raised (RequestException problem), w') => h problem w'
    | other => other
    end.

(* ================================================================== *)
(** ** PoloniexBase *)
(* ================================================================== *)

Definition retryDelays : list Z := [0; 2; 5; 30].

Definition PUBLIC_COMMANDS : list string :=
  [ "returnTicker"; "return24hVolume"; "returnOrderBook"; "marketTradeHist";
    "returnChartData"; "returnCurrencies"; "returnLoanOrders" ].

Definition PRIVATE_COMMANDS : list string :=
  [ "returnBalances"; "returnCompleteBalances"; "returnDepositAddresses";
    "generateNewAddress"; "returnDepositsWithdrawals"; "returnOpenOrders";
    "returnTradeHistory"; "returnAvailableAccountBalances";
    "returnTradableBalances"; "returnOpenLoanOffers"; "returnOrderTrades";
    "returnOrderStatus"; "returnActiveLoans"; "returnLendingHistory";
    "createLoanOffer"; "cancelLoanOffer"; "toggleAutoRenew"; "buy"; "sell";
    "cancelOrder"; "cancelAllOrders"; "moveOrder"; "withdraw";
    "returnFeeInfo"; "transferBalance"; "returnMarginAccountSummary";
    "marginBuy"; "marginSell"; "getMarginPosition"; "closeMarginPosition" ].

(** [command in COMMANDS]. *)
Definition command_in (command : string) (l : list string) : bool :=
  existsb (String.eqb command) l.

(** The stride of the nonce property. *)
Definition stride : Z := 42.

(** [int("{:.6f}".format(time()).replace('.', ''))], where the formatting
    renders the clock as [us] microseconds; [None] is [ValueError]. *)
Definition seed_nonce (us : Z) : option Z :=
  Text.int_of_str (Text.remove_dots (Text.format_6f us)).

(** The part of [__init__] that creates the nonce: the world a fresh
    instance starts in, given the clock reading and the surroundings. *)
Definition __init__ (us : Z) (surroundings : World) : result World :=
  match seed_nonce us with
  | None => Raised ValueError
  | Some n =>
      Returned {| _nonce := n; default_args := default_args surroundings;
                  caller_args := caller_args surroundings;
                  log := log surroundings; network := network surroundings;
                  requests := requests surroundings |}
  end.

(** The [nonce] property: [self._nonce += 42; return self._nonce]. *)
Definition nonce : M Z :=
  n <- get_nonce ;;
  set_nonce (n + stride) ;;;
  n' <- get_nonce ;;
  emit (EvNonce n') ;;;
  ret n'.

(** The only other assignment to [self._nonce] in the class: the
    resynchronisation inside [_handleReturned]. *)
Definition resync (v : Z) : M unit := set_nonce v.

(** The values of [n] successive reads of the property, oldest first. *)
Fixpoint nonce_reads (n : nat) (w : World) : list Z :=
  match n with
  | O => []
  | S n' =>
      match nonce w with
      | (Returned v, w') => v :: nonce_reads n' w'
      | (Raised _, _) => []
      end
  end.

Inductive cmdType : Type := Private | Public.

Definition _checkCmd (self : Instance) (command : string) : M cmdType :=
  if command_in command PRIVATE_COMMANDS then
    if negb (truthy (key self)) || negb (truthy (secret self)) then
      raise (PoloniexError
               ("An Api Key and Secret needed for command '" ++ command ++ "'"))
    else ret Private
  else if command_in command PUBLIC_COMMANDS then ret Public
  else raise (PoloniexError ("Invalid Command!: " ++ command)).

(** [data.status_code == 502 or data.status_code == 504 or
    data.status_code in range(520, 527, 1)]. *)
Definition gateway_status (c : Z) : bool :=
  (c =? 502) || (c =? 504) || ((520 <=? c) && (c <? 527)).

(** ['error' in v] ([needle in v] in general): key membership in a dict,
    element membership in a list, substring of a text; [None] is the
    [TypeError] of a value that is not a container. *)
Definition py_in (needle : string) (v : pyval) : option bool :=
  match v with
  | PDict d => Some (dict_has d needle)
  | PList l => Some (existsb (fun x => py_eq_str x needle) l)
  | PStr s => Some (Text.contains needle s)
  | _ => None
  end.

(** [v['error']]: defined on a dict only; a list or a text raises
    [TypeError] on a text index. *)
Definition py_getitem (v : pyval) (k : string) : result pyval :=
  match v with
  | PDict d =>
      match dict_get d k with
      | Some x => Returned x
      | None => Raised KeyError
      end
  | _ => Raised TypeError
  end.

(** [int(err.split('.')[0].split()[-1])]. *)
Definition nonce_of_error (err : string) : result Z :=
  match Text.last_item (Text.split (Text.split_dot_head err)) with
  | None => Raised IndexError
  | Some word =>
      match Text.int_of_str word with
      | None => Raised ValueError
      | Some n => Returned n
      end
  end.

Definition lift {A} (r : result A) : M A := fun w => (r, w).

Definition _handleReturned (data : response) : M pyval :=
  if match status_code data with
     | Some c => gateway_status c
     | None => false
     end
  then
    emit (EvLog Error (PStr (text data))) ;;;
    raise (RequestException
             ("Poloniex Network Error " ++
              Text.str_of_Z (match status_code data with Some c => c | None => 0 end)))
  else
    match decoded data with
    | None =>
        emit (EvLog Error (PStr (text data))) ;;;
        raise (PoloniexError "Invalid json response returned")
    | Some out =>
        match py_in "error" out with
        | None => raise TypeError
        | Some false => ret out
        | Some true =>
            err <- lift (py_getitem out "error") ;;
            emit (EvLog Error err) ;;;
            match err with
            | PStr s =>
                if Text.contains "Nonce must be greater" s then
                  n <- lift (nonce_of_error s) ;;
                  resync n ;;;
                  raise (RequestException ("PoloniexError " ++ s))
                else if Text.contains "please try again" (Text.lower s) then
                  raise (RequestException ("PoloniexError " ++ s))
                else raise (PoloniexError s)
            | PList _ | PDict _ => raise AttributeError  (* no .split / .lower *)
            | _ => raise TypeError                       (* not iterable *)
            end
        end
    end.

(** [payload['proxies']] is set only [if self.proxies], and then to
    [self.proxies] itself. *)
Definition proxies_if_any (self : Instance) : option dict :=
  match proxies self with
  | Some [] | None => None
  | Some p => Some p
  end.

(** The function [_retry] decorates: one attempt of [__call__]. *)
Definition __call__func (self : Instance) (command : string) (args : argref)
  : M pyval :=
  cmdType <- _checkCmd self command ;;
  args_setitem args "command" (PStr command) ;;;
  match cmdType with
  | Private =>
      when (coach self) (emit EvWait) ;;;
      n <- nonce ;;
      args_setitem args "nonce" (PInt n) ;;;
      data <- read_args args ;;
      let sign := HmacSha512 (cred_text (secret self)) data in
      emit (EvSign sign) ;;;
      ret_ <- send (EvPost {| p_timeout := timeout self;
                              p_url := TradingApi;
                              p_data := Some data;
                              p_headers := Some (sign, key self);
                              p_proxies := proxies_if_any self |}) ;;
      _handleReturned ret_
  | Public =>
      query <- read_args args ;;
      when (coach self) (emit EvWait) ;;;
      ret_ <- send (EvGet {| p_timeout := timeout self;
                             p_url := PublicQuery query;
                             p_data := None;
                             p_headers := None;
                             p_proxies := proxies_if_any self |}) ;;
      _handleReturned ret_
  end.

(** The loop of the decorator: [for delay in chain(retryDelays, [None])].
    [problems] is the list of failures so far (their texts). *)
Fixpoint retrying (func : M pyval) (delays : list (option Z))
         (problems : list string) : M pyval :=
  match delays with
  | [] => ret PNone
  | delay :: rest =>
      try_except func
        (fun problem =>
           let problems' := (problems ++ [problem])%list in
           match delay with
           | None =>
               emit (EvLog Debug (PList (map PStr problems'))) ;;;
               raise (RetryException ("retryDelays exhausted " ++ problem))
           | Some d =>
               emit (EvLog Debug (PStr problem)) ;;;
               emit (EvLog Info (PStr ("-- delaying for " ++ Text.str_of_Z d ++ "s"))) ;;;
               emit (EvSleep d) ;;;
               retrying func rest problems'
           end)
  end.

Definition _retry (func : M pyval) : M pyval :=
  retrying func (map Some retryDelays ++ [None]) [].

Definition __call__ (self : Instance) (command : string) (args : argref)
  : M pyval :=
  _retry (__call__func self command args).

(** Observations on a log. *)
Definition sleeps (tr : list event) : list Z :=
  flat_map (fun e => match e with EvSleep d => [d] | _ => [] end) tr.

Definition callbacks (tr : list event) : list (handler * list pyval) :=
  flat_map (fun e => match e with EvCallback h m => [(h, m)] | _ => [] end) tr.

Definition is_wait (e : event) : bool :=
  match e with EvWait => true | _ => false end.
Definition is_nonce (e : event) : bool :=
  match e with EvNonce _ => true | _ => false end.
Definition is_sign (e : event) : bool :=
  match e with EvSign _ => true | _ => false end.
Definition is_post (e : event) : bool :=
  match e with EvPost _ => true | _ => false end.
Definition is_network (e : event) : bool :=
  match e with EvPost _ | EvGet _ => true | _ => false end.

(** Some [p] event comes strictly before some [q] event. *)
Fixpoint before (p q : event -> bool) (tr : list event) : bool :=
  match tr with
  | [] => false
  | e :: tr' => (p e && existsb q tr') || before p q tr'
  end.

(* ================================================================== *)
(** ** PoloniexSocketed: the channel registry and [on_message] *)
(* ================================================================== *)

(** One entry of [self.channels]: the ['id'] and, when the keys are
    present, ['sub'] and ['callback']. *)
Record Channel : Type := {
  ch_id : string;
  ch_sub : option bool;
  ch_callback : option handler
}.

(** [self.channels], in insertion order. *)
Definition registry := list (string * Channel).

(** [self.channels[chan]]; [None] is [KeyError]. *)
Fixpoint channels_get (channels : registry) (chan : string) : option Channel :=
  match channels with
  | [] => None
  | (name, c) :: rest =>
      if String.eqb name chan then Some c else channels_get rest chan
  end.

(** The registry [__init__] builds before the markets are added. *)
Definition static_channels : registry :=
  [ ("account",   {| ch_id := "1000"; ch_sub := None; ch_callback := None |});
    ("ticker",    {| ch_id := "1002"; ch_sub := None; ch_callback := None |});
    ("24hvolume", {| ch_id := "1003"; ch_sub := None; ch_callback := None |});
    ("heartbeat", {| ch_id := "1010"; ch_sub := None;
                     ch_callback := Some on_heartbeat |}) ].

(** [next((chan for chan in self.channels
           if self.channels[chan]['id'] == id), False)];
    [None] is the default [False]. *)
Fixpoint _getChannelName (channels : registry) (id : string) : option string :=
  match channels with
  | [] => None
  | (name, c) :: rest =>
      if String.eqb (ch_id c) id then Some name else _getChannelName rest id
  end.

(** A decoded inbound message: a JSON array or a JSON object. *)
Inductive frame : Type :=
| FList (l : list pyval)
| FDict (d : dict).

(** [chan == name], where [chan] is a channel name or [False]. *)
Definition chan_is (chan : option string) (name : string) : bool :=
  match chan with
  | Some c => String.eqb c name
  | None => false
  end.

(** ['%s' % chan]. *)
Definition chan_text (chan : option string) : string :=
  match chan with
  | Some c => c
  | None => "False"
  end.

Section Socket.

(** [str(v)] of a list or a dict: the text of a container is never
    inspected by the handler beyond comparing it with the channel ids, so
    it is left open. *)
Variable container_str : pyval -> string.

(** [str(v)]. *)
Definition py_str (v : pyval) : string :=
  match v with
  | PNone => "None"
  | PBool true => "True"
  | PBool false => "False"
  | PInt z => Text.str_of_Z z
  | PStr s => s
  | PList _ | PDict _ => container_str v
  end.

(** The acknowledgment test of [on_message], for a channel that is not the
    heartbeat: [Some true] when the handler has returned [False] (the frame
    was an acknowledgment), [Some false] to go on. *)
Definition ack_check (chan : option string) (l : list pyval) : M bool :=
  if negb (chan_is chan "heartbeat") then
    match nth_error l 1 with
    | None => raise IndexError
    | Some m1 =>
        if py_eq_int m1 1 then
          emit (EvLog Debug (PStr ("Subscribed to " ++ chan_text chan))) ;;;
          ret true
        else if py_eq_int m1 0 then
          emit (EvLog Debug (PStr ("Unsubscribed to " ++ chan_text chan))) ;;;
          ret true
        else ret false
    end
  else ret false.

(** [on_message] on the decoded [message]. *)
Definition on_message (channels : registry) (message : frame) : M pyval :=
  match message with
  | FDict d =>
      match dict_get d "error" with
      | Some e => emit (EvLog Error e) ;;; ret PNone
      | None => raise KeyError              (* message[0] on a dict *)
      end
  | FList l =>
      if existsb (fun v => py_eq_str v "error") l then
        raise TypeError                     (* message['error'] on a list *)
      else
        match nth_error l 0 with
        | None => raise IndexError
        | Some m0 =>
            let chan := _getChannelName channels (py_str m0) in
            acked <- ack_check chan l ;;
            if acked then ret (PBool false)
            else
              match chan with
              | None => raise KeyError      (* self.channels[False] *)
              | Some name =>
                  match channels_get channels name with
                  | None => raise KeyError
                  | Some c =>
                      match ch_callback c with
                      | None => ret PNone
                      | Some cb =>
                          msg <- (if String.eqb name "heartbeat" then
                                    emit (EvCallback cb l) ;;; ret l
                                  else if command_in name ["ticker"; "24hvolume"]
                                  then ret (skipn 2 l)
                                  else ret (skipn 1 l)) ;;
                          emit (EvCallback cb msg) ;;;
                          ret PNone
                      end
                  end
              end
        end
  end.

End Socket.

(** A world for examples: nothing sent, nothing logged, and a remote side
    that answers every request with [r]. *)
Definition world0 (n : Z) (r : net_outcome) : World :=
  {| _nonce := n; default_args := []; caller_args := []; log := [];
     network := fun _ => r; requests := 0 |}.

(** The same, with a remote side that answers the n-th request with
    [net n]. *)
Definition world_net (n : Z) (net : nat -> net_outcome) : World :=
  {| _nonce := n; default_args := []; caller_args := []; log := [];
     network := net; requests := 0 |}.

Definition ok_response (out : pyval) : net_outcome :=
  NetResponse {| status_code := Some 200; text := ""; decoded := Some out |}.

Definition status_response (c : Z) : net_outcome :=
  NetResponse {| status_code := Some c; text := ""; decoded := None |}.

Definition error_response (msg : string) : net_outcome :=
  NetResponse {| status_code := Some 200; text := "";
                 decoded := Some (PDict [("error", PStr msg)]) |}.

(** A remote side that answers 504 once and then rejects the order. *)
Definition flaky (i : nat) : net_outcome :=
  match i with
  | O => status_response 504
  | S _ => error_response "Some unrelated problem"
  end.

(** Remote sides that answer with gateway statuses only. *)
Definition always_502 (i : nat) : net_outcome := status_response 502.

Definition four_504_then_502 (i : nat) : net_outcome :=
  if (i <? 4)%nat then status_response 504 else status_response 502.

(** A registry after [setSubscribes]: the static channels, the ticker
    with a callback, and one market with a callback. *)
Definition subscribed_channels : registry :=
  [ ("account",   {| ch_id := "1000"; ch_sub := None; ch_callback := None |});
    ("ticker",    {| ch_id := "1002"; ch_sub := Some true;
                     ch_callback := Some (user_handler 1) |});
    ("24hvolume", {| ch_id := "1003"; ch_sub := None; ch_callback := None |});
    ("heartbeat", {| ch_id := "1010"; ch_sub := None;
                     ch_callback := Some on_heartbeat |});
    ("BTC_ETH",   {| ch_id := "148"; ch_sub := Some true;
                     ch_callback := Some (user_handler 2) |}) ].

(** An instance with credentials and a coach. *)
Definition trader : Instance :=
  {| key := CredStr "K"; secret := CredStr "S"; timeout := None;
     coach := true; proxies := None |}.

(** An instance as [PoloniexBase()] makes it: no credentials. *)
Definition anonymous : Instance :=
  {| key := CredFalse; secret := CredFalse; timeout := None;
     coach := true; proxies := None |}.

(** ** Vocabulary of the statements *)

(** The command passes [_checkCmd]: it is a private command and both
    credentials are set, or it is a public command. *)
Definition dispatchable (self : Instance) (command : string) : bool :=
  if command_in command PRIVATE_COMMANDS
  then truthy (key self) && truthy (secret self)
  else command_in command PUBLIC_COMMANDS.

Definition is_log (e : event) : bool :=
  match e with EvLog _ _ => true | _ => false end.

(** The failure is one the decorator retries. *)
Definition is_retryable (e : exn) : bool :=
  match e with RequestException _ => true | _ => false end.

(** What an attempt makes of the remote side's answer: the exception of
    the transport, or the verdict of [_handleReturned] (which does not
    depend on the world it runs in, see [handleReturned_result]). *)
Definition reply_result (o : net_outcome) : result pyval :=
  match o with
  | NetRaises e => Raised e
  | NetResponse r => fst (_handleReturned r (world0 0 o))
  end.

(** The ['nonce'] entries of the bodies posted, oldest first. *)
Definition posted_nonces (tr : list event) : list (option pyval) :=
  flat_map (fun e => match e with
                     | EvPost p =>
                         [match p_data p with
                          | Some d => dict_get d "nonce"
                          | None => None
                          end]
                     | _ => []
                     end) tr.

(** The failures the decorator has logged on giving up. *)
Definition logged_problems (tr : list event) : list pyval :=
  flat_map (fun e => match e with
                     | EvLog Debug (PList l) => l
                     | _ => []
                     end) tr.

(** The argument dictionary as an attempt leaves it: ['command'] set,
    and for a private command ['nonce'] set to the nonce [n] just read. *)
Definition prepared_args (command : string) (t : cmdType) (n : Z) (d : dict)
  : dict :=
  match t with
  | Private => dict_set (dict_set d "command" (PStr command)) "nonce" (PInt n)
  | Public => dict_set d "command" (PStr command)
  end.

(** What an attempt does up to and including the request, in order. *)
Definition attempt_events (self : Instance) (t : cmdType) (n : Z) (data : dict)
  : list event :=
  ((if coach self then [EvWait] else []) ++
   match t with
   | Private =>
       [ EvNonce n;
         EvSign (HmacSha512 (cred_text (secret self)) data);
         EvPost {| p_timeout := timeout self;
                   p_url := TradingApi;
                   p_data := Some data;
                   p_headers :=
                     Some (HmacSha512 (cred_text (secret self)) data, key self);
                   p_proxies := proxies_if_any self |} ]
   | Public =>
       [ EvGet {| p_timeout := timeout self;
                  p_url := PublicQuery data;
                  p_data := None;
                  p_headers := None;
                  p_proxies := proxies_if_any self |} ]
   end)%list.

(** The steps of a retried call as its log shows them, in order: the
    steps of an attempt up to its request, and what the decorator does
    after a failed attempt (its debug line, its announcement, its sleep).
    The lines [_handleReturned] writes (at error level) are left out, and
    so is what a wait, a nonce, a signature or a request carries. *)
Inductive step : Type :=
| Waits
| ReadsNonce
| Signs
| Requests
| LogsDebug (what : pyval)          (* logger.debug(what) *)
| LogsInfo (what : pyval)      (* logger.info(what) *)
| Sleeps (d : Z).

Definition step_of (e : event) : list step :=
  match e with
  | EvWait => [Waits]
  | EvNonce _ => [ReadsNonce]
  | EvSign _ => [Signs]
  | EvPost _ | EvGet _ => [Requests]
  | EvSleep d => [Sleeps d]
  | EvLog Debug what => [LogsDebug what]
  | EvLog Info what => [LogsInfo what]
  | EvLog _ _ | EvCallback _ _ => []
  end.

Definition steps (tr : list event) : list step := flat_map step_of tr.

(** The steps of one attempt of [__call__]. *)
Definition attempt_steps (self : Instance) (t : cmdType) : list step :=
  ((if coach self then [Waits] else []) ++
   match t with
   | Private => [ReadsNonce; Signs; Requests]
   | Public => [Requests]
   end)%list.

(** What the decorator does after a retryable failure that a delay
    follows: [logger.debug(problem)], the announcement, [sleep(delay)]. *)
Definition backoff (problem : string) (d : Z) : list step :=
  [ LogsDebug (PStr problem);
    LogsInfo (PStr ("-- delaying for " ++ Text.str_of_Z d ++ "s"));
    Sleeps d ].

(** Failed attempts, each followed by the back-off for its failure and
    its delay. *)
Fixpoint failed_rounds (attempt : list step) (problems : list string)
         (delays : list Z) : list step :=
  match problems, delays with
  | problem :: problems', d :: delays' =>
      (attempt ++ backoff problem d ++ failed_rounds attempt problems' delays')%list
  | _, _ => []
  end.

Definition args_of (args : argref) (w : World) : dict :=
  match args with
  | ArgDefault => default_args w
  | ArgCaller => caller_args w
  end.

(** The world of an attempt at the moment its request has left. *)
Definition sent_world (self : Instance) (command : string) (args : argref)
           (t : cmdType) (w : World) : World :=
  let n := _nonce w + stride in
  let data := prepared_args command t n (args_of args w) in
  {| _nonce := match t with Private => n | Public => _nonce w end;
     default_args := match args with
                     | ArgDefault => data
                     | ArgCaller => default_args w
                     end;
     caller_args := match args with
                    | ArgDefault => caller_args w
                    | ArgCaller => data
                    end;
     log := (log w ++ attempt_events self t n data)%list;
     network := network w;
     requests := S (requests w) |}.

Definition cmdType_of (command : string) : cmdType :=
  if command_in command PRIVATE_COMMANDS then Private else Public.

(** The first test of [_handleReturned]: the response has a status code
    and it is one of the gateway errors. *)
Definition gateway_error (data : response) : bool :=
  match status_code data with
  | Some c => gateway_status c
  | None => false
  end.

(** The events a computation added to the log of [w]. *)
Definition added (w w' : World) : list event :=
  skipn (length (log w)) (log w').

(** What [__call__] leaves in the caller's dictionary: ['command'] is the
    command; for a private command ['nonce'] is an integer, for a public
    command ['nonce'] is as it was; every other key is as it was; and the
    default dictionary is untouched. *)
Definition call_left_args (command : string) (w w' : World) : Prop :=
  dict_get (caller_args w') "command" = Some (PStr command)
  /\ (forall k, k <> "command" -> k <> "nonce" ->
                dict_get (caller_args w') k = dict_get (caller_args w) k)
  /\ (cmdType_of command = Private ->
      exists n, dict_get (caller_args w') "nonce" = Some (PInt n))
  /\ (cmdType_of command = Public ->
      dict_get (caller_args w') "nonce" = dict_get (caller_args w) "nonce")
  /\ default_args w' = default_args w.

(** The frame is not taken for an error frame: ['error' in message] is
    false. *)
Definition not_error_frame (l : list pyval) : bool :=
  negb (existsb (fun v => py_eq_str v "error") l).

(** The second element equals 1 or 0 ([message[1] == 1] or
    [message[1] == 0]). *)
Definition is_ack (m1 : pyval) : bool := py_eq_int m1 1 || py_eq_int m1 0.

(* ================================================================== *)
(** ** More of PoloniexBase and Poloniex *)
(* ================================================================== *)

Definition upper_ascii (c : ascii) : ascii :=
  let n := nat_of_ascii c in
  if ((97 <=? n) && (n <=? 122))%nat then ascii_of_nat (n - 32) else c.

(** [s.upper()], on the ASCII range. *)
Fixpoint upper (s : string) : string :=
  match s with
  | EmptyString => EmptyString
  | String c s' => String (upper_ascii c) (upper s')
  end.

(** Truth value of a value: [if v:]. *)
Definition py_truthy (v : pyval) : bool :=
  match v with
  | PNone => false
  | PBool b => b
  | PInt z => negb (z =? 0)
  | PStr s => negb (Text.is_empty s)
  | PList l => match l with [] => false | _ => true end
  | PDict d => match d with [] => false | _ => true end
  end.

(** [v in texts] for a list of text literals: the text [v] is equal to,
    if any. *)
Definition member_text (v : pyval) (texts : list string) : option string :=
  match v with
  | PStr t => if command_in t texts then Some t else None
  | _ => None
  end.

(** [v in numbers] for a list of integer literals. *)
Definition member_int (v : pyval) (numbers : list Z) : bool :=
  existsb (py_eq_int v) numbers.

(** [self.__call__(command, d)] with a dictionary [d] made for the call. *)
Definition call_with (self : Instance) (command : string) (d : dict) : M pyval :=
  fun w =>
    __call__ self command ArgCaller
      {| _nonce := _nonce w; default_args := default_args w;
         caller_args := d; log := log w;
         network := network w; requests := requests w |}.

Section Endpoints.

Variable container_str : pyval -> string.

Let str (v : pyval) : string := py_str container_str v.

(** The arguments [marketTradeHist] builds. *)
Definition marketTradeHist_args (currencyPair start end_ : pyval) : dict :=
  let args := [("command", PStr "returnTradeHistory");
               ("currencyPair", PStr (upper (str currencyPair)))] in
  let args := if py_truthy start then dict_set args "start" start else args in
  if py_truthy end_ then dict_set args "end" end_ else args.

(** The function [_retry] decorates: one attempt of [marketTradeHist]. *)
Definition marketTradeHist_func (self : Instance) (currencyPair start end_ : pyval)
  : M pyval :=
  when (coach self) (emit EvWait) ;;;
  ret_ <- send (EvGet {| p_timeout := timeout self;
                         p_url := PublicQuery
                                    (marketTradeHist_args currencyPair start end_);
                         p_data := None;
                         p_headers := None;
                         p_proxies := None |}) ;;
  _handleReturned ret_.

Definition marketTradeHist (self : Instance) (currencyPair start end_ : pyval)
  : M pyval :=
  _retry (marketTradeHist_func self currencyPair start end_).

Definition returnTicker (self : Instance) : M pyval :=
  __call__ self "returnTicker" ArgDefault.

Definition returnBalances (self : Instance) : M pyval :=
  __call__ self "returnBalances" ArgDefault.

(** [returnChartData]; [day_ago] and [now] are the texts of
    [str(time() - self.DAY)] and [str(time())] at the call. *)
Definition returnChartData (self : Instance) (day_ago now : string)
           (currencyPair period start end_ : pyval) : M pyval :=
  if negb (member_int period [300; 900; 1800; 7200; 14400; 86400]) then
    raise (PoloniexError (str period ++ " invalid candle period"))
  else
    let start_text := if negb (py_truthy start) then day_ago else str start in
    let end_text := if negb (py_truthy end_) then now else str end_ in
    call_with self "returnChartData"
      [ ("currencyPair", PStr (upper (str currencyPair)));
        ("period", PStr (str period));
        ("start", PStr start_text);
        ("end", PStr end_text) ].

Definition buy (self : Instance) (currencyPair rate amount orderType : pyval)
  : M pyval :=
  let args := [ ("currencyPair", PStr (upper (str currencyPair)));
                ("rate", PStr (str rate));
                ("amount", PStr (str amount)) ] in
  if py_truthy orderType then
    match member_text orderType ["fillOrKill"; "immediateOrCancel"; "postOnly"] with
    | None => raise (PoloniexError "Invalid orderType")
    | Some t => call_with self "buy" (dict_set args t (PInt 1))
    end
  else call_with self "buy" args.

Definition sell (self : Instance) (currencyPair rate amount orderType : pyval)
  : M pyval :=
  let args := [ ("currencyPair", PStr (upper (str currencyPair)));
                ("rate", PStr (str rate));
                ("amount", PStr (str amount)) ] in
  if py_truthy orderType then
    match member_text orderType ["fillOrKill"; "immediateOrCancel"; "postOnly"] with
    | None => raise (PoloniexError "Invalid orderType")
    | Some t => call_with self "sell" (dict_set args t (PInt 1))
    end
  else call_with self "sell" args.

Definition moveOrder (self : Instance) (orderNumber rate amount orderType : pyval)
  : M pyval :=
  let args := [ ("orderNumber", PStr (str orderNumber));
                ("rate", PStr (str rate)) ] in
  let args := if py_truthy amount
              then dict_set args "amount" (PStr (str amount)) else args in
  if py_truthy orderType then
    match member_text orderType ["immediateOrCancel"; "postOnly"] with
    | None => raise (PoloniexError ("Invalid orderType: " ++ str orderType))
    | Some t => call_with self "moveOrder" (dict_set args t (PInt 1))
    end
  else call_with self "moveOrder" args.

End Endpoints.

(* ================================================================== *)
(** ** More of PoloniexSocketed *)
(* ================================================================== *)

Inductive sub_command : Type := Subscribe | Unsubscribe.

(** The JSON object [self.socket.send] is given: the plain one, and the
    signed one of the account channel. *)
Inductive out_frame : Type :=
| Plain (c : sub_command) (channel : string)
| Signed (c : sub_command) (channel : string) (sign : mac) (k : credential)
         (payload : dict).

(** What the socket methods do to their surroundings, oldest first: the
    calls they make to the socket, the thread, [sleep] and the logger.
    The calls are recorded as made; [send], [start] and [join] of the
    libraries are taken to return. *)
Inductive sock_event : Type :=
| SoSend (f : out_frame)                 (* self.socket.send(_dumps(f)) *)
| SoSleep (d : Z)                        (* sleep(wait) *)
| SoClose                                (* self.socket.close() *)
| SoJoin                                 (* self._t.join() *)
| SoStart                                (* self._t.start() *)
| SoLog (l : level) (what : string).     (* self.logger.<level>(what) *)

(** The state of a [PoloniexSocketed]: the state of the base class, the
    registry, the thread ([_t] is set once [startws] has made it) and the
    running flag, with the trace [wire] of what was sent and done.
    [close_error] is what [self.socket.close()] raises, if it raises. *)
Record Socketed : Type := {
  base : World;
  channels : registry;
  wire : list sock_event;
  _running : bool;
  _t : bool;
  close_error : option string
}.

Definition S_ (A : Type) : Type := Socketed -> result A * Socketed.

Definition with_channels (s : Socketed) (chs : registry) : Socketed :=
  {| base := base s; channels := chs; wire := wire s;
     _running := _running s; _t := _t s; close_error := close_error s |}.

Definition with_base (s : Socketed) (b : World) : Socketed :=
  {| base := b; channels := channels s; wire := wire s;
     _running := _running s; _t := _t s; close_error := close_error s |}.

Definition with_wire (s : Socketed) (e : sock_event) : Socketed :=
  {| base := base s; channels := channels s; wire := wire s ++ [e];
     _running := _running s; _t := _t s; close_error := close_error s |}.

(** [self.channels[name][...] = ...]: the entry of [name] is changed in
    place. *)
Fixpoint channels_update (chs : registry) (name : string)
         (f : Channel -> Channel) : registry :=
  match chs with
  | [] => []
  | (k, c) :: rest =>
      if String.eqb k name then (k, f c) :: rest
      else (k, c) :: channels_update rest name f
  end.

(** [self.channels[name] = c]: the entry is replaced, or added at the
    end. *)
Fixpoint channels_set (chs : registry) (name : string) (c : Channel) : registry :=
  match chs with
  | [] => [(name, c)]
  | (k, c0) :: rest =>
      if String.eqb k name then (k, c) :: rest
      else (k, c0) :: channels_set rest name c
  end.

Definition set_sub (b : bool) (c : Channel) : Channel :=
  {| ch_id := ch_id c; ch_sub := Some b; ch_callback := ch_callback c |}.

Definition set_callback (h : handler) (c : Channel) : Channel :=
  {| ch_id := ch_id c; ch_sub := ch_sub c; ch_callback := Some h |}.

(** ['sub' in self.channels[chan] and self.channels[chan]['sub']]. *)
Definition is_subscribed (c : Channel) : bool :=
  match ch_sub c with Some true => true | _ => false end.

(** The [chan] argument of the socket methods: a name, or an [int]. *)
Inductive chanref : Type :=
| ByName (name : string)
| ById (id : Z).

(** [if isinstance(chan, int): chan = self._getChannelName(str(chan))];
    [None] is [False]. *)
Definition resolve (chs : registry) (chan : chanref) : option string :=
  match chan with
  | ByName name => Some name
  | ById id => _getChannelName chs (Text.str_of_Z id)
  end.

(** The signed frame of the account channel, with a nonce just read. *)
Definition account_frame (self : Instance) (c : sub_command) (id : string) (n : Z)
  : out_frame :=
  Signed c id (HmacSha512 (cred_text (secret self)) [("nonce", PInt n)])
         (key self) [("nonce", PInt n)].

(** The part [subscribe] and [unsubscribe] share for the account channel:
    read the nonce, sign it, send the frame with the id of the channel. *)
Definition send_account (self : Instance) (c : sub_command) : S_ pyval :=
  fun s =>
    match nonce (base s) with
    | (Raised e, b) => (Raised e, with_base s b)
    | (Returned n, b) =>
        match channels_get (channels s) "account" with
        | None => (Raised KeyError, with_base s b)
        | Some ch =>
            (Returned PNone,
             with_wire (with_base s b) (SoSend (account_frame self c (ch_id ch) n)))
        end
    end.

Definition send_plain (c : sub_command) (name : string) : S_ pyval :=
  fun s =>
    match channels_get (channels s) name with
    | None => (Raised KeyError, s)
    | Some ch => (Returned PNone, with_wire s (SoSend (Plain c (ch_id ch))))
    end.

(** [self.channels[name]['sub'] = b] and, when [callback] is given,
    [self.channels[name]['callback'] = callback]; [KeyError] when there is
    no such channel ([name] is [None] for [False]). *)
Definition mark (name : option string) (b : bool) (callback : option handler)
  : S_ string :=
  fun s =>
    match name with
    | None => (Raised KeyError, s)
    | Some k =>
        match channels_get (channels s) k with
        | None => (Raised KeyError, s)
        | Some _ =>
            let chs := channels_update (channels s) k (set_sub b) in
            let chs := match callback with
                       | Some h => channels_update chs k (set_callback h)
                       | None => chs
                       end in
            (Returned k, with_channels s chs)
        end
    end.

Definition subscribe (self : Instance) (chan : chanref) (callback : option handler)
  : S_ pyval :=
  fun s =>
    let chan := resolve (channels s) chan in
    if chan_is chan "account" then
      if negb (truthy (key self)) || negb (truthy (secret self)) then
        (Raised (PoloniexError
                   "self.key and self.secret needed for 'account' channel"), s)
      else
        match mark chan true callback s with
        | (Raised e, s') => (Raised e, s')
        | (Returned _, s') => send_account self Subscribe s'
        end
    else
      match mark chan true callback s with
      | (Raised e, s') => (Raised e, s')
      | (Returned k, s') => send_plain Subscribe k s'
      end.

Definition unsubscribe (self : Instance) (chan : chanref) : S_ pyval :=
  fun s =>
    let chan := resolve (channels s) chan in
    if chan_is chan "account" then
      if negb (truthy (key self)) || negb (truthy (secret self)) then
        (Raised (PoloniexError
                   "self.key and self.secret needed for 'account' channel"), s)
      else
        match mark chan false None s with
        | (Raised e, s') => (Raised e, s')
        | (Returned _, s') => send_account self Unsubscribe s'
        end
    else
      match mark chan false None s with
      | (Raised e, s') => (Raised e, s')
      | (Returned k, s') => send_plain Unsubscribe k s'
      end.

(** [setCallback]. *)
Definition setCallback (chan : chanref) (callback : handler) : S_ pyval :=
  fun s =>
    match resolve (channels s) chan with
    | None => (Raised KeyError, s)
    | Some k =>
        match channels_get (channels s) k with
        | None => (Raised KeyError, s)
        | Some _ =>
            (Returned PNone,
             with_channels s (channels_update (channels s) k (set_callback callback)))
        end
    end.

(** [setSubscribes], on its keyword arguments in their order. *)
Fixpoint setSubscribes (subs : list (string * handler)) : S_ pyval :=
  match subs with
  | [] => fun s => (Returned PNone, s)
  | (sub, callback) :: rest =>
      fun s =>
        match channels_get (channels s) sub with
        | None =>
            setSubscribes rest
              (with_wire s (SoLog Warning ("Invalid channel: " ++ sub)))
        | Some _ =>
            setSubscribes rest
              (with_channels s
                 (channels_update
                    (channels_update (channels s) sub (set_sub true))
                    sub (set_callback callback)))
        end
  end.

(** [for chan in self.channels: if subscribed: self.<method>(chan)], over
    the names the registry has when the loop starts. *)
Fixpoint for_subscribed (method : chanref -> S_ pyval) (names : list string)
  : S_ pyval :=
  match names with
  | [] => fun s => (Returned PNone, s)
  | name :: rest =>
      fun s =>
        match channels_get (channels s) name with
        | None => (Raised KeyError, s)
        | Some c =>
            if is_subscribed c then
              match method (ByName name) s with
              | (Raised e, s') => (Raised e, s')
              | (Returned _, s') => for_subscribed method rest s'
              end
            else for_subscribed method rest s
        end
  end.

(** [on_open]. *)
Definition on_open (self : Instance) : S_ pyval :=
  fun s =>
    for_subscribed (fun chan => subscribe self chan None)
                   (map fst (channels s)) s.



(** The loop of [PoloniexSocketed.__init__] over the ticker:
    [self.channels[market] = {'id': str(tick[market]['id'])}]. *)
Fixpoint add_markets (container_str : pyval -> string) (chs : registry)
         (tick : dict) : result registry :=
  match tick with
  | [] => Returned chs
  | (market, entry) :: rest =>
      match py_getitem entry "id" with
      | Raised e => Raised e
      | Returned id =>
          add_markets container_str
            (channels_set chs market
               {| ch_id := py_str container_str id; ch_sub := None;
                  ch_callback := None |})
            rest
      end
  end.

(** The entry of a known channel after [mark]. *)
Definition marked (b : bool) (callback : option handler) (c : Channel) : Channel :=
  {| ch_id := ch_id c; ch_sub := Some b;
     ch_callback := match callback with
                    | Some h => Some h
                    | None => ch_callback c
                    end |}.

(** A [PoloniexSocketed] that has not been started: nothing sent yet. *)
Definition socketed (b : World) (chs : registry) : Socketed :=
  {| base := b; channels := chs; wire := []; _running := false; _t := false;
     close_error := None |}.

(** [s] with more events on the wire. *)
Definition with_events (s : Socketed) (es : list sock_event) : Socketed :=
  {| base := base s; channels := channels s; wire := wire s ++ es;
     _running := _running s; _t := _t s; close_error := close_error s |}.

(** The registry once every subscribed channel has had its ['sub'] set to
    [b]. *)
Definition resubscribed (b : bool) (chs : registry) : registry :=
  map (fun entry =>
         (fst entry,
          if is_subscribed (snd entry) then set_sub b (snd entry) else snd entry))
      chs.

(** What the subscribed channels make [on_open] and [stopws] send. *)
Definition frames_for (c : sub_command) (chs : registry) : list sock_event :=
  flat_map (fun entry =>
              if is_subscribed (snd entry)
              then [SoSend (Plain c (ch_id (snd entry)))] else [])
           chs.

Definition sent_frames (tr : list sock_event) : list out_frame :=
  flat_map (fun e => match e with SoSend f => [f] | _ => [] end) tr.

(** ** Vocabulary of the further statements *)

(** The text is made of ASCII characters.  Beyond ASCII there are
    further decimal digits and blanks, which [int] and [split] read and
    the model does not. *)
Definition ascii_text (s : string) : bool := Text.all_chars Text.is_ascii s.

(** An error text in which every interpreter from 3.6 on reads the same
    number, and the model with them: ASCII, and at most 640 characters
    long, which keeps its numeral under any cap an interpreter puts on
    the length of numerals. *)
Definition plainly_read (s : string) : bool :=
  ascii_text s && (String.length s <=? 640)%nat.

(** An event a public call may leave in the log: a wait, a GET without
    body and headers, a log line, a sleep. *)
Definition public_event (e : event) : bool :=
  match e with
  | EvWait | EvLog _ _ | EvSleep _ => true
  | EvGet p =>
      match p_data p, p_headers p with
      | None, None => true
      | _, _ => false
      end
  | _ => false
  end.

(** A POST of [command] by [self] is well signed: it goes to the trading
    endpoint, its body holds the command and an integer nonce, and its
    ['Sign'] header is the MAC, under the secret of [self], of that very
    body, beside the key of [self]. *)
Definition signed_post (self : Instance) (command : string) (e : event) : Prop :=
  match e with
  | EvPost p =>
      exists d n,
        p_data p = Some d
        /\ p_url p = TradingApi
        /\ p_headers p = Some (HmacSha512 (cred_text (secret self)) d, key self)
        /\ dict_get d "command" = Some (PStr command)
        /\ dict_get d "nonce" = Some (PInt n)
  | EvGet _ => False
  | _ => True
  end.

(** The GET of [marketTradeHist]: the query and the timeout, nothing
    else. *)
Definition market_request (self : Instance) (query : dict) : event :=
  EvGet {| p_timeout := timeout self; p_url := PublicQuery query;
           p_data := None; p_headers := None; p_proxies := None |}.

(** How many events of a log satisfy [p]. *)
Definition count_events (p : event -> bool) (tr : list event) : nat :=
  length (filter p tr).

(* ================================================================== *)
(** * Properties *)
(* ================================================================== *)

(** ** The definitions at work *)

Example str_of_Z_examples :
  Text.str_of_Z 1502 = "1502" /\ Text.str_of_Z (-40) = "-40" /\ Text.str_of_Z 0 = "0".
Proof. repeat split; reflexivity. Qed.

Example format_6f_example :
  Text.format_6f 1700000000012345 = "1700000000.012345".
Proof. vm_compute. reflexivity. Qed.

Example split_example :
  Text.split "  Nonce must  be " = ["Nonce"; "must"; "be"].
Proof. reflexivity. Qed.

Example nonce_of_error_examples :
  nonce_of_error "Nonce must be greater than 5000. You provided 1042." = Returned 5000
  /\ nonce_of_error "Nonce must be greater" = Raised ValueError
  /\ nonce_of_error ". Nonce must be greater" = Raised IndexError.
Proof. repeat split; vm_compute; reflexivity. Qed.

Example checkCmd_examples :
  fst (_checkCmd trader "buy" (world0 0 (status_response 200))) = Returned Private
  /\ fst (_checkCmd anonymous "returnTicker" (world0 0 (status_response 200)))
     = Returned Public
  /\ fst (_checkCmd anonymous "buy" (world0 0 (status_response 200)))
     = Raised (PoloniexError "An Api Key and Secret needed for command 'buy'").
Proof. repeat split; reflexivity. Qed.

(** A public call: the query is encoded, the coach is waited for, the GET
    leaves; the decoded body comes back. *)
Example public_call_example :
  let run := __call__ anonymous "returnTicker" ArgCaller
               (world0 7 (ok_response (PDict [("BTC_ETH", PStr "0.03")]))) in
  fst run = Returned (PDict [("BTC_ETH", PStr "0.03")])
  /\ log (snd run)
     = [ EvWait;
         EvGet {| p_timeout := None;
                  p_url := PublicQuery [("command", PStr "returnTicker")];
                  p_data := None; p_headers := None; p_proxies := None |} ]
  /\ _nonce (snd run) = 7.
Proof. cbv zeta. repeat split; vm_compute; reflexivity. Qed.

(** A body that is not JSON, and an error the exchange does not ask to
    retry, end the call at once. *)
Example fatal_responses_example :
  fst (__call__ anonymous "returnTicker" ArgCaller
         (world0 7 (NetResponse {| status_code := Some 200; text := "<html>";
                                   decoded := None |})))
  = Raised (PoloniexError "Invalid json response returned")
  /\ fst (__call__ anonymous "returnTicker" ArgCaller
            (world0 7 (error_response "Connection timed out. Please try again.")))
     = Raised (RetryException
                 "retryDelays exhausted PoloniexError Connection timed out. Please try again.").
Proof. repeat split; vm_compute; reflexivity. Qed.

(** An error object on the socket is logged and dropped. *)
Example error_frame_example :
  on_message (fun _ => "") static_channels
    (FDict [("error", PStr "Invalid channel.")]) (world0 0 (status_response 200))
  = (Returned PNone,
     snd (emit (EvLog Error (PStr "Invalid channel.")) (world0 0 (status_response 200)))).
Proof. reflexivity. Qed.

(** ** Text: rendering and reading integers *)

Module TextFacts.
Import Text.

Lemma digit_range (z : Z) : 0 <= z mod 10 < 10.
Proof. apply Z.mod_pos_bound. lia. Qed.

Lemma digit_cases (d : Z) :
  0 <= d < 10 ->
  d = 0 \/ d = 1 \/ d = 2 \/ d = 3 \/ d = 4 \/
  d = 5 \/ d = 6 \/ d = 7 \/ d = 8 \/ d = 9.
Proof. lia. Qed.

Ltac each_digit d H :=
  destruct (digit_cases d H) as [?|[?|[?|[?|[?|[?|[?|[?|[?|?]]]]]]]]]; subst d.

Lemma digit_roundtrip (d : Z) :
  0 <= d < 10 -> digit_of_ascii (ascii_of_digit d) = Some d.
Proof. intros H. each_digit d H; reflexivity. Qed.

Lemma digit_is_plain (d : Z) :
  0 <= d < 10 -> is_plain (ascii_of_digit d) = true.
Proof. intros H. each_digit d H; reflexivity. Qed.

Lemma digit_not_dot (d : Z) :
  0 <= d < 10 -> is_dot (ascii_of_digit d) = false.
Proof. intros H. each_digit d H; reflexivity. Qed.

(** Reading [n] fixed digits shifts the accumulator by [n] places. *)
Lemma int_digits_fixed (n : nat) :
  forall z rest a,
    int_digits (fixed_digits n z rest) a
    = int_digits rest (a * 10 ^ Z.of_nat n + z mod 10 ^ Z.of_nat n).
Proof.
  induction n as [|n IH]; intros z rest a.
  - cbn [fixed_digits]. f_equal. rewrite Z.pow_0_r, Z.mod_1_r. lia.
  - cbn [fixed_digits]. rewrite IH.
    cbn [int_digits]. rewrite digit_roundtrip by apply digit_range.
    f_equal. rewrite Nat2Z.inj_succ, Z.pow_succ_r by lia.
    rewrite (Z.rem_mul_r z 10 (10 ^ Z.of_nat n)) by lia. lia.
Qed.

(** Reading back the digits of [z] in front of [rest] continues reading
    [rest] from [z]. *)
Lemma int_digits_before (fuel : nat) :
  forall z rest,
    0 <= z < 10 ^ Z.of_nat fuel ->
    int_digits (digits_before fuel z rest) 0 = int_digits rest z.
Proof.
  induction fuel as [|f IH]; intros z rest [Hz Hlt].
  - cbn in *. f_equal. lia.
  - cbn [digits_before]. destruct (z <? 10) eqn:E.
    + apply Z.ltb_lt in E. cbn [int_digits].
      rewrite digit_roundtrip by apply digit_range.
      f_equal. rewrite Z.mod_small; lia.
    + apply Z.ltb_ge in E. rewrite IH.
      * cbn [int_digits]. rewrite digit_roundtrip by apply digit_range.
        f_equal. pose proof (Z.div_mod z 10). lia.
      * rewrite Nat2Z.inj_succ, Z.pow_succ_r in Hlt by lia. split.
        -- apply Z.div_pos; lia.
        -- apply Z.div_lt_upper_bound; lia.
Qed.

Lemma digit_fuel_enough (z : Z) : 0 <= z -> z < 10 ^ Z.of_nat (digit_fuel z).
Proof.
  intros Hz. unfold digit_fuel.
  rewrite Nat2Z.inj_succ, Z2Nat.id by apply Z.log2_nonneg.
  assert (Hb : z < 2 ^ Z.succ (Z.log2 z)).
  { destruct (Z.eq_dec z 0) as [->|Hn]; [reflexivity|].
    apply Z.log2_spec. lia. }
  eapply Z.lt_le_trans; [exact Hb|].
  apply Z.pow_le_mono_l. lia.
Qed.

Lemma digits_before_app (fuel : nat) :
  forall z acc rest,
    digits_before fuel z acc ++ rest = digits_before fuel z (acc ++ rest).
Proof.
  induction fuel as [|f IH]; intros z acc rest; cbn [digits_before].
  - reflexivity.
  - destruct (z <? 10); [reflexivity|]. now rewrite IH.
Qed.

Lemma digits_before_nonempty (fuel : nat) :
  forall z acc, is_empty acc = false -> is_empty (digits_before fuel z acc) = false.
Proof.
  induction fuel as [|f IH]; intros z acc H; cbn [digits_before].
  - exact H.
  - destruct (z <? 10); [reflexivity|]. now apply IH.
Qed.

Lemma digits_before_all (p : ascii -> bool) :
  (forall d, 0 <= d < 10 -> p (ascii_of_digit d) = true) ->
  forall fuel z acc,
    all_chars p acc = true ->
    all_chars p (digits_before fuel z acc) = true.
Proof.
  intros Hp fuel. induction fuel as [|f IH]; intros z acc Hacc; cbn [digits_before].
  - exact Hacc.
  - assert (Hd : all_chars p (String (ascii_of_digit (z mod 10)) acc) = true).
    { cbn [all_chars]. rewrite Hp by apply digit_range. exact Hacc. }
    destruct (z <? 10); [exact Hd|]. apply IH; exact Hd.
Qed.

Lemma remove_dots_digits_before (fuel : nat) :
  forall z acc,
    remove_dots (digits_before fuel z acc) = digits_before fuel z (remove_dots acc).
Proof.
  induction fuel as [|f IH]; intros z acc; cbn [digits_before].
  - reflexivity.
  - destruct (z <? 10).
    + cbn [remove_dots]. now rewrite digit_not_dot by apply digit_range.
    + rewrite IH. cbn [remove_dots].
      now rewrite digit_not_dot by apply digit_range.
Qed.

Lemma remove_dots_fixed (n : nat) :
  forall z acc,
    remove_dots (fixed_digits n z acc) = fixed_digits n z (remove_dots acc).
Proof.
  induction n as [|n IH]; intros z acc; cbn [fixed_digits].
  - reflexivity.
  - rewrite IH. cbn [remove_dots].
    now rewrite digit_not_dot by apply digit_range.
Qed.

(** A numeral that starts with a digit is read from its first digit on. *)
Lemma int_unsigned_digits (s : string) :
  starts_with_digit s = true -> int_unsigned s = int_digits s 0.
Proof.
  destruct s as [|c s']; [discriminate|]. cbn [starts_with_digit int_unsigned int_digits].
  destruct (digit_of_ascii c) as [d|]; [reflexivity | discriminate].
Qed.

(** A text that starts with a digit is read by [int] as it is by
    [int_digits]: it carries no sign. *)
Lemma int_of_str_unsigned (s : string) (v : Z) :
  starts_with_digit s = true -> int_digits s 0 = Some v -> int_of_str s = Some v.
Proof.
  intros Hd H. rewrite <- (int_unsigned_digits s Hd) in H.
  destruct s as [|c s']; [discriminate|].
  assert (Hs : int_of_str (String c s') = int_unsigned (String c s')).
  { cbn [starts_with_digit] in Hd.
    destruct (digit_of_ascii c) as [d|] eqn:Ed; [|discriminate].
    destruct c as [[] [] [] [] [] [] [] []]; try reflexivity; discriminate Ed. }
  rewrite Hs. exact H.
Qed.

Lemma digits_before_starts (fuel : nat) :
  forall z acc,
    starts_with_digit acc = true ->
    starts_with_digit (digits_before fuel z acc) = true.
Proof.
  induction fuel as [|f IH]; intros z acc H; cbn [digits_before].
  - exact H.
  - assert (Hd : starts_with_digit (String (ascii_of_digit (z mod 10)) acc) = true)
      by (cbn [starts_with_digit]; now rewrite digit_roundtrip by apply digit_range).
    destruct (z <? 10); [exact Hd | now apply IH].
Qed.

Lemma digits_start (z : Z) (rest : string) :
  starts_with_digit (digits_before (digit_fuel z) z rest) = true.
Proof.
  unfold digit_fuel. cbn [digits_before].
  assert (Hd : starts_with_digit (String (ascii_of_digit (z mod 10)) rest) = true)
    by (cbn [starts_with_digit]; now rewrite digit_roundtrip by apply digit_range).
  destruct (z <? 10); [exact Hd | now apply digits_before_starts].
Qed.

Lemma digits_nonempty (z : Z) :
  is_empty (digits_before (digit_fuel z) z "") = false.
Proof.
  unfold digit_fuel. cbn [digits_before].
  destruct (z <? 10); [reflexivity|]. now apply digits_before_nonempty.
Qed.

Lemma digits_read_back (z : Z) :
  0 <= z -> int_unsigned (digits_before (digit_fuel z) z "") = Some z.
Proof.
  intros Hz. rewrite int_unsigned_digits by apply digits_start.
  rewrite int_digits_before; [reflexivity|].
  split; [lia|]. now apply digit_fuel_enough.
Qed.

(** [int(str(z)) == z]. *)
Lemma int_of_str_of_Z (z : Z) : int_of_str (str_of_Z z) = Some z.
Proof.
  unfold str_of_Z. destruct (z <? 0) eqn:E.
  - apply Z.ltb_lt in E. cbn [int_of_str].
    rewrite digits_read_back by lia. cbn. f_equal. lia.
  - apply Z.ltb_ge in E. apply int_of_str_unsigned.
    + apply digits_start.
    + rewrite <- int_unsigned_digits by apply digits_start.
      now apply digits_read_back.
Qed.

(** The text of an integer has no full stop and no blank. *)
Lemma str_of_Z_plain (z : Z) : all_chars is_plain (str_of_Z z) = true.
Proof.
  unfold str_of_Z. destruct (z <? 0).
  - cbn [all_chars]. rewrite digits_before_all; auto using digit_is_plain.
  - apply digits_before_all; auto using digit_is_plain.
Qed.

Lemma str_of_Z_nonempty (z : Z) : is_empty (str_of_Z z) = false.
Proof.
  unfold str_of_Z. destruct (z <? 0); [reflexivity|]. apply digits_nonempty.
Qed.

End TextFacts.

(** ** Text: the pieces of an error message *)

Module SplitFacts.
Import Text TextFacts.

Lemma append_assoc (a b c : string) : (a ++ b) ++ c = a ++ (b ++ c).
Proof. induction a as [|x a IH]; cbn; [reflexivity | now rewrite IH]. Qed.

Lemma plain_not_dot (c : ascii) : is_plain c = true -> is_dot c = false.
Proof. unfold is_plain. destruct (is_dot c); [discriminate | reflexivity]. Qed.

Lemma plain_not_space (c : ascii) : is_plain c = true -> is_space c = false.
Proof.
  unfold is_plain. destruct (is_space c); [|reflexivity].
  rewrite andb_false_r. discriminate.
Qed.

(** The text before the first full stop, when that stop follows [s]. *)
Lemma split_dot_head_plain (s rest : string) :
  all_chars is_plain s = true ->
  split_dot_head (s ++ String "." rest) = s.
Proof.
  induction s as [|c s IH]; cbn [all_chars append split_dot_head]; intros H.
  - reflexivity.
  - apply andb_prop in H as [Hc Hs].
    rewrite (plain_not_dot c Hc). now rewrite IH.
Qed.

Lemma split_dot_head_app (a b : string) :
  all_chars (fun c => negb (is_dot c)) a = true ->
  split_dot_head (a ++ b) = a ++ split_dot_head b.
Proof.
  induction a as [|c a IH]; cbn [all_chars append split_dot_head]; intros H.
  - reflexivity.
  - apply andb_prop in H as [Hc Ha].
    destruct (is_dot c); [discriminate|]. now rewrite IH.
Qed.

(** A run without blanks is one word. *)
Lemma split_ws_plain (s : string) :
  all_chars is_plain s = true ->
  forall cur, is_empty (cur ++ s) = false -> split_ws s cur = [cur ++ s].
Proof.
  induction s as [|c s IH]; cbn [all_chars split_ws]; intros H cur Hne.
  - destruct (is_empty cur) eqn:E.
    + destruct cur; [discriminate Hne | discriminate E].
    + f_equal. clear. induction cur as [|x cur IH]; cbn; [reflexivity | now rewrite <- IH].
  - apply andb_prop in H as [Hc Hs].
    rewrite (plain_not_space c Hc), IH; [| exact Hs |].
    + now rewrite append_assoc.
    + rewrite append_assoc. cbn [append].
      destruct cur; reflexivity.
Qed.

(** The last word of a text that ends in a blank and a run without
    blanks is that run. *)
Lemma last_word_after_blank (s : string) :
  all_chars is_plain s = true -> is_empty s = false ->
  forall a cur, last_item (split_ws (a ++ String " " s) cur) = Some s.
Proof.
  intros Hs Hne.
  assert (Hone : split_ws s "" = [s]) by (apply (split_ws_plain s Hs ""); exact Hne).
  induction a as [|c a IH]; intros cur; cbn [append split_ws].
  - change (is_space " ") with true. cbn iota. rewrite Hone.
    destruct (is_empty cur); reflexivity.
  - destruct (is_space c).
    + specialize (IH ""). destruct (is_empty cur); [exact IH|].
      cbn [last_item]. destruct (split_ws (a ++ String " " s) ""); [discriminate IH | exact IH].
    + apply IH.
Qed.

End SplitFacts.

(** ** The nonce *)

(** The seed of the counter is the clock reading in microseconds. *)
Lemma seed_nonce_microseconds (us : Z) : 0 <= us -> seed_nonce us = Some us.
Proof.
  intros Hus. unfold seed_nonce, Text.format_6f.
  assert (Hq : 0 <= us / 1000000) by (apply Z.div_pos; lia).
  unfold Text.str_of_Z. rewrite (proj2 (Z.ltb_ge _ _) Hq).
  rewrite TextFacts.digits_before_app. cbn [append].
  rewrite TextFacts.remove_dots_digits_before.
  change (Text.remove_dots (String "." ?x)) with (Text.remove_dots x).
  rewrite TextFacts.remove_dots_fixed. cbn [Text.remove_dots].
  apply TextFacts.int_of_str_unsigned.
  - apply TextFacts.digits_start.
  - rewrite TextFacts.int_digits_before
      by (split; [lia | now apply TextFacts.digit_fuel_enough]).
    rewrite TextFacts.int_digits_fixed. cbn [Text.int_digits]. f_equal.
    change (10 ^ Z.of_nat 6) with 1000000.
    rewrite Z.mod_mod by lia. pose proof (Z.div_mod us 1000000). lia.
Qed.

Lemma nonce_read (w : World) :
  nonce w =
  (Returned (_nonce w + stride),
   {| _nonce := _nonce w + stride; default_args := default_args w;
      caller_args := caller_args w;
      log := log w ++ [EvNonce (_nonce w + stride)];
      network := network w; requests := requests w |}).
Proof. reflexivity. Qed.

(** Every value of a run of reads exceeds the counter the run started
    from. *)
Lemma nonce_reads_above (n : nat) :
  forall w, Forall (Z.lt (_nonce w)) (nonce_reads n w).
Proof.
  induction n as [|n IH]; intros w; cbn [nonce_reads].
  - constructor.
  - rewrite nonce_read. constructor.
    + unfold stride. lia.
    + eapply Forall_impl; [|apply IH]. cbn. unfold stride. intros v Hv. lia.
Qed.

Lemma nonce_reads_sorted (n : nat) :
  forall w, StronglySorted Z.lt (nonce_reads n w).
Proof.
  induction n as [|n IH]; intros w; cbn [nonce_reads].
  - constructor.
  - rewrite nonce_read. constructor; [apply IH|].
    exact (nonce_reads_above n (snd (nonce w))).
Qed.

(** C1 — the nonce property: the stride is 42 (more than 1); a read
    advances the counter by the stride and returns it, so every read of a
    run of reads returns more than all reads before it; the counter of a
    new instance is the clock in microseconds; and after the counter is
    overwritten with [v], the next read returns [v] plus the stride. *)
Theorem nonce_strictly_increasing_and_resync
  (w surroundings : World) (n : nat) (us v : Z) (Hclock : 0 <= us) :
  1 < stride
  /\ fst (nonce w) = Returned (_nonce w + stride)
  /\ _nonce (snd (nonce w)) = _nonce w + stride
  /\ _nonce w < _nonce w + stride
  /\ StronglySorted Z.lt (nonce_reads n w)
  /\ (exists w0, __init__ us surroundings = Returned w0 /\ _nonce w0 = us)
  /\ (exists x, fst (nonce (snd (resync v w))) = Returned x
                /\ x = v + stride /\ v + stride <= x).
Proof.
  repeat split.
  - unfold stride. lia.
  - apply nonce_reads_sorted.
  - unfold __init__. rewrite (seed_nonce_microseconds us Hclock).
    eexists. split; reflexivity.
  - exists (v + stride). repeat split. lia.
Qed.

Lemma nonce_strictly_increasing_and_resync_witness :
  nonce_reads 3 (world0 1000 (status_response 502)) = [1042; 1084; 1126]
  /\ seed_nonce 1700000000012345 = Some 1700000000012345
  /\ StronglySorted Z.lt (nonce_reads 3 (world0 1000 (status_response 502))).
Proof.
  split; [reflexivity|]. split; [vm_compute; reflexivity|].
  exact (proj1 (proj2 (proj2 (proj2 (proj2
    (nonce_strictly_increasing_and_resync
       (world0 1000 (status_response 502)) (world0 0 (status_response 502))
       3%nat 1700000000012345 5000 ltac:(lia))))))).
Defined.

(** ** Dictionaries *)

Lemma dict_get_set_same (d : dict) (k : string) (v : pyval) :
  dict_get (dict_set d k v) k = Some v.
Proof.
  induction d as [|[k' v'] d IH]; cbn [dict_set dict_get].
  - now rewrite String.eqb_refl.
  - destruct (String.eqb k' k) eqn:E; cbn [dict_get]; rewrite E; [reflexivity | exact IH].
Qed.

Lemma dict_get_set_other (d : dict) (k k' : string) (v : pyval) :
  k <> k' -> dict_get (dict_set d k v) k' = dict_get d k'.
Proof.
  intros Hne. induction d as [|[k0 v0] d IH]; cbn [dict_set dict_get].
  - destruct (String.eqb k k') eqn:E; [|reflexivity].
    apply String.eqb_eq in E. contradiction.
  - destruct (String.eqb k0 k) eqn:E; cbn [dict_get].
    + apply String.eqb_eq in E. subst k0.
      destruct (String.eqb k k') eqn:E'; [|reflexivity].
      apply String.eqb_eq in E'. contradiction.
    + now rewrite IH.
Qed.

(** ** Observations on logs *)

Lemma sleeps_app (a b : list event) : sleeps (a ++ b) = (sleeps a ++ sleeps b)%list.
Proof. apply flat_map_app. Qed.

Lemma sleeps_of_logs (tail : list event) :
  forallb is_log tail = true -> sleeps tail = [].
Proof.
  induction tail as [|e tail IH]; [reflexivity|]. cbn [forallb]. intros H.
  apply andb_prop in H as [He Ht]. destruct e; try discriminate He.
  cbn. now apply IH.
Qed.

(** ** The command check *)

Lemma checkCmd_dispatchable (self : Instance) (command : string) (w : World) :
  dispatchable self command = true ->
  _checkCmd self command w = (Returned (cmdType_of command), w).
Proof.
  unfold dispatchable, _checkCmd, cmdType_of.
  destruct (command_in command PRIVATE_COMMANDS).
  - intros H. apply andb_prop in H as [-> ->]. reflexivity.
  - intros ->. reflexivity.
Qed.

(** C5 — a command in neither list, and a private command without key or
    secret, make [__call__] raise [PoloniexError] with the world exactly as
    it was: no wait on the coach, no request, no sleep, no retry. *)
Theorem classification_failures_cost_nothing
  (self : Instance) (command : string) (args : argref) (w : World) :
  (command_in command PRIVATE_COMMANDS = false ->
   command_in command PUBLIC_COMMANDS = false ->
   __call__ self command args w
   = (Raised (PoloniexError ("Invalid Command!: " ++ command)), w))
  /\
  (command_in command PRIVATE_COMMANDS = true ->
   truthy (key self) = false \/ truthy (secret self) = false ->
   __call__ self command args w
   = (Raised (PoloniexError
                ("An Api Key and Secret needed for command '" ++ command ++ "'")),
      w)).
Proof.
  split.
  - intros Hpriv Hpub.
    unfold __call__, _retry. cbn [map app retrying].
    unfold try_except, __call__func, bind, _checkCmd.
    rewrite Hpriv, Hpub. reflexivity.
  - intros Hpriv Hcred.
    unfold __call__, _retry. cbn [map app retrying].
    unfold try_except, __call__func, bind, _checkCmd.
    rewrite Hpriv.
    assert (Hb : negb (truthy (key self)) || negb (truthy (secret self)) = true).
    { destruct Hcred as [-> | ->]; [reflexivity | apply orb_true_r]. }
    rewrite Hb. reflexivity.
Qed.

Lemma classification_failures_cost_nothing_witness :
  __call__ anonymous "returnTickers" ArgCaller (world0 7 (status_response 502))
  = (Raised (PoloniexError "Invalid Command!: returnTickers"),
     world0 7 (status_response 502))
  /\
  __call__ anonymous "buy" ArgCaller (world0 7 (status_response 502))
  = (Raised (PoloniexError "An Api Key and Secret needed for command 'buy'"),
     world0 7 (status_response 502)).
Proof.
  split.
  - apply (proj1 (classification_failures_cost_nothing
                    anonymous "returnTickers" ArgCaller
                    (world0 7 (status_response 502)))); reflexivity.
  - apply (proj2 (classification_failures_cost_nothing
                    anonymous "buy" ArgCaller
                    (world0 7 (status_response 502)))); [reflexivity|].
    left. reflexivity.
Defined.

(** ** [_handleReturned] *)

Ltac break_match :=
  match goal with
  | |- context [match ?x with _ => _ end] => destruct x eqn:?
  end.

Ltac run_handler :=
  unfold _handleReturned, bind, emit, raise, ret, lift, resync, set_nonce;
  repeat break_match.

(** The verdict on a response does not depend on the world. *)
Lemma handleReturned_result (data : response) (w w' : World) :
  fst (_handleReturned data w) = fst (_handleReturned data w').
Proof.
  run_handler; cbn [fst]; try reflexivity; try congruence.
Qed.

(** Apart from the nonce, [_handleReturned] only writes log lines. *)
Lemma handleReturned_frame (data : response) (w : World) :
  exists tail,
    log (snd (_handleReturned data w)) = (log w ++ tail)%list
    /\ forallb is_log tail = true
    /\ network (snd (_handleReturned data w)) = network w
    /\ requests (snd (_handleReturned data w)) = requests w
    /\ default_args (snd (_handleReturned data w)) = default_args w
    /\ caller_args (snd (_handleReturned data w)) = caller_args w.
Proof.
  run_handler;
    repeat match goal with
           | H : (_, _) = (_, _) |- _ => inversion H; subst; clear H
           end;
    cbn [fst snd log network requests default_args caller_args];
    first [ exists []; rewrite app_nil_r; repeat split; reflexivity
          | eexists [_]; repeat split; reflexivity
          | rewrite <- app_assoc; eexists; repeat split; reflexivity ].
Qed.

Lemma gateway_status_spec (c : Z) :
  gateway_status c = true <-> c = 502 \/ c = 504 \/ 520 <= c <= 526.
Proof.
  unfold gateway_status.
  rewrite !orb_true_iff, andb_true_iff, !Z.eqb_eq, Z.leb_le, Z.ltb_lt. lia.
Qed.

Lemma handleReturned_gateway (data : response) (c : Z) (w : World) :
  status_code data = Some c -> gateway_status c = true ->
  fst (_handleReturned data w)
  = Raised (RequestException ("Poloniex Network Error " ++ Text.str_of_Z c)).
Proof.
  intros Hc Hg. unfold _handleReturned. rewrite Hc, Hg. reflexivity.
Qed.

(** ** One attempt *)

(** Unfolding of the monad, call by value, so that worlds stay small. *)
Ltac run_monad :=
  cbv beta iota zeta delta
    [bind args_setitem read_args write_args when nonce get_nonce set_nonce
     send emit ret raise lift resync try_except
     sent_world attempt_events prepared_args args_of
     fst snd _nonce default_args caller_args log network requests].

(** An attempt that passes the command check prepares the arguments,
    sends one request and hands the answer to [_handleReturned]. *)
Lemma attempt_eq (self : Instance) (command : string) (args : argref) (w : World) :
  dispatchable self command = true ->
  __call__func self command args w
  = match network w (requests w) with
    | NetRaises e => (Raised e, sent_world self command args (cmdType_of command) w)
    | NetResponse r =>
        _handleReturned r (sent_world self command args (cmdType_of command) w)
    end.
Proof.
  intros Hd. unfold __call__func. unfold bind at 1.
  rewrite (checkCmd_dispatchable self command w Hd).
  destruct w as [n0 da ca lg net rq].
  destruct (cmdType_of command), (coach self) eqn:Ec, args;
    run_monad; rewrite ?Ec; destruct (net rq) as [e|r];
    cbn [app]; rewrite <- ?app_assoc; reflexivity.
Qed.

Lemma sleeps_attempt_events (self : Instance) (t : cmdType) (n : Z) (data : dict) :
  sleeps (attempt_events self t n data) = [].
Proof. unfold attempt_events. destruct (coach self), t; reflexivity. Qed.

(** An attempt that passes the command check sends exactly one request,
    sleeps never, and ends as the answer to that request decides. *)
Lemma attempt_frame (self : Instance) (command : string) (args : argref) (w : World) :
  dispatchable self command = true ->
  fst (__call__func self command args w) = reply_result (network w (requests w))
  /\ network (snd (__call__func self command args w)) = network w
  /\ requests (snd (__call__func self command args w)) = S (requests w)
  /\ sleeps (log (snd (__call__func self command args w))) = sleeps (log w).
Proof.
  intros Hd. rewrite (attempt_eq self command args w Hd).
  destruct (network w (requests w)) as [e|r] eqn:Enet; cbn [reply_result fst snd].
  - repeat apply conj; try reflexivity.
    cbn [sent_world log]. rewrite sleeps_app, sleeps_attempt_events.
    apply app_nil_r.
  - set (w1 := sent_world self command args (cmdType_of command) w).
    destruct (handleReturned_frame r w1) as (tail & Hlog & Htail & Hnet & Hreq & _).
    rewrite Hlog, Hnet, Hreq.
    repeat apply conj; try reflexivity.
    + apply handleReturned_result.
    + subst w1. cbn [sent_world log].
      rewrite !sleeps_app, sleeps_attempt_events, (sleeps_of_logs tail Htail).
      now rewrite !app_nil_r.
Qed.

(** ** The retry loop *)

Section Retry.

(** An attempt in the sense of [attempt_frame]. *)
Variable func : M pyval.
Hypothesis func_result :
  forall w, fst (func w) = reply_result (network w (requests w)).
Hypothesis func_network : forall w, network (snd (func w)) = network w.
Hypothesis func_requests : forall w, requests (snd (func w)) = S (requests w).
Hypothesis func_sleeps : forall w, sleeps (log (snd (func w))) = sleeps (log w).

(** One retryable failure: the loop logs, sleeps the delay and goes on
    with the rest of the schedule. *)
Lemma retrying_step (d : Z) (rest : list (option Z)) (problems : list string)
      (w : World) (p : string) :
  reply_result (network w (requests w)) = Raised (RequestException p) ->
  exists w',
    retrying func (Some d :: rest) problems w
    = retrying func rest (problems ++ [p]) w'
    /\ network w' = network w
    /\ requests w' = S (requests w)
    /\ sleeps (log w') = (sleeps (log w) ++ [d])%list.
Proof.
  intros Hp. cbn [retrying]. unfold try_except.
  pose proof (func_result w) as Hr. pose proof (func_network w) as Hn.
  pose proof (func_requests w) as Hq. pose proof (func_sleeps w) as Hs.
  destruct (func w) as [r w1]. cbn [fst snd] in *.
  rewrite Hp in Hr. subst r.
  destruct w1 as [n1 da1 ca1 lg1 net1 rq1]. cbn [network requests log] in *.
  eexists. split; [|split; [|split]].
  - unfold bind, emit. cbn [_nonce default_args caller_args log network requests].
    reflexivity.
  - exact Hn.
  - exact Hq.
  - cbn [log]. rewrite !sleeps_app, Hs. cbn. now rewrite !app_nil_r.
Qed.

(** A run of retryable failures consumes the delays one by one and
    collects the failures. *)
Lemma retrying_prefix (ds : list Z) :
  forall (rest : list (option Z)) (problems : list string) (w : World)
         (p : nat -> string),
    (forall i, (i < length ds)%nat ->
               reply_result (network w (requests w + i)%nat)
               = Raised (RequestException (p i))) ->
    exists w',
      retrying func (map Some ds ++ rest) problems w
      = retrying func rest (problems ++ map p (seq 0 (length ds))) w'
      /\ network w' = network w
      /\ requests w' = (requests w + length ds)%nat
      /\ sleeps (log w') = (sleeps (log w) ++ ds)%list.
Proof.
  induction ds as [|d ds IH]; intros rest problems w p H.
  - exists w. cbn. rewrite Nat.add_0_r, !app_nil_r. auto.
  - pose proof (H 0%nat ltac:(cbn; lia)) as Hp. rewrite Nat.add_0_r in Hp.
    destruct (retrying_step d (map Some ds ++ rest) problems w (p 0%nat) Hp)
      as (w1 & E1 & Hn1 & Hq1 & Hs1).
    destruct (IH rest (problems ++ [p 0%nat])%list w1 (fun i => p (S i)))
      as (w2 & E2 & Hn2 & Hq2 & Hs2).
    { intros i Hi. rewrite Hn1, Hq1.
      rewrite <- (H (S i)) by (cbn; lia). f_equal. f_equal. lia. }
    exists w2. cbn [map app length]. rewrite E1, E2.
    repeat apply conj; [| congruence | lia |].
    + f_equal. rewrite <- app_assoc. cbn [app seq map]. f_equal. f_equal.
      rewrite <- seq_shift, map_map. reflexivity.
    + rewrite Hs2, Hs1, <- app_assoc. reflexivity.
Qed.

(** The last attempt of the schedule fails retryably: the loop gives up
    with [RetryException], naming that last failure. *)
Lemma retrying_gives_up (problems : list string) (w : World) (p : string) :
  reply_result (network w (requests w)) = Raised (RequestException p) ->
  fst (retrying func [None] problems w)
  = Raised (RetryException ("retryDelays exhausted " ++ p))
  /\ requests (snd (retrying func [None] problems w)) = S (requests w)
  /\ sleeps (log (snd (retrying func [None] problems w))) = sleeps (log w).
Proof.
  intros Hp. cbn [retrying]. unfold try_except.
  pose proof (func_result w) as Hr.
  pose proof (func_requests w) as Hq. pose proof (func_sleeps w) as Hs.
  destruct (func w) as [r w1]. cbn [fst snd] in *.
  rewrite Hp in Hr. subst r.
  unfold bind, emit, raise. cbn [fst snd requests log].
  repeat apply conj; [reflexivity | exact Hq |].
  rewrite sleeps_app, Hs. cbn. now rewrite app_nil_r.
Qed.

(** An attempt that does not fail retryably ends the loop at once. *)
Lemma retrying_stops (delay : option Z) (rest : list (option Z))
      (problems : list string) (w : World) :
  (forall p, reply_result (network w (requests w)) <> Raised (RequestException p)) ->
  retrying func (delay :: rest) problems w = func w.
Proof.
  intros Hp. cbn [retrying]. unfold try_except.
  pose proof (func_result w) as Hr.
  destruct (func w) as [r w1]. cbn [fst] in Hr.
  destruct r as [a|[]]; try reflexivity.
  exfalso. apply (Hp msg). now rewrite <- Hr.
Qed.

End Retry.

(** ** The retry schedule of [__call__] *)

(** After [k] retryable failures ([k] at most the number of delays) the
    loop stands before attempt [k], having slept the first [k] delays. *)
Lemma call_after_failures (self : Instance) (command : string) (args : argref)
      (w : World) (p : nat -> string) (k : nat) :
  dispatchable self command = true ->
  (k <= 4)%nat ->
  (forall i, (i < k)%nat ->
             reply_result (network w (requests w + i)%nat)
             = Raised (RequestException (p i))) ->
  exists w' delay rest,
    __call__ self command args w
    = retrying (__call__func self command args) (delay :: rest)
               (map p (seq 0 k)) w'
    /\ (k = 4%nat -> delay = None /\ rest = [])
    /\ network w' = network w
    /\ requests w' = (requests w + k)%nat
    /\ sleeps (log w') = (sleeps (log w) ++ firstn k retryDelays)%list.
Proof.
  intros Hd Hk H.
  assert (Hsplit : exists delay rest,
             (map Some retryDelays ++ [None])%list
             = (map Some (firstn k retryDelays) ++ delay :: rest)%list
             /\ length (firstn k retryDelays) = k
             /\ (k = 4%nat -> delay = None /\ rest = [])).
  { do 5 (destruct k as [|k]; [cbn; do 2 eexists; repeat split; discriminate|]).
    lia. }
  destruct Hsplit as (delay & rest & Hs & Hlen & Hlast).
  destruct (retrying_prefix (__call__func self command args)
              (fun w0 => proj1 (attempt_frame self command args w0 Hd))
              (fun w0 => proj1 (proj2 (attempt_frame self command args w0 Hd)))
              (fun w0 => proj1 (proj2 (proj2 (attempt_frame self command args w0 Hd))))
              (fun w0 => proj2 (proj2 (proj2 (attempt_frame self command args w0 Hd))))
              (firstn k retryDelays) (delay :: rest) [] w p)
    as (w' & E & Hn & Hq & Hsl).
  { rewrite Hlen. exact H. }
  exists w', delay, rest. unfold __call__, _retry. rewrite Hs, E, Hlen.
  repeat apply conj; auto. congruence.
Qed.

(** *** The order of attempts, log lines and sleeps *)

Lemma steps_app (a b : list event) : steps (a ++ b) = (steps a ++ steps b)%list.
Proof. apply flat_map_app. Qed.

(** [_handleReturned] writes error lines only: it adds no step. *)
Lemma handleReturned_steps (data : response) (w : World) :
  steps (log (snd (_handleReturned data w))) = steps (log w).
Proof.
  run_handler;
    repeat match goal with
           | H : (_, _) = (_, _) |- _ => inversion H; subst; clear H
           end;
    cbn [fst snd log]; rewrite ?steps_app; cbn [steps flat_map step_of app];
    rewrite ?app_nil_r; reflexivity.
Qed.

(** An attempt that passes the command check adds the steps of an
    attempt, whatever the answer to its request. *)
Lemma attempt_adds_steps (self : Instance) (command : string) (args : argref)
      (w : World) :
  dispatchable self command = true ->
  steps (log (snd (__call__func self command args w)))
  = (steps (log w) ++ attempt_steps self (cmdType_of command))%list.
Proof.
  intros Hd. rewrite (attempt_eq self command args w Hd).
  assert (Hsent : steps (log (sent_world self command args (cmdType_of command) w))
                  = (steps (log w) ++ attempt_steps self (cmdType_of command))%list).
  { cbn [sent_world log]. rewrite steps_app. f_equal.
    unfold attempt_events, attempt_steps.
    destruct (coach self), (cmdType_of command); reflexivity. }
  destruct (network w (requests w)) as [e|r]; cbn [snd]; [exact Hsent|].
  now rewrite handleReturned_steps.
Qed.

Lemma failed_rounds_app (a : list step) (ps : list string) (ds : list Z)
      (p : string) (d : Z) :
  length ps = length ds ->
  failed_rounds a (ps ++ [p]) (ds ++ [d])
  = (failed_rounds a ps ds ++ a ++ backoff p d)%list.
Proof.
  revert ds. induction ps as [|q ps IH]; intros [|e ds] Hlen;
    try discriminate Hlen; cbn [app failed_rounds].
  - now rewrite app_nil_r.
  - rewrite IH by (cbn in Hlen; lia). now rewrite <- !app_assoc.
Qed.

Section RetrySteps.

Variable func : M pyval.
Variable attempt : list step.
Hypothesis func_result :
  forall w, fst (func w) = reply_result (network w (requests w)).
Hypothesis func_network : forall w, network (snd (func w)) = network w.
Hypothesis func_requests : forall w, requests (snd (func w)) = S (requests w).
Hypothesis func_steps :
  forall w, steps (log (snd (func w))) = (steps (log w) ++ attempt)%list.

(** One retryable failure: the attempt, then the back-off, then the rest
    of the schedule. *)
Lemma retrying_step_steps (d : Z) (rest : list (option Z))
      (problems : list string) (w : World) (p : string) :
  reply_result (network w (requests w)) = Raised (RequestException p) ->
  exists w',
    retrying func (Some d :: rest) problems w
    = retrying func rest (problems ++ [p]) w'
    /\ network w' = network w
    /\ requests w' = S (requests w)
    /\ steps (log w') = (steps (log w) ++ attempt ++ backoff p d)%list.
Proof.
  intros Hp. cbn [retrying]. unfold try_except.
  pose proof (func_result w) as Hr. pose proof (func_network w) as Hn.
  pose proof (func_requests w) as Hq. pose proof (func_steps w) as Hs.
  destruct (func w) as [r w1]. cbn [fst snd] in *.
  rewrite Hp in Hr. subst r.
  destruct w1 as [n1 da1 ca1 lg1 net1 rq1]. cbn [network requests log] in *.
  eexists. split; [|split; [|split]].
  - unfold bind, emit. cbn [_nonce default_args caller_args log network requests].
    reflexivity.
  - exact Hn.
  - exact Hq.
  - cbn [log]. rewrite !steps_app, Hs. unfold backoff.
    cbn [steps flat_map step_of app]. now rewrite <- !app_assoc.
Qed.

(** A run of retryable failures: the failed rounds, one after the
    other. *)
Lemma retrying_prefix_steps (ds : list Z) :
  forall (rest : list (option Z)) (problems : list string) (w : World)
         (p : nat -> string),
    (forall i, (i < length ds)%nat ->
               reply_result (network w (requests w + i)%nat)
               = Raised (RequestException (p i))) ->
    exists w',
      retrying func (map Some ds ++ rest) problems w
      = retrying func rest (problems ++ map p (seq 0 (length ds))) w'
      /\ network w' = network w
      /\ requests w' = (requests w + length ds)%nat
      /\ steps (log w')
         = (steps (log w)
              ++ failed_rounds attempt (map p (seq 0 (length ds))) ds)%list.
Proof.
  induction ds as [|d ds IH]; intros rest problems w p H.
  - exists w. cbn. rewrite Nat.add_0_r, !app_nil_r. auto.
  - pose proof (H 0%nat ltac:(cbn; lia)) as Hp. rewrite Nat.add_0_r in Hp.
    destruct (retrying_step_steps d (map Some ds ++ rest) problems w (p 0%nat) Hp)
      as (w1 & E1 & Hn1 & Hq1 & Hs1).
    destruct (IH rest (problems ++ [p 0%nat])%list w1 (fun i => p (S i)))
      as (w2 & E2 & Hn2 & Hq2 & Hs2).
    { intros i Hi. rewrite Hn1, Hq1.
      rewrite <- (H (S i)) by (cbn; lia). f_equal. f_equal. lia. }
    assert (Hseq : map p (seq 0 (S (length ds)))
                   = p 0%nat :: map (fun i => p (S i)) (seq 0 (length ds))).
    { cbn [seq map]. f_equal. rewrite <- seq_shift, map_map. reflexivity. }
    exists w2. cbn [map app length]. rewrite E1, E2.
    repeat apply conj; [| congruence | lia |].
    + f_equal. rewrite <- app_assoc. cbn [app]. f_equal. now rewrite Hseq.
    + rewrite Hs2, Hs1, Hseq. cbn [failed_rounds]. now rewrite <- !app_assoc.
Qed.

(** The last attempt of the schedule fails retryably: the attempt, then
    the debug line with every failure of the call. *)
Lemma retrying_gives_up_steps (problems : list string) (w : World) (p : string) :
  reply_result (network w (requests w)) = Raised (RequestException p) ->
  steps (log (snd (retrying func [None] problems w)))
  = (steps (log w) ++ attempt
       ++ [LogsDebug (PList (map PStr (problems ++ [p])))])%list.
Proof.
  intros Hp. cbn [retrying]. unfold try_except.
  pose proof (func_result w) as Hr. pose proof (func_steps w) as Hs.
  destruct (func w) as [r w1]. cbn [fst snd] in *.
  rewrite Hp in Hr. subst r.
  unfold bind, emit, raise. cbn [fst snd log].
  rewrite steps_app, Hs. cbn [steps flat_map step_of app].
  now rewrite <- app_assoc.
Qed.

End RetrySteps.

(** After [k] retryable failures the log shows [k] failed rounds. *)
Lemma call_after_failures_steps (self : Instance) (command : string)
      (args : argref) (w : World) (p : nat -> string) (k : nat) :
  dispatchable self command = true ->
  (k <= 4)%nat ->
  (forall i, (i < k)%nat ->
             reply_result (network w (requests w + i)%nat)
             = Raised (RequestException (p i))) ->
  exists w' delay rest,
    __call__ self command args w
    = retrying (__call__func self command args) (delay :: rest)
               (map p (seq 0 k)) w'
    /\ (k = 4%nat -> delay = None /\ rest = [])
    /\ network w' = network w
    /\ requests w' = (requests w + k)%nat
    /\ steps (log w')
       = (steps (log w)
            ++ failed_rounds (attempt_steps self (cmdType_of command))
                 (map p (seq 0 k)) (firstn k retryDelays))%list.
Proof.
  intros Hd Hk H.
  assert (Hsplit : exists delay rest,
             (map Some retryDelays ++ [None])%list
             = (map Some (firstn k retryDelays) ++ delay :: rest)%list
             /\ length (firstn k retryDelays) = k
             /\ (k = 4%nat -> delay = None /\ rest = [])).
  { do 5 (destruct k as [|k]; [cbn; do 2 eexists; repeat split; discriminate|]).
    lia. }
  destruct Hsplit as (delay & rest & Hs & Hlen & Hlast).
  destruct (retrying_prefix_steps (__call__func self command args)
              (attempt_steps self (cmdType_of command))
              (fun w0 => proj1 (attempt_frame self command args w0 Hd))
              (fun w0 => proj1 (proj2 (attempt_frame self command args w0 Hd)))
              (fun w0 => proj1 (proj2 (proj2 (attempt_frame self command args w0 Hd))))
              (fun w0 => attempt_adds_steps self command args w0 Hd)
              (firstn k retryDelays) (delay :: rest) [] w p)
    as (w' & E & Hn & Hq & Hst).
  { rewrite Hlen. exact H. }
  exists w', delay, rest. unfold __call__, _retry. rewrite Hs, E.
  rewrite Hlen in Hq, Hst |- *.
  repeat apply conj; auto.
Qed.

(** C4 (amended) — the statuses 502, 504 and 520..526 make
    [_handleReturned] raise the retryable exception.  When the first five
    attempts all fail retryably, [__call__] makes exactly five requests
    and sleeps 0, 2, 5 and 30 seconds, each sleep between two successive
    attempts: the log shows attempt, debug line with the failure,
    announcement, sleep, four times over, then the fifth attempt, then
    one debug line with all five failures; and it raises
    [RetryException] whose text names the last failure only.  When the
    first [k <= 4] attempts fail retryably and the next one does not (it
    succeeds, or fails with another exception), [__call__] ends as that
    attempt ends, after [k + 1] requests and the first [k] delays: the
    log shows [k] such rounds and the last attempt, and nothing after
    it. *)
Theorem retry_schedule
  (self : Instance) (command : string) (args : argref) (w : World)
  (p : nat -> string) (k : nat)
  (Hd : dispatchable self command = true) :
  (forall data code w0,
      status_code data = Some code ->
      code = 502 \/ code = 504 \/ 520 <= code <= 526 ->
      fst (_handleReturned data w0)
      = Raised (RequestException
                  ("Poloniex Network Error " ++ Text.str_of_Z code))
      /\ reply_result (NetResponse data)
         = Raised (RequestException
                     ("Poloniex Network Error " ++ Text.str_of_Z code)))
  /\
  ((forall i, (i < 5)%nat ->
              reply_result (network w (requests w + i)%nat)
              = Raised (RequestException (p i))) ->
   fst (__call__ self command args w)
   = Raised (RetryException ("retryDelays exhausted " ++ p 4%nat))
   /\ requests (snd (__call__ self command args w)) = (requests w + 5)%nat
   /\ sleeps (log (snd (__call__ self command args w)))
      = (sleeps (log w) ++ [0; 2; 5; 30])%list
   /\ steps (log (snd (__call__ self command args w)))
      = (steps (log w)
           ++ failed_rounds (attempt_steps self (cmdType_of command))
                [p 0%nat; p 1%nat; p 2%nat; p 3%nat] [0; 2; 5; 30]
           ++ attempt_steps self (cmdType_of command)
           ++ [LogsDebug (PList [PStr (p 0%nat); PStr (p 1%nat); PStr (p 2%nat);
                             PStr (p 3%nat); PStr (p 4%nat)])])%list)
  /\
  ((k <= 4)%nat ->
   (forall i, (i < k)%nat ->
              reply_result (network w (requests w + i)%nat)
              = Raised (RequestException (p i))) ->
   (forall q, reply_result (network w (requests w + k)%nat)
              <> Raised (RequestException q)) ->
   fst (__call__ self command args w)
   = reply_result (network w (requests w + k)%nat)
   /\ requests (snd (__call__ self command args w)) = (requests w + k + 1)%nat
   /\ sleeps (log (snd (__call__ self command args w)))
      = (sleeps (log w) ++ firstn k retryDelays)%list
   /\ steps (log (snd (__call__ self command args w)))
      = (steps (log w)
           ++ failed_rounds (attempt_steps self (cmdType_of command))
                (map p (seq 0 k)) (firstn k retryDelays)
           ++ attempt_steps self (cmdType_of command))%list).
Proof.
  split; [|split].
  - intros data code w0 Hc Hcode. apply gateway_status_spec in Hcode.
    split; [|cbn [reply_result]]; now apply handleReturned_gateway.
  - intros H. split; [|split; [|split]].
    1-3: destruct (call_after_failures self command args w p 4 Hd (le_n _))
           as (w' & delay & rest & E & Hlast & Hn & Hq & Hs);
         [intros i Hi; apply H; lia|];
         destruct (Hlast eq_refl) as [-> ->]; rewrite E;
         destruct (retrying_gives_up (__call__func self command args)
                     (fun w0 => proj1 (attempt_frame self command args w0 Hd))
                     (fun w0 => proj1 (proj2 (proj2 (attempt_frame self command args w0 Hd))))
                     (fun w0 => proj2 (proj2 (proj2 (attempt_frame self command args w0 Hd))))
                     (map p (seq 0 4)) w' (p 4%nat))
           as (R1 & R2 & R3);
         [rewrite Hn, Hq; apply H; lia|];
         rewrite ?R1, ?R2, ?R3, ?Hq, ?Hs; try reflexivity; lia.
    destruct (call_after_failures_steps self command args w p 4 Hd (le_n _))
      as (w' & delay & rest & E & Hlast & Hn & Hq & Hst).
    { intros i Hi. apply H. lia. }
    destruct (Hlast eq_refl) as [-> ->]. rewrite E.
    rewrite (retrying_gives_up_steps (__call__func self command args)
               (attempt_steps self (cmdType_of command))
               (fun w0 => proj1 (attempt_frame self command args w0 Hd))
               (fun w0 => attempt_adds_steps self command args w0 Hd)
               (map p (seq 0 4)) w' (p 4%nat))
      by (rewrite Hn, Hq; apply H; lia).
    rewrite Hst. cbn [seq map firstn retryDelays app]. now rewrite <- app_assoc.
  - intros Hk H Hstop. split; [|split; [|split]].
    1-3: destruct (call_after_failures self command args w p k Hd Hk H)
           as (w' & delay & rest & E & _ & Hn & Hq & Hs);
         rewrite E;
         rewrite (retrying_stops (__call__func self command args)
                    (fun w0 => proj1 (attempt_frame self command args w0 Hd)))
           by (rewrite Hn, Hq; exact Hstop);
         destruct (attempt_frame self command args w' Hd) as (A1 & _ & A3 & A4);
         rewrite ?A1, ?A3, ?A4, ?Hn, ?Hq, ?Hs; try reflexivity; lia.
    destruct (call_after_failures_steps self command args w p k Hd Hk H)
      as (w' & delay & rest & E & _ & Hn & Hq & Hst).
    rewrite E.
    rewrite (retrying_stops (__call__func self command args)
               (fun w0 => proj1 (attempt_frame self command args w0 Hd)))
      by (rewrite Hn, Hq; exact Hstop).
    rewrite (attempt_adds_steps self command args w' Hd), Hst.
    now rewrite <- app_assoc.
Qed.

Lemma retry_schedule_witness :
  (fst (__call__ trader "buy" ArgCaller (world_net 1000 always_502))
   = Raised (RetryException "retryDelays exhausted Poloniex Network Error 502")
   /\ requests (snd (__call__ trader "buy" ArgCaller (world_net 1000 always_502)))
      = 5%nat
   /\ sleeps (log (snd (__call__ trader "buy" ArgCaller (world_net 1000 always_502))))
      = [0; 2; 5; 30]
   /\ steps (log (snd (__call__ trader "buy" ArgCaller (world_net 1000 always_502))))
      = [ Waits; ReadsNonce; Signs; Requests;
          LogsDebug (PStr "Poloniex Network Error 502");
          LogsInfo (PStr "-- delaying for 0s"); Sleeps 0;
          Waits; ReadsNonce; Signs; Requests;
          LogsDebug (PStr "Poloniex Network Error 502");
          LogsInfo (PStr "-- delaying for 2s"); Sleeps 2;
          Waits; ReadsNonce; Signs; Requests;
          LogsDebug (PStr "Poloniex Network Error 502");
          LogsInfo (PStr "-- delaying for 5s"); Sleeps 5;
          Waits; ReadsNonce; Signs; Requests;
          LogsDebug (PStr "Poloniex Network Error 502");
          LogsInfo (PStr "-- delaying for 30s"); Sleeps 30;
          Waits; ReadsNonce; Signs; Requests;
          LogsDebug (PList [PStr "Poloniex Network Error 502";
                        PStr "Poloniex Network Error 502";
                        PStr "Poloniex Network Error 502";
                        PStr "Poloniex Network Error 502";
                        PStr "Poloniex Network Error 502"]) ])
  /\
  (fst (__call__ trader "buy" ArgCaller (world_net 1000 flaky))
   = Raised (PoloniexError "Some unrelated problem")
   /\ requests (snd (__call__ trader "buy" ArgCaller (world_net 1000 flaky)))
      = 2%nat
   /\ sleeps (log (snd (__call__ trader "buy" ArgCaller (world_net 1000 flaky))))
      = [0]
   /\ steps (log (snd (__call__ trader "buy" ArgCaller (world_net 1000 flaky))))
      = [ Waits; ReadsNonce; Signs; Requests;
          LogsDebug (PStr "Poloniex Network Error 504");
          LogsInfo (PStr "-- delaying for 0s"); Sleeps 0;
          Waits; ReadsNonce; Signs; Requests ]).
Proof.
  split.
  - apply (proj1 (proj2 (retry_schedule trader "buy" ArgCaller
                           (world_net 1000 always_502)
                           (fun _ => "Poloniex Network Error 502") 0%nat
                           eq_refl))).
    intros i _. vm_compute. reflexivity.
  - apply (proj2 (proj2 (retry_schedule trader "buy" ArgCaller
                           (world_net 1000 flaky)
                           (fun _ => "Poloniex Network Error 504") 1%nat
                           eq_refl))).
    + lia.
    + intros i Hi. destruct i as [|i]; [vm_compute; reflexivity | lia].
    + intros q. vm_compute. discriminate.
Defined.

(** C4, as stated, fails: the error raised when the delays are exhausted
    does not carry the accumulated failures.  Two runs whose earlier
    failures differ (five times 502; four times 504, then 502) raise the
    very same error, so nothing computed from the error can return the
    failures that were accumulated (they are only written to the debug
    log). *)
Lemma retry_error_forgets_earlier_failures :
  ~ exists carried : exn -> list pyval,
      forall (net : nat -> net_outcome) (e : exn) (w' : World),
        __call__ trader "buy" ArgCaller (world_net 1000 net) = (Raised e, w') ->
        carried e = logged_problems (log w').
Proof.
  intros [carried H].
  pose proof (H always_502
                (RetryException "retryDelays exhausted Poloniex Network Error 502")
                (snd (__call__ trader "buy" ArgCaller (world_net 1000 always_502))))
    as H1.
  pose proof (H four_504_then_502
                (RetryException "retryDelays exhausted Poloniex Network Error 502")
                (snd (__call__ trader "buy" ArgCaller (world_net 1000 four_504_then_502))))
    as H2.
  assert (E1 : logged_problems
                 (log (snd (__call__ trader "buy" ArgCaller (world_net 1000 always_502))))
               = [PStr "Poloniex Network Error 502"; PStr "Poloniex Network Error 502";
                  PStr "Poloniex Network Error 502"; PStr "Poloniex Network Error 502";
                  PStr "Poloniex Network Error 502"])
    by (vm_compute; reflexivity).
  assert (E2 : logged_problems
                 (log (snd (__call__ trader "buy" ArgCaller (world_net 1000 four_504_then_502))))
               = [PStr "Poloniex Network Error 504"; PStr "Poloniex Network Error 504";
                  PStr "Poloniex Network Error 504"; PStr "Poloniex Network Error 504";
                  PStr "Poloniex Network Error 502"])
    by (vm_compute; reflexivity).
  rewrite E1 in H1. rewrite E2 in H2.
  rewrite H1 in H2 by (vm_compute; reflexivity).
  discriminate H2.
  vm_compute; reflexivity.
Qed.

(** ** Order of the steps of a private attempt *)

Lemma skipn_length_app {A} (l x : list A) : skipn (length l) (l ++ x) = x.
Proof. induction l as [|a l IH]; [reflexivity | exact IH]. Qed.

Lemma logs_lack (p : event -> bool) (tail : list event) :
  (forall l x, p (EvLog l x) = false) ->
  forallb is_log tail = true -> existsb p tail = false.
Proof.
  intros Hp. induction tail as [|e tail IH]; [reflexivity|].
  cbn [forallb existsb]. intros H. apply andb_prop in H as [He Ht].
  destruct e; try discriminate He. now rewrite Hp, IH.
Qed.

Lemma before_logs (p q : event -> bool) (tail : list event) :
  (forall l x, p (EvLog l x) = false) ->
  forallb is_log tail = true -> before p q tail = false.
Proof.
  intros Hp. induction tail as [|e tail IH]; [reflexivity|].
  cbn [forallb before]. intros H. apply andb_prop in H as [He Ht].
  destruct e; try discriminate He. now rewrite Hp, IH.
Qed.

(** What an attempt that passes the command check adds to the log: its
    events up to the request, then log lines only. *)
Lemma attempt_added (self : Instance) (command : string) (args : argref) (w : World) :
  dispatchable self command = true ->
  exists tail,
    added w (snd (__call__func self command args w))
    = (attempt_events self (cmdType_of command) (_nonce w + stride)
         (prepared_args command (cmdType_of command) (_nonce w + stride)
            (args_of args w)) ++ tail)%list
    /\ forallb is_log tail = true.
Proof.
  intros Hd. rewrite (attempt_eq self command args w Hd). unfold added.
  destruct (network w (requests w)) as [e|r]; cbn [snd].
  - exists []. cbn [sent_world log]. rewrite skipn_length_app, app_nil_r. auto.
  - set (w1 := sent_world self command args (cmdType_of command) w).
    destruct (handleReturned_frame r w1) as (tail & Hlog & Htail & _).
    exists tail. rewrite Hlog. subst w1. cbn [sent_world log].
    rewrite <- app_assoc, skipn_length_app. auto.
Qed.

(** C2 (amended) — within an attempt of a private command the coach is
    waited for first (when there is a coach), then the nonce is read, then
    the signature is computed, then the POST leaves; after it come log
    lines only.  So the wait precedes the network call, and the nonce and
    the signature come after the wait, not before it. *)
Theorem private_attempt_waits_then_signs_then_posts
  (self : Instance) (command : string) (args : argref) (w : World)
  (Hpriv : command_in command PRIVATE_COMMANDS = true)
  (Hcred : truthy (key self) && truthy (secret self) = true) :
  let n := _nonce w + stride in
  let data := dict_set (dict_set (args_of args w) "command" (PStr command))
                       "nonce" (PInt n) in
  let sign := HmacSha512 (cred_text (secret self)) data in
  let tr := added w (snd (__call__func self command args w)) in
  (exists tail,
      tr = ((if coach self then [EvWait] else []) ++
            [ EvNonce n; EvSign sign;
              EvPost {| p_timeout := timeout self; p_url := TradingApi;
                        p_data := Some data;
                        p_headers := Some (sign, key self);
                        p_proxies := proxies_if_any self |} ] ++ tail)%list
      /\ forallb is_log tail = true)
  /\ (coach self = true ->
      before is_wait is_nonce tr = true
      /\ before is_wait is_sign tr = true
      /\ before is_wait is_post tr = true
      /\ before is_nonce is_wait tr = false
      /\ before is_sign is_wait tr = false
      /\ before is_post is_wait tr = false).
Proof.
  intros n data sign tr.
  assert (Hd : dispatchable self command = true)
    by (unfold dispatchable; now rewrite Hpriv).
  destruct (attempt_added self command args w Hd) as (tail & Hadd & Htail).
  assert (Ht : cmdType_of command = Private)
    by (unfold cmdType_of; now rewrite Hpriv).
  rewrite Ht in Hadd. unfold attempt_events, prepared_args in Hadd.
  fold n in Hadd. fold data in Hadd. fold sign in Hadd. fold tr in Hadd.
  rewrite <- app_assoc in Hadd.
  split.
  - exists tail. auto.
  - intros Hc. rewrite Hc in Hadd. rewrite Hadd.
    cbn [app before existsb is_wait is_nonce is_sign is_post andb orb].
    rewrite (logs_lack is_wait tail), (before_logs is_nonce is_wait tail),
      (before_logs is_sign is_wait tail), (before_logs is_post is_wait tail);
      try exact Htail; try (intros; reflexivity).
    repeat apply conj; reflexivity.
Qed.

Lemma private_attempt_waits_then_signs_then_posts_witness :
  before is_wait is_nonce
    (added (world0 1000 (ok_response (PDict [])))
       (snd (__call__func trader "buy" ArgCaller (world0 1000 (ok_response (PDict []))))))
  = true
  /\ before is_nonce is_wait
    (added (world0 1000 (ok_response (PDict [])))
       (snd (__call__func trader "buy" ArgCaller (world0 1000 (ok_response (PDict []))))))
  = false.
Proof.
  pose proof (proj2 (private_attempt_waits_then_signs_then_posts
                       trader "buy" ArgCaller (world0 1000 (ok_response (PDict [])))
                       eq_refl eq_refl) eq_refl) as H.
  cbv zeta in H. destruct H as (H1 & _ & _ & H4 & _). split; [exact H1 | exact H4].
Defined.

(** C2, as stated, fails: in a private call the wait on the coach comes
    first; the nonce is obtained and the signature computed after it, not
    before it. *)
Lemma private_call_waits_before_nonce_and_signature :
  let tr := log (snd (__call__ trader "buy" ArgCaller
                        (world0 1000 (ok_response (PDict []))))) in
  firstn 2 tr = [EvWait; EvNonce 1042]
  /\ map is_sign tr = [false; false; true; false]
  /\ ~ before is_nonce is_wait tr = true
  /\ ~ before is_sign is_wait tr = true.
Proof.
  cbv zeta. repeat apply conj; try (vm_compute; reflexivity);
    vm_compute; discriminate.
Qed.

(** ** The nonce error *)

Lemma handleReturned_nonce_error
      (data : response) (d : dict) (s : string) (X : Z) (w : World) :
  gateway_error data = false ->
  decoded data = Some (PDict d) ->
  dict_get d "error" = Some (PStr s) ->
  Text.contains "Nonce must be greater" s = true ->
  nonce_of_error s = Returned X ->
  _handleReturned data w
  = (Raised (RequestException ("PoloniexError " ++ s)),
     {| _nonce := X; default_args := default_args w;
        caller_args := caller_args w;
        log := log w ++ [EvLog Error (PStr s)];
        network := network w; requests := requests w |}).
Proof.
  intros Hg Hdec Herr Hmatch HX.
  unfold _handleReturned. unfold gateway_error in Hg. rewrite Hg, Hdec.
  cbn [py_in]. unfold dict_has. rewrite Herr.
  unfold py_getitem. rewrite Herr. run_monad. rewrite Hmatch, HX. reflexivity.
Qed.

(** The message the exchange sends matches, and the number after
    "greater than" is the one extracted. *)
Lemma server_message_matches (X : Z) (tail : string) :
  Text.contains "Nonce must be greater"
    ("Nonce must be greater than " ++ Text.str_of_Z X ++ "." ++ tail) = true.
Proof. reflexivity. Qed.

Lemma server_message_nonce (X : Z) (tail : string) :
  nonce_of_error ("Nonce must be greater than " ++ Text.str_of_Z X ++ "." ++ tail)
  = Returned X.
Proof.
  unfold nonce_of_error, Text.split.
  rewrite SplitFacts.split_dot_head_app by reflexivity.
  change ("." ++ tail) with (String "." tail).
  rewrite SplitFacts.split_dot_head_plain by apply TextFacts.str_of_Z_plain.
  change ("Nonce must be greater than " ++ Text.str_of_Z X)
    with ("Nonce must be greater than" ++ String " " (Text.str_of_Z X)).
  rewrite SplitFacts.last_word_after_blank
    by (apply TextFacts.str_of_Z_plain || apply TextFacts.str_of_Z_nonempty).
  now rewrite TextFacts.int_of_str_of_Z.
Qed.

(** ** Logs only grow *)

Lemma attempt_log (self : Instance) (command : string) (args : argref) (w : World) :
  dispatchable self command = true ->
  exists tail,
    log (snd (__call__func self command args w))
    = (log w ++
       attempt_events self (cmdType_of command) (_nonce w + stride)
         (prepared_args command (cmdType_of command) (_nonce w + stride)
            (args_of args w)) ++ tail)%list.
Proof.
  intros Hd. destruct (attempt_added self command args w Hd) as (tail & Hadd & _).
  exists tail. rewrite <- Hadd. unfold added.
  rewrite (attempt_eq self command args w Hd).
  destruct (network w (requests w)) as [e|r]; cbn [snd].
  - cbn [sent_world log]. now rewrite skipn_length_app.
  - set (w1 := sent_world self command args (cmdType_of command) w).
    destruct (handleReturned_frame r w1) as (t & Hlog & _).
    rewrite Hlog. subst w1. cbn [sent_world log].
    now rewrite <- !app_assoc, skipn_length_app.
Qed.

Section Growth.

Variable func : M pyval.
Hypothesis func_extends :
  forall w, exists tail, log (snd (func w)) = (log w ++ tail)%list.

Lemma retrying_extends (delays : list (option Z)) :
  forall problems w,
    exists tail, log (snd (retrying func delays problems w)) = (log w ++ tail)%list.
Proof.
  induction delays as [|delay rest IH]; intros problems w.
  - exists []. cbn. now rewrite app_nil_r.
  - cbn [retrying]. unfold try_except.
    destruct (func_extends w) as [t1 H1]. destruct (func w) as [r w1].
    cbn [snd] in H1.
    destruct r as [a|e]; [exists t1; exact H1|].
    destruct e; try (exists t1; exact H1).
    destruct delay as [d|].
    + unfold bind, emit. cbn [fst snd].
      match goal with
      | |- context [retrying func rest ?ps ?w2] =>
          destruct (IH ps w2) as [t2 H2]; rewrite H2
      end.
      cbn [log]. rewrite H1. rewrite <- !app_assoc. eexists. reflexivity.
    + unfold bind, emit, raise. cbn [fst snd log]. rewrite H1.
      rewrite <- !app_assoc. eexists. reflexivity.
Qed.

(** Whatever the loop does after its first attempt comes after it. *)
Lemma retrying_after_first (delay : option Z) (rest : list (option Z))
      (problems : list string) (w : World) :
  exists tail,
    log (snd (retrying func (delay :: rest) problems w))
    = (log (snd (func w)) ++ tail)%list.
Proof.
  cbn [retrying]. unfold try_except. destruct (func w) as [r w1]. cbn [snd].
  destruct r as [a|e]; [exists []; now rewrite app_nil_r|].
  destruct e; try (exists []; now rewrite app_nil_r).
  destruct delay as [d|].
  - unfold bind, emit. cbn [fst snd].
    match goal with
    | |- context [retrying func rest ?ps ?w2] =>
        destruct (retrying_extends rest ps w2) as [t2 H2]; rewrite H2
    end.
    cbn [log]. rewrite <- !app_assoc. eexists. reflexivity.
  - unfold bind, emit, raise. cbn [fst snd log]. eexists. reflexivity.
Qed.

End Growth.

Lemma posted_nonces_app (a b : list event) :
  posted_nonces (a ++ b) = (posted_nonces a ++ posted_nonces b)%list.
Proof. apply flat_map_app. Qed.

Lemma posted_nonces_private (self : Instance) (command : string) (n : Z) (d : dict) :
  posted_nonces (attempt_events self Private n (prepared_args command Private n d))
  = [Some (PInt n)].
Proof.
  unfold attempt_events, prepared_args.
  destruct (coach self); cbn [app posted_nonces flat_map p_data];
    now rewrite dict_get_set_same.
Qed.

Lemma attempt_extends (self : Instance) (command : string) (args : argref) :
  dispatchable self command = true ->
  forall w, exists tail,
      log (snd (__call__func self command args w)) = (log w ++ tail)%list.
Proof.
  intros Hd w. destruct (attempt_log self command args w Hd) as [t H].
  eexists. exact H.
Qed.

(** C3 (amended) — when the decoded body has an error text that contains
    "Nonce must be greater" (capital N: the test is case-sensitive) and
    the last word before its first full stop reads as the integer [X],
    [_handleReturned] overwrites the counter with [X] and raises the
    retryable exception; [__call__] then tries again, and the nonce posted
    by the second attempt of a private command is [X] plus the stride,
    hence at least [X].  The message of the exchange, "Nonce must be
    greater than X. ...", has that shape for every integer [X]. *)
Theorem nonce_error_resyncs_and_is_retried
  (self : Instance) (command : string) (args : argref) (w : World)
  (r1 : response) (d : dict) (s : string) (X : Z)
  (Hpriv : command_in command PRIVATE_COMMANDS = true)
  (Hcred : truthy (key self) && truthy (secret self) = true)
  (Hnet : network w (requests w) = NetResponse r1)
  (Hgate : gateway_error r1 = false)
  (Hdec : decoded r1 = Some (PDict d))
  (Herr : dict_get d "error" = Some (PStr s))
  (Hmatch : Text.contains "Nonce must be greater" s = true)
  (Hword : nonce_of_error s = Returned X) :
  (forall w0,
      fst (_handleReturned r1 w0) = Raised (RequestException ("PoloniexError " ++ s))
      /\ _nonce (snd (_handleReturned r1 w0)) = X)
  /\ (exists later,
         posted_nonces (log (snd (__call__ self command args w)))
         = (posted_nonces (log w) ++
            Some (PInt (_nonce w + stride)) :: Some (PInt (X + stride)) :: later)%list)
  /\ X <= X + stride
  /\ (forall X' tail,
         Text.contains "Nonce must be greater"
           ("Nonce must be greater than " ++ Text.str_of_Z X' ++ "." ++ tail) = true
         /\ nonce_of_error
              ("Nonce must be greater than " ++ Text.str_of_Z X' ++ "." ++ tail)
            = Returned X').
Proof.
  assert (Hd : dispatchable self command = true)
    by (unfold dispatchable; now rewrite Hpriv).
  assert (Ht : cmdType_of command = Private)
    by (unfold cmdType_of; now rewrite Hpriv).
  split; [|split; [|split]].
  - intros w0.
    rewrite (handleReturned_nonce_error r1 d s X w0 Hgate Hdec Herr Hmatch Hword).
    split; reflexivity.
  - unfold __call__, _retry. cbn [map app retryDelays retrying].
    unfold try_except at 1.
    rewrite (attempt_eq self command args w Hd), Hnet, Ht.
    rewrite (handleReturned_nonce_error r1 d s X _ Hgate Hdec Herr Hmatch Hword).
    unfold bind, emit. cbn [fst snd _nonce default_args caller_args log network requests sent_world].
    match goal with
    | |- context [try_except ?f ?h ?w2] =>
        change (try_except f h w2)
          with (retrying f [Some 2; Some 5; Some 30; None]
                  ([] ++ ["PoloniexError " ++ s]) w2);
        destruct (retrying_after_first f (attempt_extends self command args Hd)
                    (Some 2) [Some 5; Some 30; None]
                    ([] ++ ["PoloniexError " ++ s]) w2) as [t2 H2];
        destruct (attempt_log self command args w2 Hd) as [t1 H1]
    end.
    rewrite H2, H1, Ht. cbn [_nonce log args_of].
    rewrite !posted_nonces_app, !posted_nonces_private.
    cbn [posted_nonces flat_map app]. rewrite <- !app_assoc. cbn [app].
    eexists. reflexivity.
  - unfold stride. lia.
  - intros X' tail. split; [apply server_message_matches | apply server_message_nonce].
Qed.

Lemma nonce_error_resyncs_and_is_retried_witness :
  exists later,
    posted_nonces
      (log (snd (__call__ trader "buy" ArgCaller
                   (world0 1000
                      (error_response
                         "Nonce must be greater than 5000. You provided 1042.")))))
    = Some (PInt 1042) :: Some (PInt 5042) :: later.
Proof.
  exact (proj1 (proj2
    (nonce_error_resyncs_and_is_retried trader "buy" ArgCaller
       (world0 1000
          (error_response "Nonce must be greater than 5000. You provided 1042."))
       {| status_code := Some 200; text := "";
          decoded := Some (PDict [("error",
                       PStr "Nonce must be greater than 5000. You provided 1042.")]) |}
       [("error", PStr "Nonce must be greater than 5000. You provided 1042.")]
       "Nonce must be greater than 5000. You provided 1042." 5000
       eq_refl eq_refl eq_refl eq_refl eq_refl eq_refl eq_refl eq_refl))).
Defined.

(** C3, as stated, fails on the case-insensitive match: the same message
    with a small initial is not recognised.  It is classified fatal
    ([PoloniexError], not the retryable exception), the counter is not
    overwritten with 5000, and no second request is made. *)
Lemma lowercase_nonce_error_is_fatal :
  let msg := "nonce must be greater than 5000. You provided 1042." in
  let run := __call__ trader "buy" ArgCaller (world0 1000 (error_response msg)) in
  Text.contains "nonce must be greater" (Text.lower msg) = true
  /\ fst run = Raised (PoloniexError msg)
  /\ _nonce (snd run) = 1042
  /\ requests (snd run) = 1%nat
  /\ sleeps (log (snd run)) = [].
Proof. cbv zeta. repeat apply conj; vm_compute; reflexivity. Qed.

(** ** The argument dictionary *)

(** An attempt leaves the prepared arguments in the dictionary it was
    given, and does not touch the other one. *)
Lemma attempt_args (self : Instance) (command : string) (w : World) :
  dispatchable self command = true ->
  caller_args (snd (__call__func self command ArgCaller w))
  = prepared_args command (cmdType_of command) (_nonce w + stride) (caller_args w)
  /\ default_args (snd (__call__func self command ArgCaller w)) = default_args w.
Proof.
  intros Hd. rewrite (attempt_eq self command ArgCaller w Hd).
  destruct (network w (requests w)) as [e|r]; cbn [snd].
  - split; reflexivity.
  - set (w1 := sent_world self command ArgCaller (cmdType_of command) w).
    destruct (handleReturned_frame r w1) as (t & _ & _ & _ & _ & Hda & Hca).
    rewrite Hda, Hca. split; reflexivity.
Qed.

Lemma call_rejected (self : Instance) (command : string) (args : argref) (w : World) :
  dispatchable self command = false ->
  snd (__call__ self command args w) = w.
Proof.
  intros Hd. unfold __call__, _retry. cbn [map app retryDelays retrying].
  unfold try_except, __call__func. unfold bind at 1. unfold _checkCmd.
  unfold dispatchable in Hd.
  destruct (command_in command PRIVATE_COMMANDS).
  - apply andb_false_iff in Hd.
    assert (Hb : negb (truthy (key self)) || negb (truthy (secret self)) = true)
      by (destruct Hd as [-> | ->]; [reflexivity | apply orb_true_r]).
    rewrite Hb. reflexivity.
  - rewrite Hd. reflexivity.
Qed.

Section Invariant.

Variable func : M pyval.
Variable P : World -> Prop.
Hypothesis P_emit : forall e w, P w -> P (snd (emit e w)).

(** The loop ends in a world the first attempt left, or in one the rest of
    the loop left after the log lines and the sleep. *)
Lemma retrying_head (delay : option Z) (rest : list (option Z))
      (problems : list string) (w : World) :
  (forall ps w0, P w0 -> P (snd (retrying func rest ps w0))) ->
  P (snd (func w)) ->
  P (snd (retrying func (delay :: rest) problems w)).
Proof.
  intros Hrest H1. cbn [retrying]. unfold try_except.
  destruct (func w) as [r w1]. cbn [snd] in H1.
  destruct r as [a|e]; [exact H1|].
  destruct e; try exact H1.
  destruct delay as [d|].
  - pose proof (P_emit (EvLog Debug (PStr msg)) _ H1) as H2.
    pose proof (P_emit (EvLog Info
                          (PStr ("-- delaying for " ++ Text.str_of_Z d ++ "s")))
                       _ H2) as H3.
    pose proof (P_emit (EvSleep d) _ H3) as H4.
    exact (Hrest (problems ++ [msg])%list _ H4).
  - exact (P_emit (EvLog Debug (PList (map PStr (problems ++ [msg])))) w1 H1).
Qed.

Hypothesis P_func : forall w, P w -> P (snd (func w)).

Lemma retrying_keeps (delays : list (option Z)) :
  forall problems w, P w -> P (snd (retrying func delays problems w)).
Proof.
  induction delays as [|delay rest IH]; intros problems w Hw.
  - exact Hw.
  - apply retrying_head; [exact IH | now apply P_func].
Qed.

Lemma retrying_establishes (delay : option Z) (rest : list (option Z))
      (problems : list string) (w : World) :
  P (snd (func w)) -> P (snd (retrying func (delay :: rest) problems w)).
Proof.
  apply retrying_head. intros ps w0. apply retrying_keeps.
Qed.

End Invariant.

Lemma prepared_args_left (command : string) (t : cmdType) (n : Z) (d : dict) :
  dict_get (prepared_args command t n d) "command" = Some (PStr command)
  /\ (forall k, k <> "command" -> k <> "nonce" ->
                dict_get (prepared_args command t n d) k = dict_get d k)
  /\ (t = Private -> dict_get (prepared_args command t n d) "nonce" = Some (PInt n))
  /\ (t = Public -> dict_get (prepared_args command t n d) "nonce" = dict_get d "nonce").
Proof.
  destruct t; cbn [prepared_args]; repeat apply conj; try discriminate.
  - rewrite dict_get_set_other by discriminate. apply dict_get_set_same.
  - intros k Hc Hn. rewrite !dict_get_set_other by congruence. reflexivity.
  - intros _. apply dict_get_set_same.
  - apply dict_get_set_same.
  - intros k Hc Hn. rewrite dict_get_set_other by congruence. reflexivity.
  - intros _. apply dict_get_set_other. discriminate.
Qed.

(** An attempt on the caller's dictionary establishes, and keeps,
    [call_left_args]. *)
Lemma attempt_leaves_args (self : Instance) (command : string) (w w0 : World) :
  dispatchable self command = true ->
  w0 = w \/ call_left_args command w w0 ->
  call_left_args command w (snd (__call__func self command ArgCaller w0)).
Proof.
  intros Hd H0.
  destruct (attempt_args self command w0 Hd) as [Hca Hda].
  destruct (prepared_args_left command (cmdType_of command)
              (_nonce w0 + stride) (caller_args w0)) as (L1 & L2 & L3 & L4).
  unfold call_left_args. rewrite Hca, Hda.
  destruct H0 as [-> | (K1 & K2 & K3 & K4 & K5)].
  - repeat apply conj; auto. intros Ht. eexists. now apply L3.
  - repeat apply conj; auto.
    + intros k Hc Hn. rewrite L2 by assumption. now apply K2.
    + intros Ht. eexists. now apply L3.
    + intros Ht. rewrite L4 by assumption. now apply K4.
Qed.

(** C8 (amended) — [__call__] builds the request in the caller's
    dictionary itself.  After a call whose command passes the check, the
    dictionary holds the command under ['command'] and, for a private
    command, an integer nonce under ['nonce']; every other key keeps its
    value, ['nonce'] is untouched by a public command, and the default
    dictionary is untouched.  A call whose command fails the check leaves
    everything as it was. *)
Theorem call_writes_command_and_nonce_into_args
  (self : Instance) (command : string) (w : World) :
  (dispatchable self command = true ->
   call_left_args command w (snd (__call__ self command ArgCaller w)))
  /\ (dispatchable self command = false ->
      snd (__call__ self command ArgCaller w) = w).
Proof.
  split; intros Hd.
  - unfold __call__, _retry. cbn [map app retryDelays].
    apply (retrying_establishes (__call__func self command ArgCaller)
             (call_left_args command w)).
    + intros e w0 H. exact H.
    + intros w0 H. apply attempt_leaves_args; auto.
    + apply attempt_leaves_args; auto.
  - now apply call_rejected.
Qed.

Lemma call_writes_command_and_nonce_into_args_witness :
  call_left_args "buy" (world0 1000 (status_response 502))
    (snd (__call__ trader "buy" ArgCaller (world0 1000 (status_response 502))))
  /\ snd (__call__ anonymous "buy" ArgCaller (world0 1000 (status_response 502)))
     = world0 1000 (status_response 502).
Proof.
  split.
  - apply (proj1 (call_writes_command_and_nonce_into_args
                    trader "buy" (world0 1000 (status_response 502)))).
    reflexivity.
  - apply (proj2 (call_writes_command_and_nonce_into_args
                    anonymous "buy" (world0 1000 (status_response 502)))).
    reflexivity.
Defined.

(** C8, as stated, fails: the caller's dictionary is changed by the call
    (['command'], and for a private command ['nonce'], are written into
    it), and when [args] is omitted the entries stay in the default
    dictionary: after [returnBalances] the default holds its command and
    nonce, and the next public call sends that nonce in its query. *)
Lemma call_changes_the_callers_dictionary :
  let w0 := world0 1000 (ok_response (PDict [])) in
  caller_args w0 = []
  /\ caller_args (snd (__call__ trader "returnTicker" ArgCaller w0))
     = [("command", PStr "returnTicker")]
  /\ caller_args (snd (__call__ trader "buy" ArgCaller w0))
     = [("command", PStr "buy"); ("nonce", PInt 1042)]
  /\ (let w1 := snd (__call__ trader "returnBalances" ArgDefault w0) in
      let w2 := snd (__call__ trader "returnTicker" ArgDefault w1) in
      default_args w0 = []
      /\ default_args w1 = [("command", PStr "returnBalances"); ("nonce", PInt 1042)]
      /\ default_args w2 = [("command", PStr "returnTicker"); ("nonce", PInt 1042)]
      /\ skipn 5 (log w2)
         = [ EvGet {| p_timeout := None;
                      p_url := PublicQuery [("command", PStr "returnTicker");
                                            ("nonce", PInt 1042)];
                      p_data := None; p_headers := None; p_proxies := None |} ]).
Proof. cbv zeta. repeat apply conj; vm_compute; reflexivity. Qed.

(** ** The websocket handler *)

Ltac run_socket :=
  cbv beta iota zeta delta
    [bind emit ret raise fst snd
     _nonce default_args caller_args log network requests].

Lemma ack_check_heartbeat (chan : option string) (l : list pyval) (w : World) :
  chan_is chan "heartbeat" = true -> ack_check chan l w = (Returned false, w).
Proof. intros H. unfold ack_check. rewrite H. reflexivity. Qed.

Lemma ack_check_data (chan : option string) (l : list pyval) (m1 : pyval) (w : World) :
  chan_is chan "heartbeat" = false ->
  nth_error l 1 = Some m1 -> is_ack m1 = false ->
  ack_check chan l w = (Returned false, w).
Proof.
  intros H H1 Hack. unfold ack_check. rewrite H, H1. cbn [negb].
  apply orb_false_iff in Hack as [-> ->]. reflexivity.
Qed.

Lemma ack_check_ack (chan : option string) (l : list pyval) (m1 : pyval) (w : World) :
  chan_is chan "heartbeat" = false ->
  nth_error l 1 = Some m1 -> is_ack m1 = true ->
  exists line,
    ack_check chan l w = (Returned true, snd (emit (EvLog Debug (PStr line)) w)).
Proof.
  intros H H1 Hack. unfold ack_check. rewrite H, H1. cbn [negb].
  destruct (py_eq_int m1 1) eqn:E1.
  - eexists. reflexivity.
  - cbn in Hack. unfold is_ack in Hack. rewrite E1 in Hack. cbn [orb] in Hack.
    rewrite Hack. eexists. reflexivity.
Qed.

Lemma callbacks_app (a b : list event) :
  callbacks (a ++ b) = (callbacks a ++ callbacks b)%list.
Proof. apply flat_map_app. Qed.

(** A frame taken for an acknowledgment is logged and dropped. *)
Lemma on_message_ack (container_str : pyval -> string) (channels : registry)
      (l : list pyval) (m0 m1 : pyval) (w : World) :
  not_error_frame l = true ->
  nth_error l 0 = Some m0 ->
  chan_is (_getChannelName channels (py_str container_str m0)) "heartbeat" = false ->
  nth_error l 1 = Some m1 -> is_ack m1 = true ->
  exists line,
    on_message container_str channels (FList l) w
    = (Returned (PBool false), snd (emit (EvLog Debug (PStr line)) w)).
Proof.
  intros Herr H0 Hchan H1 Hack. unfold on_message.
  apply negb_true_iff in Herr. rewrite Herr, H0. unfold bind at 1.
  destruct (ack_check_ack _ l m1 w Hchan H1 Hack) as [line ->].
  exists line. reflexivity.
Qed.

(** A data frame on a channel with a callback reaches the callback,
    stripped as the channel requires. *)
Lemma on_message_data (container_str : pyval -> string) (channels : registry)
      (l : list pyval) (m0 m1 : pyval) (name : string) (c : Channel)
      (h : handler) (w : World) :
  not_error_frame l = true ->
  nth_error l 0 = Some m0 ->
  _getChannelName channels (py_str container_str m0) = Some name ->
  String.eqb name "heartbeat" = false ->
  channels_get channels name = Some c -> ch_callback c = Some h ->
  nth_error l 1 = Some m1 -> is_ack m1 = false ->
  on_message container_str channels (FList l) w
  = (Returned PNone,
     snd (emit (EvCallback h (if command_in name ["ticker"; "24hvolume"]
                              then skipn 2 l else skipn 1 l)) w)).
Proof.
  intros Herr H0 Hchan Hhb Hget Hcb H1 Hack. unfold on_message.
  apply negb_true_iff in Herr. rewrite Herr, H0, Hchan. unfold bind at 1.
  rewrite (ack_check_data (Some name) l m1 w Hhb H1 Hack).
  rewrite Hget, Hcb, Hhb.
  destruct (command_in name ["ticker"; "24hvolume"]); reflexivity.
Qed.

(** A heartbeat frame reaches the callback twice, whole. *)
Lemma on_message_heartbeat (container_str : pyval -> string) (channels : registry)
      (l : list pyval) (m0 : pyval) (c : Channel) (h : handler) (w : World) :
  not_error_frame l = true ->
  nth_error l 0 = Some m0 ->
  _getChannelName channels (py_str container_str m0) = Some "heartbeat" ->
  channels_get channels "heartbeat" = Some c -> ch_callback c = Some h ->
  on_message container_str channels (FList l) w
  = (Returned PNone,
     snd (emit (EvCallback h l) (snd (emit (EvCallback h l) w)))).
Proof.
  intros Herr H0 Hchan Hget Hcb. unfold on_message.
  apply negb_true_iff in Herr. rewrite Herr, H0, Hchan. unfold bind at 1.
  rewrite (ack_check_heartbeat (Some "heartbeat") l w eq_refl).
  rewrite Hget, Hcb. reflexivity.
Qed.

(** A frame of an unknown channel that is not taken for an
    acknowledgment makes the handler raise [KeyError]; nothing is logged
    and no callback runs. *)
Lemma on_message_unknown (container_str : pyval -> string) (channels : registry)
      (l : list pyval) (m0 m1 : pyval) (w : World) :
  not_error_frame l = true ->
  nth_error l 0 = Some m0 ->
  _getChannelName channels (py_str container_str m0) = None ->
  nth_error l 1 = Some m1 -> is_ack m1 = false ->
  on_message container_str channels (FList l) w = (Raised KeyError, w).
Proof.
  intros Herr H0 Hchan H1 Hack. unfold on_message.
  apply negb_true_iff in Herr. rewrite Herr, H0, Hchan. unfold bind at 1.
  rewrite (ack_check_data None l m1 w eq_refl H1 Hack). reflexivity.
Qed.

Lemma feed_without_sequence (name : string) :
  command_in name ["ticker"; "24hvolume"] = true
  <-> name = "ticker" \/ name = "24hvolume".
Proof.
  unfold command_in. cbn [existsb].
  rewrite !orb_true_iff, !String.eqb_eq. intuition discriminate.
Qed.

(** C6 — the frame [[9999, 7, "x"]] carries a channel id that no channel
    of the registry has and is not taken for an acknowledgment.  The
    handler does not log and drop it: [self.channels[False]] raises
    [KeyError] out of [on_message], with nothing logged. *)
Theorem unknown_channel_frame_raises_KeyError
  (container_str : pyval -> string) (w : World) :
  _getChannelName static_channels (py_str container_str (PInt 9999)) = None
  /\ on_message container_str static_channels
       (FList [PInt 9999; PInt 7; PStr "x"]) w
     = (Raised KeyError, w).
Proof.
  split; [reflexivity|].
  apply (on_message_unknown container_str static_channels
           [PInt 9999; PInt 7; PStr "x"] (PInt 9999) (PInt 7) w);
    reflexivity.
Qed.

(** C7 — a frame on a registered channel that has a callback.  On a
    channel other than the heartbeat: if the second element equals 1 or 0
    the frame is consumed and the callback is not invoked; otherwise the
    callback is invoked once, with the frame less its first two elements
    on the ticker and the 24-hour-volume channels, and less its first
    element on every other channel.  On the heartbeat channel every
    invocation of the callback gets the whole frame. *)
Theorem frames_reach_the_callback_stripped
  (container_str : pyval -> string) (channels : registry)
  (l : list pyval) (m0 : pyval) (name : string) (c : Channel) (h : handler)
  (w : World)
  (Hframe : not_error_frame l = true)
  (Hhead : nth_error l 0 = Some m0)
  (Hchan : _getChannelName channels (py_str container_str m0) = Some name)
  (Hget : channels_get channels name = Some c)
  (Hcb : ch_callback c = Some h) :
  let run := on_message container_str channels (FList l) w in
  (name <> "heartbeat" ->
   forall m1, nth_error l 1 = Some m1 ->
     (is_ack m1 = true ->
      fst run = Returned (PBool false)
      /\ callbacks (log (snd run)) = callbacks (log w))
     /\
     (is_ack m1 = false ->
      (name = "ticker" \/ name = "24hvolume" ->
       log (snd run) = (log w ++ [EvCallback h (skipn 2 l)])%list)
      /\
      (name <> "ticker" -> name <> "24hvolume" ->
       log (snd run) = (log w ++ [EvCallback h (skipn 1 l)])%list)))
  /\
  (name = "heartbeat" ->
   callbacks (log (snd run)) = (callbacks (log w) ++ [(h, l); (h, l)])%list).
Proof.
  intros run. subst run. split.
  - intros Hhb m1 H1. apply String.eqb_neq in Hhb. split.
    + intros Hack.
      destruct (on_message_ack container_str channels l m0 m1 w Hframe Hhead)
        as [line ->]; auto.
      { rewrite Hchan. exact Hhb. }
      cbn [fst snd emit log]. split; [reflexivity|].
      rewrite callbacks_app. cbn. apply app_nil_r.
    + intros Hack.
      rewrite (on_message_data container_str channels l m0 m1 name c h w)
        by assumption.
      cbn [fst snd emit log]. split.
      * intros Hn. apply feed_without_sequence in Hn. now rewrite Hn.
      * intros Ht Hv.
        destruct (command_in name ["ticker"; "24hvolume"]) eqn:E; [|reflexivity].
        apply feed_without_sequence in E. tauto.
  - intros ->.
    rewrite (on_message_heartbeat container_str channels l m0 c h w) by assumption.
    cbn [fst snd emit log]. rewrite <- app_assoc, callbacks_app. reflexivity.
Qed.

Lemma frames_reach_the_callback_stripped_witness :
  log (snd (on_message (fun _ => "") subscribed_channels
              (FList [PInt 1002; PNone; PList [PInt 148; PStr "0.031"]])
              (world0 0 (status_response 502))))
  = [EvCallback (user_handler 1) [PList [PInt 148; PStr "0.031"]]]
  /\
  log (snd (on_message (fun _ => "") subscribed_channels
              (FList [PInt 148; PInt 8767; PList [PStr "o"; PInt 1]])
              (world0 0 (status_response 502))))
  = [EvCallback (user_handler 2) [PInt 8767; PList [PStr "o"; PInt 1]]].
Proof.
  split.
  - refine (proj1 (proj2 (proj1
      (frames_reach_the_callback_stripped (fun _ => "") subscribed_channels
         [PInt 1002; PNone; PList [PInt 148; PStr "0.031"]] (PInt 1002) "ticker"
         {| ch_id := "1002"; ch_sub := Some true;
            ch_callback := Some (user_handler 1) |}
         (user_handler 1) (world0 0 (status_response 502))
         eq_refl eq_refl eq_refl eq_refl eq_refl)
      _ PNone eq_refl) eq_refl) _).
    + discriminate.
    + left. reflexivity.
  - refine (proj2 (proj2 (proj1
      (frames_reach_the_callback_stripped (fun _ => "") subscribed_channels
         [PInt 148; PInt 8767; PList [PStr "o"; PInt 1]] (PInt 148) "BTC_ETH"
         {| ch_id := "148"; ch_sub := Some true;
            ch_callback := Some (user_handler 2) |}
         (user_handler 2) (world0 0 (status_response 502))
         eq_refl eq_refl eq_refl eq_refl eq_refl)
      _ (PInt 8767) eq_refl) eq_refl) _ _); discriminate.
Defined.

(** C9 — a heartbeat frame, on a registry whose heartbeat channel has a
    callback, makes [on_message] invoke that callback exactly twice, both
    times with the whole decoded message, channel id included; the
    registry built at construction has [on_heartbeat] as that callback. *)
Theorem heartbeat_callback_runs_twice
  (container_str : pyval -> string) (channels : registry)
  (l : list pyval) (m0 : pyval) (c : Channel) (h : handler) (w : World)
  (Hframe : not_error_frame l = true)
  (Hhead : nth_error l 0 = Some m0)
  (Hchan : _getChannelName channels (py_str container_str m0) = Some "heartbeat")
  (Hget : channels_get channels "heartbeat" = Some c)
  (Hcb : ch_callback c = Some h) :
  fst (on_message container_str channels (FList l) w) = Returned PNone
  /\ log (snd (on_message container_str channels (FList l) w))
     = (log w ++ [EvCallback h l; EvCallback h l])%list
  /\ callbacks (log (snd (on_message container_str channels (FList l) w)))
     = (callbacks (log w) ++ [(h, l); (h, l)])%list
  /\ option_map ch_callback (channels_get static_channels "heartbeat")
     = Some (Some on_heartbeat).
Proof.
  rewrite (on_message_heartbeat container_str channels l m0 c h w) by assumption.
  cbn [fst snd emit log]. rewrite <- app_assoc.
  repeat apply conj; try reflexivity.
  rewrite callbacks_app. reflexivity.
Qed.

Lemma heartbeat_callback_runs_twice_witness :
  log (snd (on_message (fun _ => "") static_channels (FList [PInt 1010])
              (world0 0 (status_response 502))))
  = [EvCallback on_heartbeat [PInt 1010]; EvCallback on_heartbeat [PInt 1010]].
Proof.
  exact (proj1 (proj2
    (heartbeat_callback_runs_twice (fun _ => "") static_channels [PInt 1010]
       (PInt 1010)
       {| ch_id := "1010"; ch_sub := None; ch_callback := Some on_heartbeat |}
       on_heartbeat (world0 0 (status_response 502))
       eq_refl eq_refl eq_refl eq_refl eq_refl))).
Defined.

(** C10 — on a registered channel other than the heartbeat, a frame whose
    second element equals 1 or 0 is taken for a subscribe or unsubscribe
    acknowledgment: the handler writes a debug line, returns [False] and
    invokes no callback, whatever else the frame carries (a data frame
    with sequence number 1 or 0 included). *)
Theorem frames_with_second_element_1_or_0_are_swallowed
  (container_str : pyval -> string) (channels : registry)
  (l : list pyval) (m0 m1 : pyval) (name : string) (w : World)
  (Hframe : not_error_frame l = true)
  (Hhead : nth_error l 0 = Some m0)
  (Hchan : _getChannelName channels (py_str container_str m0) = Some name)
  (Hname : name <> "heartbeat")
  (Hsecond : nth_error l 1 = Some m1)
  (Hack : py_eq_int m1 1 = true \/ py_eq_int m1 0 = true) :
  fst (on_message container_str channels (FList l) w) = Returned (PBool false)
  /\ callbacks (log (snd (on_message container_str channels (FList l) w)))
     = callbacks (log w)
  /\ exists line,
      log (snd (on_message container_str channels (FList l) w))
      = (log w ++ [EvLog Debug (PStr line)])%list.
Proof.
  destruct (on_message_ack container_str channels l m0 m1 w Hframe Hhead)
    as [line ->]; auto.
  - rewrite Hchan. now apply String.eqb_neq.
  - unfold is_ack. apply orb_true_iff. exact Hack.
  - cbn [fst snd emit log]. repeat apply conj; try reflexivity.
    + rewrite callbacks_app. cbn. apply app_nil_r.
    + exists line. reflexivity.
Qed.

Lemma frames_with_second_element_1_or_0_are_swallowed_witness :
  fst (on_message (fun _ => "") subscribed_channels
         (FList [PInt 148; PInt 1; PList [PStr "o"; PInt 1; PStr "0.031"]])
         (world0 0 (status_response 502)))
  = Returned (PBool false)
  /\ callbacks
       (log (snd (on_message (fun _ => "") subscribed_channels
                    (FList [PInt 148; PInt 1; PList [PStr "o"; PInt 1; PStr "0.031"]])
                    (world0 0 (status_response 502)))))
     = [].
Proof.
  pose proof (frames_with_second_element_1_or_0_are_swallowed
                (fun _ => "") subscribed_channels
                [PInt 148; PInt 1; PList [PStr "o"; PInt 1; PStr "0.031"]]
                (PInt 148) (PInt 1) "BTC_ETH" (world0 0 (status_response 502))
                eq_refl eq_refl eq_refl ltac:(discriminate) eq_refl
                (or_introl eq_refl)) as (H1 & H2 & _).
  split; [exact H1 | exact H2].
Defined.

(* ================================================================== *)
(** * Further properties *)
(* ================================================================== *)

(** ** What a call leaves in the log *)

(** What an attempt that passes the command check writes: its events up
    to the request, then log lines. *)
Lemma attempt_writes (self : Instance) (command : string) (args : argref) (w : World) :
  dispatchable self command = true ->
  exists tail,
    log (snd (__call__func self command args w))
    = (log w ++
       attempt_events self (cmdType_of command) (_nonce w + stride)
         (prepared_args command (cmdType_of command) (_nonce w + stride)
            (args_of args w)) ++ tail)%list
    /\ forallb is_log tail = true.
Proof.
  intros Hd. rewrite (attempt_eq self command args w Hd).
  destruct (network w (requests w)) as [e|r]; cbn [snd].
  - exists []. cbn [sent_world log]. rewrite app_nil_r. auto.
  - set (w1 := sent_world self command args (cmdType_of command) w).
    destruct (handleReturned_frame r w1) as (tail & Hlog & Htail & _).
    exists tail. rewrite Hlog. subst w1. cbn [sent_world log].
    rewrite <- app_assoc. auto.
Qed.

Section LoopInvariant.

Variable func : M pyval.
Variable P : World -> Prop.
Hypothesis P_log : forall l x w, P w -> P (snd (emit (EvLog l x) w)).
Hypothesis P_sleep : forall d w, P w -> P (snd (emit (EvSleep d) w)).
Hypothesis P_func : forall w, P w -> P (snd (func w)).

(** What the attempts keep, and log lines and sleeps do not break, the
    whole loop keeps. *)
Lemma retrying_preserves (delays : list (option Z)) :
  forall problems w, P w -> P (snd (retrying func delays problems w)).
Proof.
  induction delays as [|delay rest IH]; intros problems w Hw.
  - exact Hw.
  - cbn [retrying]. unfold try_except.
    pose proof (P_func w Hw) as H1. destruct (func w) as [r w1]. cbn [snd] in H1.
    destruct r as [a|e]; [exact H1|].
    destruct e; try exact H1.
    destruct delay as [d|].
    + pose proof (P_log Debug (PStr msg) _ H1) as H2.
      pose proof (P_log Info
                    (PStr ("-- delaying for " ++ Text.str_of_Z d ++ "s")) _ H2) as H3.
      pose proof (P_sleep d _ H3) as H4.
      exact (IH (problems ++ [msg])%list _ H4).
    + exact (P_log Debug (PList (map PStr (problems ++ [msg]))) w1 H1).
Qed.

End LoopInvariant.

(** Every event a call adds satisfies [good], when the events of its
    attempts do and log lines and sleeps do. *)
Lemma call_adds_only (good : event -> Prop)
      (self : Instance) (command : string) (args : argref) :
  dispatchable self command = true ->
  (forall l x, good (EvLog l x)) ->
  (forall d, good (EvSleep d)) ->
  (forall n data, Forall good (attempt_events self (cmdType_of command) n
                                 (prepared_args command (cmdType_of command) n data))) ->
  forall w, exists tail,
      log (snd (__call__ self command args w)) = (log w ++ tail)%list
      /\ Forall good tail.
Proof.
  intros Hd Hlog Hsleep Hatt w.
  apply (retrying_preserves (__call__func self command args)
           (fun w' => exists tail, log w' = (log w ++ tail)%list /\ Forall good tail)).
  - intros l x w0 (tail & E & F). exists (tail ++ [EvLog l x])%list.
    cbn [emit snd log]. rewrite E, <- app_assoc. split; [reflexivity|].
    apply Forall_app. split; [exact F | constructor; [apply Hlog | constructor]].
  - intros d w0 (tail & E & F). exists (tail ++ [EvSleep d])%list.
    cbn [emit snd log]. rewrite E, <- app_assoc. split; [reflexivity|].
    apply Forall_app. split; [exact F | constructor; [apply Hsleep | constructor]].
  - intros w0 (tail & E & F).
    destruct (attempt_writes self command args w0 Hd) as (t & Ht & Hlogs).
    eexists. rewrite Ht, E, <- app_assoc. split; [reflexivity|].
    apply Forall_app. split; [exact F|]. apply Forall_app. split; [apply Hatt|].
    clear Ht. induction t as [|e t IH]; [constructor|].
    cbn [forallb] in Hlogs. apply andb_prop in Hlogs as [He Hrest].
    constructor; [|now apply IH]. destruct e; try discriminate He. apply Hlog.
  - exists []. rewrite app_nil_r. split; [reflexivity | constructor].
Qed.

(** X1 — a public command never touches the trading side: whatever the
    remote side answers and however often the call is retried, the events
    [__call__] adds are waits, GETs without body and without headers, log
    lines and sleeps; it reads no nonce, computes no signature and posts
    nothing. *)
Theorem public_call_never_signs
  (self : Instance) (command : string) (args : argref) (w : World)
  (Hpub : command_in command PUBLIC_COMMANDS = true)
  (Hnot : command_in command PRIVATE_COMMANDS = false) :
  exists tail,
    log (snd (__call__ self command args w)) = (log w ++ tail)%list
    /\ forallb public_event tail = true
    /\ existsb is_nonce tail = false
    /\ existsb is_sign tail = false
    /\ existsb is_post tail = false.
Proof.
  assert (Hd : dispatchable self command = true)
    by (unfold dispatchable; now rewrite Hnot).
  assert (Ht : cmdType_of command = Public)
    by (unfold cmdType_of; now rewrite Hnot).
  destruct (call_adds_only (fun e => public_event e = true) self command args Hd)
    with (w := w) as (tail & E & F); try reflexivity.
  { intros n data. rewrite Ht. unfold attempt_events.
    destruct (coach self); repeat constructor. }
  exists tail. split; [exact E|].
  clear E. induction tail as [|e tail IH].
  - repeat split.
  - inversion F as [|? ? He Ft]; subst. destruct (IH Ft) as (I1 & I2 & I3 & I4).
    cbn [forallb existsb]. rewrite He, I1, I2, I3, I4.
    destruct e; try discriminate He; repeat split.
Qed.

Lemma public_call_never_signs_witness :
  exists tail,
    log (snd (__call__ trader "returnTicker" ArgCaller
                (world_net 1000 four_504_then_502)))
    = tail
    /\ existsb is_nonce tail = false.
Proof.
  destruct (public_call_never_signs trader "returnTicker" ArgCaller
              (world_net 1000 four_504_then_502) eq_refl eq_refl)
    as (tail & E & _ & H & _).
  exists tail. split; [exact E | exact H].
Defined.

(** X2 — every POST of a private call is signed over exactly the body it
    sends: across all attempts of [__call__], each POST goes to the
    trading endpoint with the command and an integer nonce in its body and
    with the MAC of that very body (nonce included) and the key in its
    headers; and a private call never issues a GET. *)
Theorem every_post_is_signed_over_its_body
  (self : Instance) (command : string) (args : argref) (w : World)
  (Hpriv : command_in command PRIVATE_COMMANDS = true)
  (Hcred : truthy (key self) && truthy (secret self) = true) :
  exists tail,
    log (snd (__call__ self command args w)) = (log w ++ tail)%list
    /\ Forall (signed_post self command) tail.
Proof.
  assert (Hd : dispatchable self command = true)
    by (unfold dispatchable; now rewrite Hpriv).
  assert (Ht : cmdType_of command = Private)
    by (unfold cmdType_of; now rewrite Hpriv).
  apply (call_adds_only (signed_post self command) self command args Hd);
    try (intros; exact I).
  intros n data. rewrite Ht. unfold attempt_events.
  destruct (prepared_args_left command Private n data) as (L1 & _ & L3 & _).
  assert (Hpost : signed_post self command
            (EvPost {| p_timeout := timeout self; p_url := TradingApi;
                       p_data := Some (prepared_args command Private n data);
                       p_headers :=
                         Some (HmacSha512 (cred_text (secret self))
                                 (prepared_args command Private n data), key self);
                       p_proxies := proxies_if_any self |})).
  { cbn [signed_post p_data p_url p_headers]. exists (prepared_args command Private n data), n.
    repeat apply conj; auto. }
  destruct (coach self); cbn [app]; repeat (constructor; try exact I); exact Hpost.
Qed.

Lemma every_post_is_signed_over_its_body_witness :
  exists tail,
    log (snd (__call__ trader "buy" ArgCaller (world_net 1000 flaky))) = tail
    /\ Forall (signed_post trader "buy") tail.
Proof.
  exact (every_post_is_signed_over_its_body trader "buy" ArgCaller
           (world_net 1000 flaky) eq_refl eq_refl).
Defined.

Lemma count_events_app (p : event -> bool) (a b : list event) :
  count_events p (a ++ b) = (count_events p a + count_events p b)%nat.
Proof. unfold count_events. now rewrite filter_app, length_app. Qed.

Lemma count_events_logs (p : event -> bool) (tail : list event) :
  (forall l x, p (EvLog l x) = false) ->
  forallb is_log tail = true -> count_events p tail = 0%nat.
Proof.
  intros Hp. induction tail as [|e tail IH]; [reflexivity|].
  cbn [forallb]. intros H. apply andb_prop in H as [He Ht].
  destruct e; try discriminate He.
  unfold count_events in *. cbn [filter]. rewrite Hp. now apply IH.
Qed.

(** X3 — one wait per request: however a call that passes the command
    check ends, the number of requests it sent equals the number of
    POST/GET events it logged, and it waited for the coach exactly once
    per request when there is a coach, and never when there is none. *)
Theorem one_wait_per_request
  (self : Instance) (command : string) (args : argref) (w : World)
  (Hd : dispatchable self command = true) :
  exists tail,
    log (snd (__call__ self command args w)) = (log w ++ tail)%list
    /\ requests (snd (__call__ self command args w))
       = (requests w + count_events is_network tail)%nat
    /\ count_events is_wait tail
       = (if coach self then count_events is_network tail else 0)%nat.
Proof.
  apply (retrying_preserves (__call__func self command args)
           (fun w' => exists tail,
                log w' = (log w ++ tail)%list
                /\ requests w' = (requests w + count_events is_network tail)%nat
                /\ count_events is_wait tail
                   = (if coach self then count_events is_network tail else 0)%nat)).
  - intros l x w0 (tail & E & R & C). exists (tail ++ [EvLog l x])%list.
    cbn [emit snd log requests]. rewrite E, <- app_assoc, !count_events_app.
    cbn. rewrite !Nat.add_0_r. auto.
  - intros d w0 (tail & E & R & C). exists (tail ++ [EvSleep d])%list.
    cbn [emit snd log requests]. rewrite E, <- app_assoc, !count_events_app.
    cbn. rewrite !Nat.add_0_r. auto.
  - intros w0 (tail & E & R & C).
    destruct (attempt_writes self command args w0 Hd) as (t & Ht & Hlogs).
    destruct (attempt_frame self command args w0 Hd) as (_ & _ & Hreq & _).
    eexists. rewrite Ht, E, <- app_assoc, Hreq, R. split; [reflexivity|].
    rewrite !count_events_app.
    rewrite (count_events_logs is_network t), (count_events_logs is_wait t)
      by (auto; intros; reflexivity).
    rewrite C. unfold attempt_events.
    destruct (coach self), (cmdType_of command); cbn; split; lia.
  - exists []. rewrite app_nil_r. cbn. rewrite Nat.add_0_r.
    destruct (coach self); auto.
Qed.

Lemma one_wait_per_request_witness :
  exists tail,
    log (snd (__call__ trader "buy" ArgCaller (world_net 1000 always_502))) = tail
    /\ requests (snd (__call__ trader "buy" ArgCaller (world_net 1000 always_502)))
       = count_events is_network tail
    /\ count_events is_wait tail = count_events is_network tail.
Proof.
  exact (one_wait_per_request trader "buy" ArgCaller
           (world_net 1000 always_502) eq_refl).
Defined.

(** ** Verdicts of [_handleReturned] *)

Lemma gateway_error_spec (data : response) :
  gateway_error data
  = match status_code data with Some c => gateway_status c | None => false end.
Proof. reflexivity. Qed.

Lemma nonce_of_error_raises (s : string) (e : exn) :
  nonce_of_error s = Raised e -> e = IndexError \/ e = ValueError.
Proof.
  unfold nonce_of_error.
  destruct (Text.last_item (Text.split (Text.split_dot_head s))) as [word|];
    [destruct (Text.int_of_str word)|]; intros H; inversion H; auto.
Qed.

(** X4 — the decorator retries nothing but the three known causes: when
    [_handleReturned] raises the retryable exception, either the status is
    a gateway error, or the body is an object whose ['error'] is a text
    that contains "Nonce must be greater" or, in any letter case, "please
    try again".  A body that is not JSON, any other error text, an error
    that is not a text: none of them is ever retried. *)
Theorem retry_only_for_known_causes
  (data : response) (w : World) (msg : string)
  (Hretry : fst (_handleReturned data w) = Raised (RequestException msg)) :
  gateway_error data = true
  \/ exists d s,
       decoded data = Some (PDict d)
       /\ dict_get d "error" = Some (PStr s)
       /\ msg = "PoloniexError " ++ s
       /\ (Text.contains "Nonce must be greater" s = true
           \/ Text.contains "please try again" (Text.lower s) = true).
Proof.
  revert Hretry. rewrite gateway_error_spec. unfold _handleReturned.
  destruct (match status_code data with
            | Some c => gateway_status c
            | None => false
            end) eqn:Hg; [intros _; now left|].
  destruct (decoded data) as [out|]; [|run_monad; discriminate].
  destruct out as [| b | z | t | l | d]; cbn [py_in];
    try (run_monad; discriminate).
  - destruct (Text.contains "error" t); run_monad; discriminate.
  - destruct (existsb (fun x => py_eq_str x "error") l); run_monad; discriminate.
  - unfold dict_has, py_getitem.
    destruct (dict_get d "error") as [err|] eqn:Herr; [|run_monad; discriminate].
    destruct err as [| b | z | s | l | d']; run_monad; try discriminate.
    destruct (Text.contains "Nonce must be greater" s) eqn:Hn.
    + destruct (nonce_of_error s) as [X|e] eqn:HX;
        intros H; inversion H; subst.
      * right. exists d, s. auto.
      * destruct (nonce_of_error_raises _ _ HX); discriminate.
    + destruct (Text.contains "please try again" (Text.lower s)) eqn:Hp;
        intros H; inversion H; subst.
      right. exists d, s. auto.
Qed.

Lemma retry_only_for_known_causes_witness :
  gateway_error
    {| status_code := Some 200; text := "";
       decoded := Some (PDict [("error", PStr "Internal error. PLEASE TRY AGAIN.")]) |}
  = true
  \/ exists d s,
       Some (PDict [("error", PStr "Internal error. PLEASE TRY AGAIN.")])
       = Some (PDict d)
       /\ dict_get d "error" = Some (PStr s)
       /\ "PoloniexError Internal error. PLEASE TRY AGAIN." = "PoloniexError " ++ s
       /\ (Text.contains "Nonce must be greater" s = true
           \/ Text.contains "please try again" (Text.lower s) = true).
Proof.
  exact (retry_only_for_known_causes
           {| status_code := Some 200; text := "";
              decoded := Some (PDict [("error",
                           PStr "Internal error. PLEASE TRY AGAIN.")]) |}
           (world0 0 (status_response 200))
           "PoloniexError Internal error. PLEASE TRY AGAIN." eq_refl).
Defined.

(** X5 — [_handleReturned] moves the nonce counter in one case only: a
    body whose error text contains "Nonce must be greater" and whose
    number it could read, and then to that number (a numeral written
    with underscores, as in 5_000, is read as well).  Whatever else
    comes back (success, any other error, a gateway status, a body that
    is not JSON), the counter is as it was.  Stated for responses whose
    error text, if there is one, is ASCII and at most 640 characters
    long. *)
Theorem counter_moves_only_on_a_nonce_error (data : response) (w : World)
  (Htext : forall d s, decoded data = Some (PDict d) ->
                       dict_get d "error" = Some (PStr s) ->
                       plainly_read s = true) :
  _nonce (snd (_handleReturned data w)) = _nonce w
  \/ exists d s X,
       gateway_error data = false
       /\ decoded data = Some (PDict d)
       /\ dict_get d "error" = Some (PStr s)
       /\ Text.contains "Nonce must be greater" s = true
       /\ nonce_of_error s = Returned X
       /\ _nonce (snd (_handleReturned data w)) = X.
Proof.
  rewrite gateway_error_spec. unfold _handleReturned.
  destruct (match status_code data with
            | Some c => gateway_status c
            | None => false
            end) eqn:Hg; [left; reflexivity|].
  destruct (decoded data) as [out|]; [|left; reflexivity].
  destruct out as [| b | z | t | l | d]; cbn [py_in]; try (left; reflexivity).
  - destruct (Text.contains "error" t); left; reflexivity.
  - destruct (existsb (fun x => py_eq_str x "error") l); left; reflexivity.
  - unfold dict_has, py_getitem.
    destruct (dict_get d "error") as [err|] eqn:Herr; [|left; reflexivity].
    destruct err as [| b | z | s | l | d']; try (left; reflexivity).
    run_monad.
    destruct (Text.contains "Nonce must be greater" s) eqn:Hn.
    + destruct (nonce_of_error s) as [X|e] eqn:HX.
      * right. exists d, s, X. auto 10.
      * left. reflexivity.
    + left.
      destruct (Text.contains "please try again" (Text.lower s)); reflexivity.
Qed.

Lemma counter_moves_only_on_a_nonce_error_witness :
  _nonce (snd (_handleReturned
                 {| status_code := Some 200; text := "";
                    decoded := Some (PDict [("error",
                      PStr "Nonce must be greater than 5_000. You provided 42.")]) |}
                 (world0 1000 (status_response 200))))
  = 5000.
Proof.
  assert (Htext : forall d s,
             Some (PDict [("error",
               PStr "Nonce must be greater than 5_000. You provided 42.")])
             = Some (PDict d) ->
             dict_get d "error" = Some (PStr s) -> plainly_read s = true).
  { intros d s Hdec Herr. inversion Hdec; subst.
    cbn in Herr. inversion Herr; subst. reflexivity. }
  destruct (counter_moves_only_on_a_nonce_error
              {| status_code := Some 200; text := "";
                 decoded := Some (PDict [("error",
                   PStr "Nonce must be greater than 5_000. You provided 42.")]) |}
              (world0 1000 (status_response 200)) Htext)
    as [H | (d & s & X & _ & Hdec & Herr & _ & HX & Hn)].
  - vm_compute in H. discriminate H.
  - cbn [decoded] in Hdec. injection Hdec as <-.
    cbn in Herr. injection Herr as <-.
    vm_compute in HX. injection HX as <-. exact Hn.
Defined.

(** A call whose first attempt does not fail retryably ends with that
    attempt. *)
Lemma call_ends_with_first_attempt
      (self : Instance) (command : string) (args : argref) (w : World) :
  dispatchable self command = true ->
  (forall q, reply_result (network w (requests w)) <> Raised (RequestException q)) ->
  __call__ self command args w = __call__func self command args w.
Proof.
  intros Hd Hstop. unfold __call__, _retry. cbn [map app retryDelays].
  apply (retrying_stops (__call__func self command args)
           (fun w0 => proj1 (attempt_frame self command args w0 Hd))).
  exact Hstop.
Qed.

Lemma handleReturned_unreadable
      (data : response) (d : dict) (s : string) (e : exn) (w : World) :
  gateway_error data = false ->
  decoded data = Some (PDict d) ->
  dict_get d "error" = Some (PStr s) ->
  Text.contains "Nonce must be greater" s = true ->
  nonce_of_error s = Raised e ->
  _handleReturned data w = (Raised e, snd (emit (EvLog Error (PStr s)) w)).
Proof.
  intros Hg Hdec Herr Hmatch HX.
  unfold _handleReturned. unfold gateway_error in Hg. rewrite Hg, Hdec.
  cbn [py_in]. unfold dict_has. rewrite Herr.
  unfold py_getitem. rewrite Herr. run_monad. rewrite Hmatch, HX. reflexivity.
Qed.

(** X6 — a nonce error whose number cannot be read is not handled: when
    the error text, an ASCII text, contains "Nonce must be greater" but
    the last word before its first full stop is no numeral (or there is
    no word), [__call__] ends with the [ValueError] (or [IndexError]) of
    the extraction after one request, without retrying and without
    moving the counter beyond the nonce the attempt itself consumed. *)
Theorem unreadable_nonce_error_escapes
  (self : Instance) (command : string) (args : argref) (w : World)
  (r : response) (d : dict) (s : string) (e : exn)
  (Hd : dispatchable self command = true)
  (Hnet : network w (requests w) = NetResponse r)
  (Hgate : gateway_error r = false)
  (Hdec : decoded r = Some (PDict d))
  (Herr : dict_get d "error" = Some (PStr s))
  (Hascii : ascii_text s = true)
  (Hmatch : Text.contains "Nonce must be greater" s = true)
  (Hword : nonce_of_error s = Raised e) :
  fst (__call__ self command args w) = Raised e
  /\ (e = IndexError \/ e = ValueError)
  /\ requests (snd (__call__ self command args w)) = S (requests w)
  /\ sleeps (log (snd (__call__ self command args w))) = sleeps (log w)
  /\ _nonce (snd (__call__ self command args w))
     = match cmdType_of command with
       | Private => _nonce w + stride
       | Public => _nonce w
       end.
Proof.
  pose proof (nonce_of_error_raises s e Hword) as He.
  assert (Hres : reply_result (network w (requests w)) = Raised e).
  { rewrite Hnet. cbn [reply_result].
    now rewrite (handleReturned_unreadable r d s e _ Hgate Hdec Herr Hmatch Hword). }
  rewrite (call_ends_with_first_attempt self command args w Hd).
  - destruct (attempt_frame self command args w Hd) as (A1 & _ & A3 & A4).
    rewrite A1, A3, A4, Hres. repeat apply conj; auto.
    rewrite (attempt_eq self command args w Hd), Hnet.
    rewrite (handleReturned_unreadable r d s e _ Hgate Hdec Herr Hmatch Hword).
    reflexivity.
  - intros q. rewrite Hres. destruct He; subst e; discriminate.
Qed.

Lemma unreadable_nonce_error_escapes_witness :
  fst (__call__ trader "buy" ArgCaller
         (world0 1000 (error_response "Nonce must be greater than 5,000. Sorry.")))
  = Raised ValueError
  /\ requests (snd (__call__ trader "buy" ArgCaller
                      (world0 1000
                         (error_response "Nonce must be greater than 5,000. Sorry."))))
     = 1%nat.
Proof.
  pose proof (unreadable_nonce_error_escapes trader "buy" ArgCaller
                (world0 1000 (error_response "Nonce must be greater than 5,000. Sorry."))
                {| status_code := Some 200; text := "";
                   decoded := Some (PDict [("error",
                     PStr "Nonce must be greater than 5,000. Sorry.")]) |}
                [("error", PStr "Nonce must be greater than 5,000. Sorry.")]
                "Nonce must be greater than 5,000. Sorry." ValueError
                eq_refl eq_refl eq_refl eq_refl eq_refl eq_refl eq_refl eq_refl)
    as (H1 & _ & H3 & _).
  split; [exact H1 | exact H3].
Defined.

(** X7 — only the gateway statuses count as transport failures: a
    response with any other status code (404, 500, ...) or with none,
    whose body is a JSON object without an ['error'] key, is a success.
    [__call__] returns the body after one request and no sleep, and
    [_handleReturned] leaves the world as it found it. *)
Theorem other_statuses_with_a_json_body_succeed
  (self : Instance) (command : string) (args : argref) (w : World)
  (r : response) (d : dict)
  (Hd : dispatchable self command = true)
  (Hnet : network w (requests w) = NetResponse r)
  (Hgate : gateway_error r = false)
  (Hdec : decoded r = Some (PDict d))
  (Herr : dict_get d "error" = None) :
  (forall w0, _handleReturned r w0 = (Returned (PDict d), w0))
  /\ fst (__call__ self command args w) = Returned (PDict d)
  /\ requests (snd (__call__ self command args w)) = S (requests w)
  /\ sleeps (log (snd (__call__ self command args w))) = sleeps (log w).
Proof.
  assert (Hh : forall w0, _handleReturned r w0 = (Returned (PDict d), w0)).
  { intros w0. unfold _handleReturned. unfold gateway_error in Hgate.
    rewrite Hgate, Hdec. cbn [py_in]. unfold dict_has. now rewrite Herr. }
  assert (Hres : reply_result (network w (requests w)) = Returned (PDict d)).
  { rewrite Hnet. cbn [reply_result]. now rewrite Hh. }
  split; [exact Hh|].
  rewrite (call_ends_with_first_attempt self command args w Hd).
  - destruct (attempt_frame self command args w Hd) as (A1 & _ & A3 & A4).
    rewrite A1, A3, A4, Hres. auto.
  - intros q. rewrite Hres. discriminate.
Qed.

Lemma other_statuses_with_a_json_body_succeed_witness :
  fst (__call__ anonymous "returnTicker" ArgCaller
         (world0 7 (NetResponse {| status_code := Some 500; text := "{}";
                                   decoded := Some (PDict []) |})))
  = Returned (PDict []).
Proof.
  exact (proj1 (proj2
    (other_statuses_with_a_json_body_succeed anonymous "returnTicker" ArgCaller
       (world0 7 (NetResponse {| status_code := Some 500; text := "{}";
                                 decoded := Some (PDict []) |}))
       {| status_code := Some 500; text := "{}"; decoded := Some (PDict []) |}
       [] eq_refl eq_refl eq_refl eq_refl eq_refl))).
Defined.

(** ** Nonces across the attempts of one call *)

Lemma handleReturned_gateway_eq (data : response) (w : World) :
  gateway_error data = true ->
  exists msg,
    _handleReturned data w
    = (Raised (RequestException msg), snd (emit (EvLog Error (PStr (text data))) w)).
Proof.
  intros Hg. unfold _handleReturned. unfold gateway_error in Hg. rewrite Hg.
  eexists. reflexivity.
Qed.

Lemma posted_nonces_log (tr : list event) (l : level) (x : pyval) :
  posted_nonces (tr ++ [EvLog l x]) = posted_nonces tr.
Proof. rewrite posted_nonces_app. cbn. apply app_nil_r. Qed.

Lemma posted_nonces_sleep (tr : list event) (d : Z) :
  posted_nonces (tr ++ [EvSleep d]) = posted_nonces tr.
Proof. rewrite posted_nonces_app. cbn. apply app_nil_r. Qed.

(** A private attempt answered with a gateway status: it raises the
    retryable exception, having consumed one nonce and posted it. *)
Lemma private_gateway_attempt
      (self : Instance) (command : string) (args : argref) (w : World) (r : response) :
  dispatchable self command = true ->
  cmdType_of command = Private ->
  network w (requests w) = NetResponse r ->
  gateway_error r = true ->
  exists msg w1,
    __call__func self command args w = (Raised (RequestException msg), w1)
    /\ _nonce w1 = _nonce w + stride
    /\ posted_nonces (log w1)
       = (posted_nonces (log w) ++ [Some (PInt (_nonce w + stride))])%list
    /\ network w1 = network w
    /\ requests w1 = S (requests w).
Proof.
  intros Hd Ht Hnet Hg. rewrite (attempt_eq self command args w Hd), Hnet, Ht.
  destruct (handleReturned_gateway_eq r (sent_world self command args Private w) Hg)
    as [msg ->].
  exists msg. eexists. split; [reflexivity|].
  cbn [emit snd sent_world _nonce log network requests].
  repeat apply conj; try reflexivity.
  now rewrite posted_nonces_log, posted_nonces_app, posted_nonces_private.
Qed.

Lemma gateway_run (self : Instance) (command : string) (args : argref) :
  dispatchable self command = true ->
  cmdType_of command = Private ->
  forall (ds : list Z) (problems : list string) (w : World),
    (forall i, (i <= length ds)%nat ->
               exists r, network w (requests w + i)%nat = NetResponse r
                         /\ gateway_error r = true) ->
    _nonce (snd (retrying (__call__func self command args)
                   (map Some ds ++ [None]) problems w))
    = _nonce w + stride * Z.of_nat (S (length ds))
    /\ posted_nonces
         (log (snd (retrying (__call__func self command args)
                      (map Some ds ++ [None]) problems w)))
       = (posted_nonces (log w) ++
          map (fun i => Some (PInt (_nonce w + stride * Z.of_nat (S i))))
              (seq 0 (S (length ds))))%list.
Proof.
  intros Hd Ht ds. induction ds as [|d ds IH]; intros problems w H.
  - destruct (H 0%nat (le_n _)) as (r & Hnet & Hg). rewrite Nat.add_0_r in Hnet.
    destruct (private_gateway_attempt self command args w r Hd Ht Hnet Hg)
      as (msg & w1 & E & Hn & Hp & _).
    cbn [map app retrying length seq]. unfold try_except. rewrite E.
    unfold bind, raise. cbn [emit fst snd _nonce log].
    rewrite posted_nonces_log, Hn, Hp. split; [lia|].
    repeat f_equal; try lia.
  - destruct (H 0%nat ltac:(cbn; lia)) as (r & Hnet & Hg).
    rewrite Nat.add_0_r in Hnet.
    destruct (private_gateway_attempt self command args w r Hd Ht Hnet Hg)
      as (msg & w1 & E & Hn & Hp & Hnw & Hrq).
    cbn [map app retrying length]. unfold try_except. rewrite E.
    unfold bind. cbn [emit fst snd].
    match goal with
    | |- context [retrying _ _ ?ps ?w2] =>
        remember w2 as W2 eqn:EW;
        assert (N2 : _nonce W2 = _nonce w1) by (subst W2; reflexivity);
        assert (L2 : posted_nonces (log W2) = posted_nonces (log w1))
          by (subst W2; cbn [log];
              now rewrite posted_nonces_sleep, !posted_nonces_log);
        assert (Nw : network W2 = network w1) by (subst W2; reflexivity);
        assert (Rq : requests W2 = requests w1) by (subst W2; reflexivity);
        clear EW;
        destruct (IH ps W2) as [I1 I2]
    end.
    { intros i Hi. rewrite Nw, Rq, Hnw, Hrq.
      destruct (H (S i) ltac:(cbn; lia)) as (r' & Hr' & Hg').
      exists r'. split; [|exact Hg']. rewrite <- Hr'. f_equal. lia. }
    rewrite I1, I2, N2, L2, Hn, Hp.
    split; [lia|].
    rewrite <- app_assoc. f_equal.
    change (seq 0 (S (S (length ds)))) with (0%nat :: seq 1 (S (length ds))).
    rewrite <- seq_shift, map_cons, map_map. cbn [app].
    f_equal; try (do 2 f_equal; lia).
    all: apply map_ext; intros i; do 2 f_equal; lia.
Qed.

(** X8 — every retry of a private call takes a fresh nonce: when the
    first five requests are all answered with gateway statuses, the five
    POSTs carry the nonces counter + 42, + 84, + 126, + 168 and + 210, in
    that order, and the counter ends at the last of them, so the failed
    call has used up five nonces. *)
Theorem retries_take_fresh_nonces
  (self : Instance) (command : string) (args : argref) (w : World)
  (Hpriv : command_in command PRIVATE_COMMANDS = true)
  (Hcred : truthy (key self) && truthy (secret self) = true)
  (Hgate : forall i, (i < 5)%nat ->
                     exists r, network w (requests w + i)%nat = NetResponse r
                               /\ gateway_error r = true) :
  posted_nonces (log (snd (__call__ self command args w)))
  = (posted_nonces (log w) ++
     map (fun k => Some (PInt (_nonce w + stride * k))) [1; 2; 3; 4; 5])%list
  /\ _nonce (snd (__call__ self command args w)) = _nonce w + stride * 5.
Proof.
  assert (Hd : dispatchable self command = true)
    by (unfold dispatchable; now rewrite Hpriv).
  assert (Ht : cmdType_of command = Private)
    by (unfold cmdType_of; now rewrite Hpriv).
  destruct (gateway_run self command args Hd Ht retryDelays [] w) as [H1 H2].
  { intros i Hi. apply Hgate. cbn in Hi. lia. }
  split; [exact H2 | exact H1].
Qed.

Lemma retries_take_fresh_nonces_witness :
  posted_nonces (log (snd (__call__ trader "buy" ArgCaller (world_net 1000 always_502))))
  = [Some (PInt 1042); Some (PInt 1084); Some (PInt 1126);
     Some (PInt 1168); Some (PInt 1210)].
Proof.
  refine (proj1 (retries_take_fresh_nonces trader "buy" ArgCaller
                   (world_net 1000 always_502) eq_refl eq_refl _)).
  intros i _. eexists. split; reflexivity.
Defined.

(** ** Calls without [args] *)

Lemma attempt_args_default (self : Instance) (command : string) (w : World) :
  dispatchable self command = true ->
  default_args (snd (__call__func self command ArgDefault w))
  = prepared_args command (cmdType_of command) (_nonce w + stride) (default_args w)
  /\ caller_args (snd (__call__func self command ArgDefault w)) = caller_args w.
Proof.
  intros Hd. rewrite (attempt_eq self command ArgDefault w Hd).
  destruct (network w (requests w)) as [e|r]; cbn [snd].
  - split; reflexivity.
  - set (w1 := sent_world self command ArgDefault (cmdType_of command) w).
    destruct (handleReturned_frame r w1) as (t & _ & _ & _ & _ & Hda & Hca).
    rewrite Hda, Hca. split; reflexivity.
Qed.

(** X9 — entries written by a call without [args] stay in the shared
    default dictionary: after a private call made without [args], the
    dictionary holds that call's command and an integer nonce; a later
    public call made without [args] starts from that dictionary, so the
    query of its first GET carries the stale nonce next to its own
    command. *)
Theorem omitted_args_keep_the_entries_of_earlier_calls
  (self : Instance) (cmdA cmdB : string) (w : World)
  (HdA : dispatchable self cmdA = true)
  (HA : cmdType_of cmdA = Private)
  (HdB : dispatchable self cmdB = true)
  (HB : cmdType_of cmdB = Public) :
  let w1 := snd (__call__ self cmdA ArgDefault w) in
  exists n,
    dict_get (default_args w1) "command" = Some (PStr cmdA)
    /\ dict_get (default_args w1) "nonce" = Some (PInt n)
    /\ exists query later,
        log (snd (__call__ self cmdB ArgDefault w1))
        = (log w1 ++ (if coach self then [EvWait] else []) ++
           EvGet {| p_timeout := timeout self; p_url := PublicQuery query;
                    p_data := None; p_headers := None;
                    p_proxies := proxies_if_any self |} :: later)%list
        /\ dict_get query "command" = Some (PStr cmdB)
        /\ dict_get query "nonce" = Some (PInt n).
Proof.
  intros w1.
  assert (H1 : exists n,
             dict_get (default_args w1) "command" = Some (PStr cmdA)
             /\ dict_get (default_args w1) "nonce" = Some (PInt n)).
  { subst w1. unfold __call__, _retry. cbn [map app retryDelays].
    assert (Hatt : forall w0,
               exists n,
                 dict_get (default_args (snd (__call__func self cmdA ArgDefault w0)))
                          "command" = Some (PStr cmdA)
                 /\ dict_get (default_args (snd (__call__func self cmdA ArgDefault w0)))
                             "nonce" = Some (PInt n)).
    { intros w0. destruct (attempt_args_default self cmdA w0 HdA) as [-> _].
      destruct (prepared_args_left cmdA (cmdType_of cmdA) (_nonce w0 + stride)
                  (default_args w0)) as (L1 & _ & L3 & _).
      eexists. split; [exact L1 | exact (L3 HA)]. }
    apply (retrying_establishes (__call__func self cmdA ArgDefault)
             (fun w' => exists n,
                  dict_get (default_args w') "command" = Some (PStr cmdA)
                  /\ dict_get (default_args w') "nonce" = Some (PInt n))).
    - intros e w0 H. exact H.
    - intros w0 _. apply Hatt.
    - apply Hatt. }
  destruct H1 as (n & Hc & Hn). exists n. repeat apply conj; auto.
  unfold __call__, _retry. cbn [map app retryDelays].
  destruct (retrying_after_first (__call__func self cmdB ArgDefault)
              (attempt_extends self cmdB ArgDefault HdB)
              (Some 0) [Some 2; Some 5; Some 30; None] [] w1) as [t2 H2].
  destruct (attempt_log self cmdB ArgDefault w1 HdB) as [t1 Ht1].
  rewrite H2, Ht1, HB. unfold attempt_events, prepared_args. cbn [args_of].
  rewrite <- !app_assoc. cbn [app].
  eexists. eexists. split; [reflexivity|]. split.
  - apply dict_get_set_same.
  - rewrite dict_get_set_other by discriminate. exact Hn.
Qed.

Lemma omitted_args_keep_the_entries_of_earlier_calls_witness :
  exists n,
    dict_get (default_args
                (snd (__call__ trader "returnBalances" ArgDefault
                        (world0 1000 (ok_response (PDict [])))))) "nonce"
    = Some (PInt n).
Proof.
  destruct (omitted_args_keep_the_entries_of_earlier_calls
              trader "returnBalances" "returnTicker"
              (world0 1000 (ok_response (PDict [])))
              eq_refl eq_refl eq_refl eq_refl) as (n & _ & H & _).
  exists n. exact H.
Defined.

(** ** The decorator, for any attempt *)

Section Decorated.

Variable func : M pyval.
Hypothesis func_result :
  forall w, fst (func w) = reply_result (network w (requests w)).
Hypothesis func_network : forall w, network (snd (func w)) = network w.
Hypothesis func_requests : forall w, requests (snd (func w)) = S (requests w).
Hypothesis func_sleeps : forall w, sleeps (log (snd (func w))) = sleeps (log w).

Lemma decorated_gives_up (w : World) (p : nat -> string) :
  (forall i, (i < 5)%nat ->
             reply_result (network w (requests w + i)%nat)
             = Raised (RequestException (p i))) ->
  fst (_retry func w) = Raised (RetryException ("retryDelays exhausted " ++ p 4%nat))
  /\ requests (snd (_retry func w)) = (requests w + 5)%nat
  /\ sleeps (log (snd (_retry func w))) = (sleeps (log w) ++ [0; 2; 5; 30])%list.
Proof.
  intros H. unfold _retry.
  destruct (retrying_prefix func func_result func_network func_requests func_sleeps
              retryDelays [None] [] w p) as (w' & E & Hn & Hq & Hs).
  { intros i Hi. apply H. cbn in Hi. lia. }
  rewrite E.
  destruct (retrying_gives_up func func_result func_requests func_sleeps
              ([] ++ map p (seq 0 (length retryDelays))) w' (p 4%nat))
    as (R1 & R2 & R3).
  { rewrite Hn, Hq. apply H. lia. }
  rewrite R1, R2, R3, Hq, Hs. cbn [length retryDelays].
  repeat apply conj; try reflexivity. lia.
Qed.

Lemma decorated_stops (w : World) :
  (forall q, reply_result (network w (requests w)) <> Raised (RequestException q)) ->
  _retry func w = func w.
Proof.
  intros H. unfold _retry. cbn [map app retryDelays].
  now apply (retrying_stops func func_result).
Qed.

End Decorated.

(** ** [marketTradeHist] *)

Lemma marketTradeHist_eq (container_str : pyval -> string) (self : Instance)
      (currencyPair start end_ : pyval) (w : World) :
  let w1 :=
    {| _nonce := _nonce w; default_args := default_args w;
       caller_args := caller_args w;
       log := log w ++ (if coach self then [EvWait] else []) ++
              [market_request self
                 (marketTradeHist_args container_str currencyPair start end_)];
       network := network w; requests := S (requests w) |} in
  marketTradeHist_func container_str self currencyPair start end_ w
  = match network w (requests w) with
    | NetRaises e => (Raised e, w1)
    | NetResponse r => _handleReturned r w1
    end.
Proof.
  destruct w as [n0 da ca lg net rq]. unfold marketTradeHist_func, market_request.
  destruct (coach self); run_monad; destruct (net rq) as [e|r];
    cbn [app]; rewrite <- ?app_assoc; reflexivity.
Qed.

Lemma marketTradeHist_frame (container_str : pyval -> string) (self : Instance)
      (currencyPair start end_ : pyval) (w : World) :
  let run := marketTradeHist_func container_str self currencyPair start end_ w in
  fst run = reply_result (network w (requests w))
  /\ network (snd run) = network w
  /\ requests (snd run) = S (requests w)
  /\ sleeps (log (snd run)) = sleeps (log w)
  /\ exists tail,
      log (snd run)
      = (log w ++ (if coach self then [EvWait] else []) ++
         [market_request self
            (marketTradeHist_args container_str currencyPair start end_)] ++ tail)%list
      /\ forallb is_log tail = true.
Proof.
  intros run. subst run. rewrite marketTradeHist_eq. cbv zeta.
  assert (Hs : forall tr, sleeps (tr ++ (if coach self then [EvWait] else []) ++
                            [market_request self
                               (marketTradeHist_args container_str currencyPair
                                  start end_)]) = sleeps tr).
  { intros tr. rewrite sleeps_app. destruct (coach self); cbn; apply app_nil_r. }
  destruct (network w (requests w)) as [e|r]; cbn [reply_result fst snd].
  - cbn [network requests log]. repeat apply conj; auto.
    exists []. now rewrite app_nil_r.
  - match goal with
    | |- context [_handleReturned r ?w1] =>
        destruct (handleReturned_frame r w1) as (tail & Hlog & Htail & Hnet & Hreq & _);
        rewrite (handleReturned_result r w1 (world0 0 (NetResponse r)));
        rewrite Hlog, Hnet, Hreq
    end.
    cbn [network requests log]. repeat apply conj; auto.
    + now rewrite sleeps_app, Hs, (sleeps_of_logs tail Htail), app_nil_r.
    + exists tail. rewrite <- !app_assoc. auto.
Qed.

Lemma marketTradeHist_args_spec (container_str : pyval -> string)
      (currencyPair start end_ : pyval) :
  let q := marketTradeHist_args container_str currencyPair start end_ in
  dict_get q "command" = Some (PStr "returnTradeHistory")
  /\ dict_get q "currencyPair" = Some (PStr (upper (py_str container_str currencyPair)))
  /\ dict_get q "start" = (if py_truthy start then Some start else None)
  /\ dict_get q "end" = (if py_truthy end_ then Some end_ else None).
Proof.
  unfold marketTradeHist_args.
  destruct (py_truthy start), (py_truthy end_); repeat split.
Qed.

(** X10 — [marketTradeHist] asks for the trade history without any
    credential check: for every instance, an attempt waits for the coach
    (when there is one) and sends one GET whose query holds the command
    ['returnTradeHistory'], the pair in upper case, and [start] and [end]
    only when they are truthy (a [start] of 0 is dropped); the GET carries
    the timeout but never the proxies, and no nonce is read.  The
    dispatcher itself refuses ['returnTradeHistory'] without
    credentials. *)
Theorem marketTradeHist_asks_without_credentials
  (container_str : pyval -> string) (self : Instance)
  (currencyPair start end_ : pyval) (w : World) :
  let q := marketTradeHist_args container_str currencyPair start end_ in
  let run := marketTradeHist_func container_str self currencyPair start end_ w in
  (exists tail,
      log (snd run)
      = (log w ++ (if coach self then [EvWait] else []) ++
         [market_request self q] ++ tail)%list
      /\ forallb is_log tail = true)
  /\ dict_get q "command" = Some (PStr "returnTradeHistory")
  /\ dict_get q "currencyPair" = Some (PStr (upper (py_str container_str currencyPair)))
  /\ dict_get q "start" = (if py_truthy start then Some start else None)
  /\ dict_get q "end" = (if py_truthy end_ then Some end_ else None)
  /\ (truthy (key self) && truthy (secret self) = false ->
      __call__ self "returnTradeHistory" ArgCaller w
      = (Raised (PoloniexError
                   "An Api Key and Secret needed for command 'returnTradeHistory'"),
         w)).
Proof.
  intros q run.
  destruct (marketTradeHist_frame container_str self currencyPair start end_ w)
    as (_ & _ & _ & _ & Hlog).
  destruct (marketTradeHist_args_spec container_str currencyPair start end_)
    as (Q1 & Q2 & Q3 & Q4).
  repeat apply conj; auto.
  intros Hcred. unfold __call__, _retry. cbn [map app retryDelays retrying].
  unfold try_except, __call__func. unfold bind at 1. unfold _checkCmd.
  change (command_in "returnTradeHistory" PRIVATE_COMMANDS) with true. cbv iota.
  apply andb_false_iff in Hcred.
  assert (Hb : negb (truthy (key self)) || negb (truthy (secret self)) = true)
    by (destruct Hcred as [-> | ->]; [reflexivity | apply orb_true_r]).
  rewrite Hb. reflexivity.
Qed.

Lemma marketTradeHist_asks_without_credentials_witness :
  log (snd (marketTradeHist_func (fun _ => "") anonymous
              (PStr "btc_eth") (PInt 0) (PInt 1500000000)
              (world0 7 (ok_response (PList [])))))
  = [EvWait;
     market_request anonymous
       [("command", PStr "returnTradeHistory"); ("currencyPair", PStr "BTC_ETH");
        ("end", PInt 1500000000)]]
  /\ __call__ anonymous "returnTradeHistory" ArgCaller (world0 7 (ok_response (PList [])))
     = (Raised (PoloniexError
                  "An Api Key and Secret needed for command 'returnTradeHistory'"),
        world0 7 (ok_response (PList []))).
Proof.
  split; [vm_compute; reflexivity|].
  apply (proj2 (proj2 (proj2 (proj2 (proj2
    (marketTradeHist_asks_without_credentials (fun _ => "") anonymous
       (PStr "btc_eth") (PInt 0) (PInt 1500000000)
       (world0 7 (ok_response (PList []))))))))).
  reflexivity.
Defined.

(** X11 — [marketTradeHist] is retried on the schedule of [__call__]:
    five retryable failures in a row end in [RetryException] naming the
    last one, after five requests and sleeps of 0, 2, 5 and 30 seconds;
    a first answer that is not a retryable failure ends the call with
    that answer's verdict, after one request and no sleep. *)
Theorem marketTradeHist_retry_schedule
  (container_str : pyval -> string) (self : Instance)
  (currencyPair start end_ : pyval) (w : World) (p : nat -> string) :
  let run := marketTradeHist container_str self currencyPair start end_ w in
  ((forall i, (i < 5)%nat ->
              reply_result (network w (requests w + i)%nat)
              = Raised (RequestException (p i))) ->
   fst run = Raised (RetryException ("retryDelays exhausted " ++ p 4%nat))
   /\ requests (snd run) = (requests w + 5)%nat
   /\ sleeps (log (snd run)) = (sleeps (log w) ++ [0; 2; 5; 30])%list)
  /\
  ((forall q, reply_result (network w (requests w)) <> Raised (RequestException q)) ->
   fst run = reply_result (network w (requests w))
   /\ requests (snd run) = S (requests w)
   /\ sleeps (log (snd run)) = sleeps (log w)).
Proof.
  intros run. subst run. unfold marketTradeHist.
  set (func := marketTradeHist_func container_str self currencyPair start end_).
  assert (F : forall w0,
             fst (func w0) = reply_result (network w0 (requests w0))
             /\ network (snd (func w0)) = network w0
             /\ requests (snd (func w0)) = S (requests w0)
             /\ sleeps (log (snd (func w0))) = sleeps (log w0)).
  { intros w0.
    destruct (marketTradeHist_frame container_str self currencyPair start end_ w0)
      as (F1 & F2 & F3 & F4 & _). auto. }
  split.
  - apply (decorated_gives_up func
             (fun w0 => proj1 (F w0))
             (fun w0 => proj1 (proj2 (F w0)))
             (fun w0 => proj1 (proj2 (proj2 (F w0))))
             (fun w0 => proj2 (proj2 (proj2 (F w0))))).
  - intros Hstop.
    rewrite (decorated_stops func (fun w0 => proj1 (F w0)) w Hstop).
    destruct (F w) as (F1 & _ & F3 & F4). auto.
Qed.

Lemma marketTradeHist_retry_schedule_witness :
  fst (marketTradeHist (fun _ => "") anonymous (PStr "btc_eth")
         (PBool false) (PBool false) (world_net 7 always_502))
  = Raised (RetryException "retryDelays exhausted Poloniex Network Error 502")
  /\ fst (marketTradeHist (fun _ => "") anonymous (PStr "btc_eth")
            (PBool false) (PBool false) (world0 7 (ok_response (PList []))))
     = Returned (PList []).
Proof.
  split.
  - apply (proj1 (marketTradeHist_retry_schedule (fun _ => "") anonymous
                    (PStr "btc_eth") (PBool false) (PBool false)
                    (world_net 7 always_502)
                    (fun _ => "Poloniex Network Error 502"))).
    intros i _. vm_compute. reflexivity.
  - apply (proj2 (marketTradeHist_retry_schedule (fun _ => "") anonymous
                    (PStr "btc_eth") (PBool false) (PBool false)
                    (world0 7 (ok_response (PList [])))
                    (fun _ => ""))).
    intros q. vm_compute. discriminate.
Defined.

(** ** The endpoints of [Poloniex] *)

(** A call with a dictionary of its own starts with the events of its
    first attempt, made from that dictionary. *)
Lemma call_with_starts (self : Instance) (command : string) (d : dict) (w : World) :
  dispatchable self command = true ->
  exists later,
    log (snd (call_with self command d w))
    = (log w ++
       attempt_events self (cmdType_of command) (_nonce w + stride)
         (prepared_args command (cmdType_of command) (_nonce w + stride) d)
       ++ later)%list.
Proof.
  intros Hd. unfold call_with, __call__, _retry. cbn [map app retryDelays].
  set (w' := {| _nonce := _nonce w; default_args := default_args w;
                caller_args := d; log := log w;
                network := network w; requests := requests w |}).
  destruct (retrying_after_first (__call__func self command ArgCaller)
              (attempt_extends self command ArgCaller Hd)
              (Some 0) [Some 2; Some 5; Some 30; None] [] w') as [t2 H2].
  destruct (attempt_log self command ArgCaller w' Hd) as [t1 H1].
  rewrite H2, H1. subst w'. cbn [_nonce log args_of caller_args].
  rewrite <- !app_assoc. eexists. reflexivity.
Qed.

Lemma member_text_some (v : pyval) (texts : list string) (t : string) :
  member_text v texts = Some t -> v = PStr t /\ In t texts.
Proof.
  destruct v; cbn [member_text]; try discriminate.
  destruct (command_in s texts) eqn:E; [|discriminate].
  intros H. inversion H; subst. split; [reflexivity|].
  unfold command_in in E. apply existsb_exists in E as (x & Hin & Hx).
  apply String.eqb_eq in Hx. now subst.
Qed.

(** X12 — [buy] and [sell] check [orderType] before anything is sent, and
    post a body of their own.  A truthy [orderType] other than
    "fillOrKill", "immediateOrCancel" and "postOnly" raises
    [PoloniexError] with the world untouched (no request, no nonce
    used).  Otherwise, with credentials, the first POST carries exactly
    the pair in upper case, the rate, the amount, the order type as a key
    with value 1 (when given), the command and the fresh nonce, in that
    order: nothing of what earlier calls left behind. *)
Theorem orders_check_their_type_and_post_their_own_body
  (container_str : pyval -> string) (self : Instance)
  (currencyPair rate amount orderType : pyval) (w : World) :
  let n := _nonce w + stride in
  let body (command : string) (flag : dict) : dict :=
    ([ ("currencyPair", PStr (upper (py_str container_str currencyPair)));
       ("rate", PStr (py_str container_str rate));
       ("amount", PStr (py_str container_str amount)) ] ++ flag ++
     [ ("command", PStr command); ("nonce", PInt n) ])%list in
  let posted (command : string) (flag : dict) (run : result pyval * World) : Prop :=
    exists later,
      log (snd run)
      = (log w ++
         attempt_events self Private n (body command flag) ++ later)%list in
  (py_truthy orderType = true ->
   member_text orderType ["fillOrKill"; "immediateOrCancel"; "postOnly"] = None ->
   buy container_str self currencyPair rate amount orderType w
   = (Raised (PoloniexError "Invalid orderType"), w)
   /\ sell container_str self currencyPair rate amount orderType w
      = (Raised (PoloniexError "Invalid orderType"), w))
  /\
  (truthy (key self) && truthy (secret self) = true ->
   (py_truthy orderType = false ->
    posted "buy" [] (buy container_str self currencyPair rate amount orderType w)
    /\ posted "sell" [] (sell container_str self currencyPair rate amount orderType w))
   /\
   (forall t,
      py_truthy orderType = true ->
      member_text orderType ["fillOrKill"; "immediateOrCancel"; "postOnly"] = Some t ->
      posted "buy" [(t, PInt 1)]
        (buy container_str self currencyPair rate amount orderType w)
      /\ posted "sell" [(t, PInt 1)]
           (sell container_str self currencyPair rate amount orderType w))).
Proof.
  intros n body posted. split.
  - intros Ht Hm. unfold buy, sell. rewrite Ht, Hm. split; reflexivity.
  - intros Hcred.
    assert (Hb : dispatchable self "buy" = true)
      by (unfold dispatchable; exact Hcred).
    assert (Hs : dispatchable self "sell" = true)
      by (unfold dispatchable; exact Hcred).
    split.
    + intros Ht. unfold buy, sell, posted. rewrite Ht. split.
      * exact (call_with_starts self "buy" _ w Hb).
      * exact (call_with_starts self "sell" _ w Hs).
    + intros t Ht Hm. unfold buy, sell, posted. rewrite Ht, Hm.
      apply member_text_some in Hm as [_ Hin].
      destruct Hin as [<- | [<- | [<- | []]]]; split;
        first [ exact (call_with_starts self "buy" _ w Hb)
              | exact (call_with_starts self "sell" _ w Hs) ].
Qed.

Lemma orders_check_their_type_and_post_their_own_body_witness :
  buy (fun _ => "") trader (PStr "btc_eth") (PStr "0.031") (PInt 2) (PStr "market")
      (world0 1000 (ok_response (PDict [])))
  = (Raised (PoloniexError "Invalid orderType"), world0 1000 (ok_response (PDict [])))
  /\ exists later,
      log (snd (sell (fun _ => "") trader (PStr "btc_eth") (PStr "0.031") (PInt 2)
                  (PStr "postOnly") (world0 1000 (ok_response (PDict [])))))
      = (attempt_events trader Private 1042
           [ ("currencyPair", PStr "BTC_ETH"); ("rate", PStr "0.031");
             ("amount", PStr "2"); ("postOnly", PInt 1);
             ("command", PStr "sell"); ("nonce", PInt 1042) ] ++ later)%list.
Proof.
  split.
  - exact (proj1 (proj1
      (orders_check_their_type_and_post_their_own_body (fun _ => "") trader
         (PStr "btc_eth") (PStr "0.031") (PInt 2) (PStr "market")
         (world0 1000 (ok_response (PDict [])))) eq_refl eq_refl)).
  - exact (proj2 (proj2 (proj2
      (orders_check_their_type_and_post_their_own_body (fun _ => "") trader
         (PStr "btc_eth") (PStr "0.031") (PInt 2) (PStr "postOnly")
         (world0 1000 (ok_response (PDict [])))) eq_refl)
      "postOnly" eq_refl eq_refl)).
Defined.

(** X13 — [moveOrder] accepts fewer order types than [buy]: a truthy
    [orderType] other than "immediateOrCancel" and "postOnly" (so
    "fillOrKill" too, which [buy] accepts) raises [PoloniexError] naming
    the type, with nothing sent.  Without an order type and with
    credentials, the first POST carries the order number, the rate, the
    amount only when it is truthy (an amount of 0 is left out), the
    command and the fresh nonce. *)
Theorem moveOrder_checks_its_type_and_drops_a_falsy_amount
  (container_str : pyval -> string) (self : Instance)
  (orderNumber rate amount orderType : pyval) (w : World) :
  let n := _nonce w + stride in
  let run := moveOrder container_str self orderNumber rate amount orderType w in
  (py_truthy orderType = true ->
   member_text orderType ["immediateOrCancel"; "postOnly"] = None ->
   run = (Raised (PoloniexError
                    ("Invalid orderType: " ++ py_str container_str orderType)), w))
  /\ member_text (PStr "fillOrKill") ["immediateOrCancel"; "postOnly"] = None
  /\ member_text (PStr "fillOrKill") ["fillOrKill"; "immediateOrCancel"; "postOnly"]
     = Some "fillOrKill"
  /\
  (truthy (key self) && truthy (secret self) = true ->
   py_truthy orderType = false ->
   exists later,
     log (snd run)
     = (log w ++
        attempt_events self Private n
          ([ ("orderNumber", PStr (py_str container_str orderNumber));
             ("rate", PStr (py_str container_str rate)) ] ++
           (if py_truthy amount
            then [("amount", PStr (py_str container_str amount))] else []) ++
           [ ("command", PStr "moveOrder"); ("nonce", PInt n) ])
        ++ later)%list).
Proof.
  intros n run. subst run. repeat apply conj; try reflexivity.
  - intros Ht Hm. unfold moveOrder. rewrite Ht, Hm. reflexivity.
  - intros Hcred Ht.
    assert (Hd : dispatchable self "moveOrder" = true)
      by (unfold dispatchable; exact Hcred).
    unfold moveOrder. rewrite Ht.
    destruct (py_truthy amount); exact (call_with_starts self "moveOrder" _ w Hd).
Qed.

Lemma moveOrder_checks_its_type_and_drops_a_falsy_amount_witness :
  moveOrder (fun _ => "") trader (PInt 514845991795) (PStr "0.031") (PInt 0)
    (PStr "fillOrKill") (world0 1000 (ok_response (PDict [])))
  = (Raised (PoloniexError "Invalid orderType: fillOrKill"),
     world0 1000 (ok_response (PDict [])))
  /\ exists later,
      log (snd (moveOrder (fun _ => "") trader (PInt 514845991795) (PStr "0.031")
                  (PInt 0) (PBool false) (world0 1000 (ok_response (PDict [])))))
      = (attempt_events trader Private 1042
           [ ("orderNumber", PStr "514845991795"); ("rate", PStr "0.031");
             ("command", PStr "moveOrder"); ("nonce", PInt 1042) ] ++ later)%list.
Proof.
  split.
  - exact (proj1
      (moveOrder_checks_its_type_and_drops_a_falsy_amount (fun _ => "") trader
         (PInt 514845991795) (PStr "0.031") (PInt 0) (PStr "fillOrKill")
         (world0 1000 (ok_response (PDict [])))) eq_refl eq_refl).
  - destruct (moveOrder_checks_its_type_and_drops_a_falsy_amount (fun _ => "") trader
                (PInt 514845991795) (PStr "0.031") (PInt 0) (PBool false)
                (world0 1000 (ok_response (PDict [])))) as (_ & _ & _ & H).
    exact (H eq_refl eq_refl).
Defined.

(** X14 — [returnChartData] accepts a candle period only when it equals
    one of 300, 900, 1800, 7200, 14400, 86400: any other value, the
    default [False] and the text "300" among them, raises
    [PoloniexError] naming it, with nothing sent.  With a valid period
    the first GET carries the pair in upper case, the period, [start] and
    [end] as texts (the clock's, when they are falsy) and the command; no
    credentials are needed. *)
Theorem returnChartData_checks_the_period
  (container_str : pyval -> string) (self : Instance) (day_ago now : string)
  (currencyPair period start end_ : pyval) (w : World) :
  let run := returnChartData container_str self day_ago now
               currencyPair period start end_ w in
  (member_int period [300; 900; 1800; 7200; 14400; 86400] = false ->
   run = (Raised (PoloniexError
                    (py_str container_str period ++ " invalid candle period")), w))
  /\ member_int (PBool false) [300; 900; 1800; 7200; 14400; 86400] = false
  /\ member_int (PStr "300") [300; 900; 1800; 7200; 14400; 86400] = false
  /\
  (member_int period [300; 900; 1800; 7200; 14400; 86400] = true ->
   exists later,
     log (snd run)
     = (log w ++
        attempt_events self Public (_nonce w + stride)
          [ ("currencyPair", PStr (upper (py_str container_str currencyPair)));
            ("period", PStr (py_str container_str period));
            ("start", PStr (if py_truthy start
                            then py_str container_str start else day_ago));
            ("end", PStr (if py_truthy end_
                          then py_str container_str end_ else now));
            ("command", PStr "returnChartData") ]
        ++ later)%list).
Proof.
  intros run. subst run. repeat apply conj; try reflexivity.
  - intros Hp. unfold returnChartData. rewrite Hp. reflexivity.
  - intros Hp.
    assert (Hd : dispatchable self "returnChartData" = true) by reflexivity.
    unfold returnChartData. rewrite Hp. cbn [negb].
    destruct (py_truthy start), (py_truthy end_);
      exact (call_with_starts self "returnChartData" _ w Hd).
Qed.

Lemma returnChartData_checks_the_period_witness :
  returnChartData (fun _ => "") anonymous "1499913600.0" "1500000000.0"
    (PStr "btc_eth") (PInt 600) (PBool false) (PBool false)
    (world0 7 (ok_response (PList [])))
  = (Raised (PoloniexError "600 invalid candle period"),
     world0 7 (ok_response (PList [])))
  /\ exists later,
      log (snd (returnChartData (fun _ => "") anonymous "1499913600.0" "1500000000.0"
                  (PStr "btc_eth") (PInt 900) (PInt 1499990000) (PBool false)
                  (world0 7 (ok_response (PList [])))))
      = (attempt_events anonymous Public 49
           [ ("currencyPair", PStr "BTC_ETH"); ("period", PStr "900");
             ("start", PStr "1499990000"); ("end", PStr "1500000000.0");
             ("command", PStr "returnChartData") ] ++ later)%list.
Proof.
  split.
  - exact (proj1
      (returnChartData_checks_the_period (fun _ => "") anonymous
         "1499913600.0" "1500000000.0" (PStr "btc_eth") (PInt 600)
         (PBool false) (PBool false) (world0 7 (ok_response (PList []))))
      eq_refl).
  - destruct (returnChartData_checks_the_period (fun _ => "") anonymous
                "1499913600.0" "1500000000.0" (PStr "btc_eth") (PInt 900)
                (PInt 1499990000) (PBool false) (world0 7 (ok_response (PList []))))
      as (_ & _ & _ & H).
    exact (H eq_refl).
Defined.

(** ** The channel registry *)

Lemma channels_get_update_same (chs : registry) (name : string)
      (f : Channel -> Channel) :
  channels_get (channels_update chs name f) name
  = option_map f (channels_get chs name).
Proof.
  induction chs as [|[k c] chs IH]; [reflexivity|].
  cbn [channels_update channels_get]. destruct (String.eqb k name) eqn:E;
    cbn [channels_get]; rewrite E; [reflexivity | exact IH].
Qed.

Lemma channels_get_update_other (chs : registry) (name other : string)
      (f : Channel -> Channel) :
  name <> other ->
  channels_get (channels_update chs name f) other = channels_get chs other.
Proof.
  intros Hne. induction chs as [|[k c] chs IH]; [reflexivity|].
  cbn [channels_update channels_get]. destruct (String.eqb k name) eqn:E;
    cbn [channels_get].
  - apply String.eqb_eq in E. subst k.
    destruct (String.eqb name other) eqn:E'; [|reflexivity].
    apply String.eqb_eq in E'. contradiction.
  - now rewrite IH.
Qed.

Lemma getChannelName_update (chs : registry) (name id : string)
      (f : Channel -> Channel) :
  (forall c, ch_id (f c) = ch_id c) ->
  _getChannelName (channels_update chs name f) id = _getChannelName chs id.
Proof.
  intros Hf. induction chs as [|[k c] chs IH]; [reflexivity|].
  cbn [channels_update _getChannelName]. destruct (String.eqb k name);
    cbn [_getChannelName]; rewrite ?Hf; [reflexivity|].
  now rewrite IH.
Qed.

Lemma names_update (chs : registry) (name : string) (f : Channel -> Channel) :
  map fst (channels_update chs name f) = map fst chs.
Proof.
  induction chs as [|[k c] chs IH]; [reflexivity|].
  cbn [channels_update]. destruct (String.eqb k name); cbn [map fst]; congruence.
Qed.

(** X15 — [_getChannelName] returns the name of the first channel of
    the registry that has the id: the channels before it have other ids.
    Conversely the first channel with the id is what it returns, and it
    returns [False] exactly when no channel has the id.  When the names
    of the registry are distinct (as the keys of a dict are), the entry
    [self.channels] holds under the returned name is that channel. *)
Theorem getChannelName_finds_the_channel_of_the_id
  (chs : registry) (id : string) :
  (forall name, _getChannelName chs id = Some name ->
     exists pre c suf,
       chs = (pre ++ (name, c) :: suf)%list
       /\ ch_id c = id
       /\ (forall k c', In (k, c') pre -> ch_id c' <> id)
       /\ (NoDup (map fst chs) -> channels_get chs name = Some c))
  /\ (forall pre name c suf,
        chs = (pre ++ (name, c) :: suf)%list ->
        ch_id c = id ->
        (forall k c', In (k, c') pre -> ch_id c' <> id) ->
        _getChannelName chs id = Some name)
  /\ (_getChannelName chs id = None <->
      forall name c, In (name, c) chs -> ch_id c <> id).
Proof.
  induction chs as [|[k c] chs (IH1 & IH2 & IH3)].
  - split; [discriminate|]. split.
    + intros [|? ?] name c suf H; discriminate H.
    + split; [intros _ name c []|reflexivity].
  - split; [|split].
    + intros name H. cbn [_getChannelName] in H.
      destruct (String.eqb (ch_id c) id) eqn:E.
      * inversion H; subst. apply String.eqb_eq in E.
        exists [], c, chs.
        split; [reflexivity|]. split; [exact E|]. split; [intros k' c' []|].
        intros _. cbn [channels_get]. now rewrite String.eqb_refl.
      * destruct (IH1 name H) as (pre & c' & suf & Hsplit & Hid & Hpre & Hget).
        exists ((k, c) :: pre), c', suf.
        split; [|split; [exact Hid|split]].
        -- cbn [app]. now rewrite Hsplit.
        -- intros k' c'' [Heq|Hin]; [|now apply (Hpre k' c'')].
           inversion Heq; subst. now apply String.eqb_neq.
        -- intros Hnd. cbn [map fst] in Hnd.
           inversion Hnd as [|? ? Hk Hrest]; subst.
           cbn [channels_get]. destruct (String.eqb k name) eqn:Ek.
           ++ apply String.eqb_eq in Ek. subst k. exfalso. apply Hk.
              rewrite map_app. apply in_or_app. right. now left.
           ++ now apply Hget.
    + intros pre name c' suf Hsplit Hid Hpre. cbn [_getChannelName].
      destruct pre as [|[k0 c0] pre]; cbn [app] in Hsplit; inversion Hsplit; subst.
      * now rewrite String.eqb_refl.
      * assert (Hne : ch_id c0 <> ch_id c') by (apply (Hpre k0 c0); now left).
        apply String.eqb_neq in Hne. rewrite Hne.
        apply (IH2 pre name c' suf eq_refl eq_refl).
        intros k' c'' Hin. apply (Hpre k' c''). now right.
    + cbn [_getChannelName]. destruct (String.eqb (ch_id c) id) eqn:E.
      * split; [discriminate|]. intros H. apply String.eqb_eq in E.
        exfalso. apply (H k c); [now left | exact E].
      * rewrite IH3. apply String.eqb_neq in E. split.
        -- intros H name c' [Heq | Hin]; [inversion Heq; subst; exact E | eauto].
        -- intros H name c' Hin. apply (H name c'). now right.
Qed.

Lemma getChannelName_finds_the_channel_of_the_id_witness :
  exists pre c suf,
    subscribed_channels = (pre ++ ("BTC_ETH", c) :: suf)%list
    /\ ch_id c = "148"
    /\ (forall k c', In (k, c') pre -> ch_id c' <> "148")
    /\ (NoDup (map fst subscribed_channels) ->
        channels_get subscribed_channels "BTC_ETH" = Some c).
Proof.
  exact (proj1 (getChannelName_finds_the_channel_of_the_id subscribed_channels "148")
           "BTC_ETH" eq_refl).
Defined.

(** ** [subscribe] and [unsubscribe] *)

Lemma mark_known (name : string) (b : bool) (callback : option handler)
      (c : Channel) (s : Socketed) :
  channels_get (channels s) name = Some c ->
  exists chs,
    mark (Some name) b callback s = (Returned name, with_channels s chs)
    /\ channels_get chs name = Some (marked b callback c)
    /\ (forall other, other <> name ->
                      channels_get chs other = channels_get (channels s) other)
    /\ (forall id, _getChannelName chs id = _getChannelName (channels s) id)
    /\ map fst chs = map fst (channels s).
Proof.
  intros Hget. unfold mark. rewrite Hget.
  destruct callback as [h|]; eexists; (split; [reflexivity|]).
  - repeat apply conj.
    + rewrite !channels_get_update_same, Hget. reflexivity.
    + intros other Hne. rewrite !channels_get_update_other by congruence. reflexivity.
    + intros id. rewrite !getChannelName_update by reflexivity. reflexivity.
    + now rewrite !names_update.
  - repeat apply conj.
    + rewrite channels_get_update_same, Hget. reflexivity.
    + intros other Hne. rewrite channels_get_update_other by congruence. reflexivity.
    + intros id. rewrite getChannelName_update by reflexivity. reflexivity.
    + now rewrite names_update.
Qed.

(** [subscribe] and [unsubscribe] on a known channel other than the
    account: the entry is marked, the plain frame with the id is sent. *)
Lemma plain_operation (self : Instance) (name : string) (c : Channel) (s : Socketed) :
  String.eqb name "account" = false ->
  channels_get (channels s) name = Some c ->
  (forall callback, exists chs,
      subscribe self (ByName name) callback s
      = (Returned PNone,
         with_wire (with_channels s chs) (SoSend (Plain Subscribe (ch_id c))))
      /\ channels_get chs name = Some (marked true callback c)
      /\ (forall other, other <> name ->
                        channels_get chs other = channels_get (channels s) other)
      /\ (forall id, _getChannelName chs id = _getChannelName (channels s) id)
      /\ map fst chs = map fst (channels s))
  /\ (exists chs,
      unsubscribe self (ByName name) s
      = (Returned PNone,
         with_wire (with_channels s chs) (SoSend (Plain Unsubscribe (ch_id c))))
      /\ channels_get chs name = Some (marked false None c)
      /\ (forall other, other <> name ->
                        channels_get chs other = channels_get (channels s) other)
      /\ (forall id, _getChannelName chs id = _getChannelName (channels s) id)
      /\ map fst chs = map fst (channels s)).
Proof.
  intros Hacc Hget. split; [intros callback|].
  - destruct (mark_known name true callback c s Hget) as (chs & E & G & O & I & N).
    exists chs. unfold subscribe. cbn [resolve chan_is]. rewrite Hacc, E.
    unfold send_plain. cbn [with_channels channels]. rewrite G.
    repeat apply conj; auto.
  - destruct (mark_known name false None c s Hget) as (chs & E & G & O & I & N).
    exists chs. unfold unsubscribe. cbn [resolve chan_is]. rewrite Hacc, E.
    unfold send_plain. cbn [with_channels channels]. rewrite G.
    repeat apply conj; auto.
Qed.

(** X16 — [subscribe] on a channel other than the account: for a known
    name the entry gets ['sub'] true (and the callback, when one is
    given), exactly one plain subscribe frame with the id of the channel
    is sent, no nonce is read, and no other entry and no id changes; for
    an unknown name, and for an [int] that is the id of no channel, it
    raises [KeyError] with nothing marked and nothing sent. *)
Theorem subscribe_marks_then_sends
  (self : Instance) (s : Socketed) (name : string) (callback : option handler) :
  (name <> "account" ->
   forall c, channels_get (channels s) name = Some c ->
     let s' := snd (subscribe self (ByName name) callback s) in
     fst (subscribe self (ByName name) callback s) = Returned PNone
     /\ wire s' = (wire s ++ [SoSend (Plain Subscribe (ch_id c))])%list
     /\ base s' = base s
     /\ channels_get (channels s') name = Some (marked true callback c)
     /\ (forall other, other <> name ->
                       channels_get (channels s') other
                       = channels_get (channels s) other)
     /\ (forall id, _getChannelName (channels s') id
                    = _getChannelName (channels s) id))
  /\ (name <> "account" -> channels_get (channels s) name = None ->
      subscribe self (ByName name) callback s = (Raised KeyError, s))
  /\ (forall id, _getChannelName (channels s) (Text.str_of_Z id) = None ->
      subscribe self (ById id) callback s = (Raised KeyError, s)).
Proof.
  repeat apply conj.
  - intros Hne c Hget. apply String.eqb_neq in Hne.
    destruct (proj1 (plain_operation self name c s Hne Hget) callback)
      as (chs & E & G & O & I & _).
    cbv zeta. rewrite E. cbn [fst snd with_wire with_channels wire base channels].
    repeat apply conj; auto.
  - intros Hne Hget. apply String.eqb_neq in Hne.
    unfold subscribe. cbn [resolve chan_is]. rewrite Hne. unfold mark.
    now rewrite Hget.
  - intros id Hid. unfold subscribe. cbn [resolve]. rewrite Hid. reflexivity.
Qed.

Lemma subscribe_marks_then_sends_witness :
  wire (snd (subscribe anonymous (ByName "ticker") (Some (user_handler 7))
               (socketed (world0 0 (status_response 200)) static_channels)))
  = [SoSend (Plain Subscribe "1002")]
  /\ subscribe anonymous (ByName "BTC_XMR") None
       (socketed (world0 0 (status_response 200)) static_channels)
     = (Raised KeyError, socketed (world0 0 (status_response 200)) static_channels).
Proof.
  destruct (subscribe_marks_then_sends anonymous
              (socketed (world0 0 (status_response 200)) static_channels)
              "ticker" (Some (user_handler 7))) as (H1 & _ & _).
  destruct (subscribe_marks_then_sends anonymous
              (socketed (world0 0 (status_response 200)) static_channels)
              "BTC_XMR" None) as (_ & H2 & _).
  split.
  - exact (proj1 (proj2 (H1 ltac:(discriminate) _ eq_refl))).
  - exact (H2 ltac:(discriminate) eq_refl).
Defined.

(** X17 — the account channel is signed with a nonce of its own each
    time: without key or secret, [subscribe] and [unsubscribe] raise
    [PoloniexError] with nothing marked and nothing sent; with both, each
    sends one frame signed over the nonce it has just read, and a
    subscribe followed by an unsubscribe uses the counter plus 42 and
    then the counter plus 84, never the same nonce twice. *)
Theorem account_frames_are_signed_with_fresh_nonces
  (self : Instance) (s : Socketed) (callback : option handler) :
  (truthy (key self) && truthy (secret self) = false ->
   subscribe self (ByName "account") callback s
   = (Raised (PoloniexError
                "self.key and self.secret needed for 'account' channel"), s)
   /\ unsubscribe self (ByName "account") s
      = (Raised (PoloniexError
                   "self.key and self.secret needed for 'account' channel"), s))
  /\
  (truthy (key self) && truthy (secret self) = true ->
   forall c, channels_get (channels s) "account" = Some c ->
     let n := _nonce (base s) in
     let s1 := snd (subscribe self (ByName "account") callback s) in
     let s2 := snd (unsubscribe self (ByName "account") s1) in
     wire s1 = (wire s ++
                [SoSend (account_frame self Subscribe (ch_id c) (n + stride))])%list
     /\ _nonce (base s1) = n + stride
     /\ channels_get (channels s1) "account" = Some (marked true callback c)
     /\ wire s2 = (wire s1 ++
                   [SoSend (account_frame self Unsubscribe (ch_id c)
                                          (n + stride + stride))])%list
     /\ _nonce (base s2) = n + stride + stride
     /\ channels_get (channels s2) "account"
        = Some (marked false None (marked true callback c))).
Proof.
  split.
  - intros Hcred. apply andb_false_iff in Hcred.
    assert (Hb : negb (truthy (key self)) || negb (truthy (secret self)) = true)
      by (destruct Hcred as [-> | ->]; [reflexivity | apply orb_true_r]).
    unfold subscribe, unsubscribe. cbn [resolve chan_is].
    change (String.eqb "account" "account") with true. cbv iota.
    rewrite Hb. split; reflexivity.
  - intros Hcred c Hget. apply andb_prop in Hcred as [Hk Hs].
    assert (Hb : negb (truthy (key self)) || negb (truthy (secret self)) = false)
      by (rewrite Hk, Hs; reflexivity).
    destruct (mark_known "account" true callback c s Hget)
      as (chs1 & E1 & G1 & _).
    assert (S1 : subscribe self (ByName "account") callback s
                 = (Returned PNone,
                    with_wire (with_base (with_channels s chs1)
                                 (snd (nonce (base s))))
                      (SoSend (account_frame self Subscribe (ch_id c)
                                 (_nonce (base s) + stride))))).
    { unfold subscribe. cbn [resolve chan_is].
      change (String.eqb "account" "account") with true. cbv iota.
      rewrite Hb, E1. unfold send_account.
      cbn [with_channels base channels]. rewrite nonce_read, G1. reflexivity. }
    cbv zeta. rewrite S1. cbn [snd].
    set (s1 := with_wire _ _).
    assert (Hget1 : channels_get (channels s1) "account"
                    = Some (marked true callback c)) by exact G1.
    destruct (mark_known "account" false None _ s1 Hget1) as (chs2 & E2 & G2 & _).
    assert (S2 : unsubscribe self (ByName "account") s1
                 = (Returned PNone,
                    with_wire (with_base (with_channels s1 chs2)
                                 (snd (nonce (base s1))))
                      (SoSend (account_frame self Unsubscribe (ch_id c)
                                 (_nonce (base s1) + stride))))).
    { unfold unsubscribe. cbn [resolve chan_is].
      change (String.eqb "account" "account") with true. cbv iota.
      rewrite Hb, E2. unfold send_account.
      cbn [with_channels base channels]. rewrite nonce_read, G2. reflexivity. }
    rewrite S2. subst s1.
    cbn [snd with_wire with_base with_channels wire base channels _nonce].
    rewrite nonce_read. cbn [snd _nonce].
    repeat apply conj; auto.
Qed.

Lemma account_frames_are_signed_with_fresh_nonces_witness :
  subscribe anonymous (ByName "account") None
    (socketed (world0 1000 (status_response 200)) static_channels)
  = (Raised (PoloniexError "self.key and self.secret needed for 'account' channel"),
     socketed (world0 1000 (status_response 200)) static_channels)
  /\ sent_frames
       (wire (snd (unsubscribe trader (ByName "account")
                     (snd (subscribe trader (ByName "account") None
                             (socketed (world0 1000 (status_response 200))
                                       static_channels))))))
     = [account_frame trader Subscribe "1000" 1042;
        account_frame trader Unsubscribe "1000" 1084].
Proof.
  split.
  - exact (proj1 (proj1 (account_frames_are_signed_with_fresh_nonces anonymous
             (socketed (world0 1000 (status_response 200)) static_channels) None)
             eq_refl)).
  - destruct (proj2 (account_frames_are_signed_with_fresh_nonces trader
                (socketed (world0 1000 (status_response 200)) static_channels) None)
                eq_refl _ eq_refl) as (H1 & _ & _ & H4 & _).
    cbv zeta in H1, H4. rewrite H4, H1. reflexivity.
Defined.

(** ** The loops of [on_open] and [stopws] *)

Lemma channels_get_middle (pre suf : registry) (k : string) (c : Channel) :
  ~ In k (map fst pre) -> channels_get (pre ++ (k, c) :: suf)%list k = Some c.
Proof.
  induction pre as [|[k0 c0] pre IH]; intros Hn; cbn [app channels_get].
  - now rewrite String.eqb_refl.
  - destruct (String.eqb k0 k) eqn:E.
    + apply String.eqb_eq in E. subst k0. exfalso. apply Hn. now left.
    + apply IH. intros H. apply Hn. now right.
Qed.

Lemma channels_update_middle (pre suf : registry) (k : string) (c : Channel)
      (f : Channel -> Channel) :
  ~ In k (map fst pre) ->
  channels_update (pre ++ (k, c) :: suf)%list k f = (pre ++ (k, f c) :: suf)%list.
Proof.
  induction pre as [|[k0 c0] pre IH]; intros Hn; cbn [app channels_update].
  - now rewrite String.eqb_refl.
  - destruct (String.eqb k0 k) eqn:E.
    + apply String.eqb_eq in E. subst k0. exfalso. apply Hn. now left.
    + f_equal. apply IH. intros H. apply Hn. now right.
Qed.

Lemma names_fresh_in_prefix (pre suf : registry) (k : string) (c : Channel) :
  NoDup (map fst (pre ++ (k, c) :: suf)%list) -> ~ In k (map fst pre).
Proof.
  rewrite map_app. cbn [map fst]. intros Hnd H.
  apply NoDup_remove_2 in Hnd. apply Hnd. apply in_or_app. now left.
Qed.

Lemma channels_get_in (chs : registry) (k : string) (c : Channel) :
  NoDup (map fst chs) -> In (k, c) chs -> channels_get chs k = Some c.
Proof.
  intros Hnd Hin. apply in_split in Hin as (pre & suf & ->).
  apply channels_get_middle. exact (names_fresh_in_prefix _ _ _ _ Hnd).
Qed.


Lemma resubscribed_true (chs : registry) : resubscribed true chs = chs.
Proof.
  induction chs as [|[k [i [[|]|] cb]] chs IH]; cbn; [reflexivity|..];
    f_equal; exact IH.
Qed.



Lemma with_events_same_channels (s : Socketed) (es : list sock_event) :
  with_events (with_channels s (channels s)) es = with_events s es.
Proof. destruct s; reflexivity. Qed.

Section Loop.

Variable method : chanref -> S_ pyval.
Variable op : sub_command.
Variable b : bool.

Hypothesis method_plain :
  forall name c s,
    String.eqb name "account" = false ->
    channels_get (channels s) name = Some c ->
    method (ByName name) s
    = (Returned PNone,
       with_wire (with_channels s (channels_update (channels s) name (set_sub b)))
                 (SoSend (Plain op (ch_id c)))).

(** The loop over the names that are left, once the entries of [pre] have
    been gone through. *)
Lemma for_subscribed_run (suf : registry) :
  forall (pre : registry) (s : Socketed),
    channels s = (pre ++ suf)%list ->
    NoDup (map fst (pre ++ suf)%list) ->
    (forall c, In ("account", c) suf -> is_subscribed c = false) ->
    for_subscribed method (map fst suf) s
    = (Returned PNone,
       with_events (with_channels s (pre ++ resubscribed b suf)%list)
                   (frames_for op suf)).
Proof.
  induction suf as [|[k c] suf IH]; intros pre s Hch Hnd Hacc.
  - cbn [map for_subscribed resubscribed frames_for flat_map].
    rewrite <- Hch. destruct s; unfold with_events, with_channels; cbn.
    now rewrite app_nil_r.
  - cbn [map fst for_subscribed].
    pose proof (names_fresh_in_prefix _ _ _ _ Hnd) as Hfresh.
    assert (Hget : channels_get (channels s) k = Some c)
      by (rewrite Hch; exact (channels_get_middle pre suf k c Hfresh)).
    rewrite Hget.
    assert (Hnames : forall c', map fst ((pre ++ [(k, c')]) ++ suf)%list
                                = map fst (pre ++ (k, c) :: suf)%list).
    { intros c'. rewrite <- app_assoc. rewrite !map_app. reflexivity. }
    destruct (is_subscribed c) eqn:Es.
    + assert (Ea : String.eqb k "account" = false).
      { destruct (String.eqb k "account") eqn:Ea; [|reflexivity].
        apply String.eqb_eq in Ea. subst k.
        rewrite (Hacc c (or_introl eq_refl)) in Es. discriminate. }
      rewrite (method_plain k c s Ea Hget).
      rewrite Hch, (channels_update_middle pre suf k c _ Hfresh).
      rewrite (IH (pre ++ [(k, set_sub b c)])%list).
      * unfold with_events, with_wire, with_channels.
        cbn [base channels wire _running _t close_error].
        cbn [resubscribed map fst snd frames_for flat_map]. rewrite Es.
        rewrite <- !app_assoc. reflexivity.
      * cbn [with_wire with_channels channels]. now rewrite <- app_assoc.
      * rewrite Hnames. exact Hnd.
      * intros c' Hin. apply Hacc. now right.
    + rewrite (IH (pre ++ [(k, c)])%list s).
      * unfold with_events, with_channels.
        cbn [resubscribed map fst snd frames_for flat_map]. rewrite Es.
        rewrite <- !app_assoc. reflexivity.
      * rewrite Hch. now rewrite <- app_assoc.
      * rewrite Hnames. exact Hnd.
      * intros c' Hin. apply Hacc. now right.
Qed.

End Loop.

Lemma subscribe_plain (self : Instance) (name : string) (c : Channel) (s : Socketed) :
  String.eqb name "account" = false ->
  channels_get (channels s) name = Some c ->
  subscribe self (ByName name) None s
  = (Returned PNone,
     with_wire (with_channels s (channels_update (channels s) name (set_sub true)))
               (SoSend (Plain Subscribe (ch_id c)))).
Proof.
  intros Ea Hget. unfold subscribe. cbn [resolve chan_is]. rewrite Ea.
  unfold mark. rewrite Hget. unfold send_plain. cbn [with_channels channels].
  now rewrite channels_get_update_same, Hget.
Qed.


Lemma account_not_subscribed_in (chs : registry) :
  NoDup (map fst chs) ->
  (forall c, channels_get chs "account" = Some c -> is_subscribed c = false) ->
  forall c, In ("account", c) chs -> is_subscribed c = false.
Proof. intros Hnd H c Hin. apply H. now apply channels_get_in. Qed.

Lemma on_open_plain (self : Instance) (s : Socketed) :
  NoDup (map fst (channels s)) ->
  (forall c, channels_get (channels s) "account" = Some c ->
             is_subscribed c = false) ->
  on_open self s
  = (Returned PNone, with_events s (frames_for Subscribe (channels s))).
Proof.
  intros Hnd Hacc. unfold on_open.
  rewrite (for_subscribed_run (fun chan => subscribe self chan None)
             Subscribe true (subscribe_plain self) (channels s) [] s
             eq_refl Hnd (account_not_subscribed_in _ Hnd Hacc)).
  cbn [app]. rewrite resubscribed_true. now rewrite with_events_same_channels.
Qed.


(** X18 — [on_open] sends the subscribe frame of every channel whose
    ['sub'] is true, in the order of the registry, and of no other; the
    registry, the nonce and everything else are as before.  (Stated for a
    registry in which the account channel is not subscribed.)  When the
    account channel, the first of the registry, is subscribed and the key
    or the secret is missing, [on_open] raises [PoloniexError] before any
    frame is sent. *)
Theorem on_open_sends_the_marked_subscriptions (self : Instance) (s : Socketed) :
  (NoDup (map fst (channels s)) ->
   (forall c, channels_get (channels s) "account" = Some c ->
              is_subscribed c = false) ->
   on_open self s
   = (Returned PNone, with_events s (frames_for Subscribe (channels s))))
  /\
  (forall c rest,
     channels s = ("account", c) :: rest -> is_subscribed c = true ->
     truthy (key self) && truthy (secret self) = false ->
     on_open self s
     = (Raised (PoloniexError
                  "self.key and self.secret needed for 'account' channel"), s)).
Proof.
  split.
  - exact (on_open_plain self s).
  - intros c rest Hch Hsub Hcred. unfold on_open. rewrite Hch.
    cbn [map fst for_subscribed]. rewrite Hch. cbn [channels_get].
    change (String.eqb "account" "account") with true. cbv iota. rewrite Hsub.
    unfold subscribe. cbn [resolve chan_is].
    change (String.eqb "account" "account") with true. cbv iota.
    apply andb_false_iff in Hcred.
    assert (Hb : negb (truthy (key self)) || negb (truthy (secret self)) = true)
      by (destruct Hcred as [-> | ->]; [reflexivity | apply orb_true_r]).
    rewrite Hb. reflexivity.
Qed.

Lemma on_open_sends_the_marked_subscriptions_witness :
  on_open anonymous (socketed (world0 0 (status_response 200)) subscribed_channels)
  = (Returned PNone,
     with_events (socketed (world0 0 (status_response 200)) subscribed_channels)
       [SoSend (Plain Subscribe "1002"); SoSend (Plain Subscribe "148")])
  /\ on_open anonymous
       (socketed (world0 0 (status_response 200))
          (("account", {| ch_id := "1000"; ch_sub := Some true;
                          ch_callback := Some (user_handler 3) |})
           :: List.tl subscribed_channels))
     = (Raised (PoloniexError
                  "self.key and self.secret needed for 'account' channel"),
        socketed (world0 0 (status_response 200))
          (("account", {| ch_id := "1000"; ch_sub := Some true;
                          ch_callback := Some (user_handler 3) |})
           :: List.tl subscribed_channels)).
Proof.
  split.
  - apply (proj1 (on_open_sends_the_marked_subscriptions anonymous
                    (socketed (world0 0 (status_response 200)) subscribed_channels))).
    + cbn. repeat constructor; cbn; intuition discriminate.
    + intros c H. cbn in H. inversion H. reflexivity.
  - exact (proj2 (on_open_sends_the_marked_subscriptions anonymous
                    (socketed (world0 0 (status_response 200))
                       (("account", {| ch_id := "1000"; ch_sub := Some true;
                                       ch_callback := Some (user_handler 3) |})
                        :: List.tl subscribed_channels)))
             _ _ eq_refl eq_refl eq_refl).
Defined.



(** ** What [on_message] reads of the registry *)

(** [on_message] looks at the ids and the callbacks of the registry and
    at nothing else. *)
Lemma on_message_ext (container_str : pyval -> string) (chs chs' : registry)
      (m : frame) (w : World) :
  (forall id, _getChannelName chs' id = _getChannelName chs id) ->
  (forall name, option_map ch_callback (channels_get chs' name)
                = option_map ch_callback (channels_get chs name)) ->
  on_message container_str chs' m w = on_message container_str chs m w.
Proof.
  intros Hid Hcb. unfold on_message. destruct m as [l|d]; [|reflexivity].
  destruct (existsb _ l); [reflexivity|].
  destruct (nth_error l 0) as [m0|]; [|reflexivity].
  rewrite Hid. unfold bind.
  destruct (ack_check (_getChannelName chs (py_str container_str m0)) l w)
    as [[acked|e] w1]; [|reflexivity].
  destruct acked; [reflexivity|].
  destruct (_getChannelName chs (py_str container_str m0)) as [name|];
    [|reflexivity].
  specialize (Hcb name).
  destruct (channels_get chs' name) as [c'|], (channels_get chs name) as [c|];
    cbn in Hcb; try discriminate; [|reflexivity].
  injection Hcb as Hcb. rewrite Hcb. reflexivity.
Qed.

Lemma callbacks_update (chs : registry) (k name : string) (f : Channel -> Channel) :
  (forall c, ch_callback (f c) = ch_callback c) ->
  option_map ch_callback (channels_get (channels_update chs k f) name)
  = option_map ch_callback (channels_get chs name).
Proof.
  intros Hf. destruct (string_dec k name) as [->|Hne].
  - rewrite channels_get_update_same.
    destruct (channels_get chs name); cbn [option_map]; [now rewrite Hf | reflexivity].
  - now rewrite channels_get_update_other.
Qed.

Lemma unsubscribe_channels (self : Instance) (chan : chanref) (s s' : Socketed)
      (v : pyval) :
  unsubscribe self chan s = (Returned v, s') ->
  exists name c,
    resolve (channels s) chan = Some name
    /\ channels_get (channels s) name = Some c
    /\ channels s' = channels_update (channels s) name (set_sub false).
Proof.
  unfold unsubscribe. intros Hdone.
  destruct (resolve (channels s) chan) as [name|] eqn:Er;
    [|cbn in Hdone; discriminate].
  cbn [chan_is] in Hdone. unfold mark in Hdone.
  destruct (channels_get (channels s) name) as [c|] eqn:Eg.
  - exists name, c. split; [reflexivity|]. split; [exact Eg|].
    destruct (String.eqb name "account").
    + destruct (negb (truthy (key self)) || negb (truthy (secret self)));
        [discriminate|].
      unfold send_account in Hdone. cbn [with_channels base channels] in Hdone.
      rewrite nonce_read in Hdone.
      destruct (channels_get (channels_update _ _ _) _); inversion Hdone;
        reflexivity.
    + unfold send_plain in Hdone. cbn [with_channels channels] in Hdone.
      destruct (channels_get (channels_update _ _ _) _); inversion Hdone;
        reflexivity.
  - destruct (String.eqb name "account");
      [destruct (negb (truthy (key self)) || negb (truthy (secret self)))|];
      discriminate.
Qed.

(** X20 — [unsubscribe] takes the ['sub'] flag down and sends its frame,
    but the callback stays in the registry and [on_message] never looks
    at the flag: every message that arrives after a successful
    [unsubscribe] is handled exactly as it would have been before it, the
    callback of the unsubscribed channel included. *)
Theorem unsubscribe_does_not_silence_the_callback
  (container_str : pyval -> string) (self : Instance) (chan : chanref)
  (s s' : Socketed) (v : pyval)
  (Hdone : unsubscribe self chan s = (Returned v, s')) :
  (forall m w,
     on_message container_str (channels s') m w
     = on_message container_str (channels s) m w)
  /\ exists name c,
       resolve (channels s) chan = Some name
       /\ channels_get (channels s) name = Some c
       /\ channels_get (channels s') name = Some (set_sub false c).
Proof.
  destruct (unsubscribe_channels self chan s s' v Hdone)
    as (name & c & Er & Eg & Ech).
  split.
  - intros m w. rewrite Ech. apply on_message_ext.
    + intros id. now apply getChannelName_update.
    + intros k. now apply callbacks_update.
  - exists name, c. repeat split; auto.
    rewrite Ech, channels_get_update_same, Eg. reflexivity.
Qed.

Lemma unsubscribe_does_not_silence_the_callback_witness :
  log (snd (on_message (fun _ => "")
              (channels (snd (unsubscribe anonymous (ById 148)
                                (socketed (world0 0 (status_response 200))
                                          subscribed_channels))))
              (FList [PInt 148; PInt 77; PStr "trade"])
              (world0 0 (status_response 200))))
  = [EvCallback (user_handler 2) [PInt 77; PStr "trade"]].
Proof.
  rewrite (proj1 (unsubscribe_does_not_silence_the_callback (fun _ => "")
                    anonymous (ById 148)
                    (socketed (world0 0 (status_response 200)) subscribed_channels)
                    _ PNone eq_refl)).
  reflexivity.
Defined.

(** ** [setSubscribes], [startws] and [setCallback] *)

Lemma setSubscribes_run (subs : list (string * handler)) :
  forall s : Socketed,
  exists chs extra,
    setSubscribes subs s = (Returned PNone, with_events (with_channels s chs) extra)
    /\ sent_frames extra = []
    /\ (forall id, _getChannelName chs id = _getChannelName (channels s) id)
    /\ map fst chs = map fst (channels s)
    /\ (forall name, ~ In name (map fst subs) ->
                     channels_get chs name = channels_get (channels s) name)
    /\ (NoDup (map fst subs) ->
        forall name h, In (name, h) subs ->
          match channels_get (channels s) name with
          | Some c => channels_get chs name = Some (marked true (Some h) c)
          | None => channels_get chs name = None
                    /\ In (SoLog Warning ("Invalid channel: " ++ name)) extra
          end).
Proof.
  induction subs as [|[sub cb] rest IH]; intros s.
  - exists (channels s), []. cbn [setSubscribes].
    split; [destruct s; unfold with_events, with_channels; cbn;
            now rewrite app_nil_r|].
    repeat apply conj; auto. intros _ name h [].
  - cbn [setSubscribes map fst].
    destruct (channels_get (channels s) sub) as [c|] eqn:Eg.
    + set (s1 := with_channels s _).
      destruct (IH s1) as (chs & extra & E & F & I & N & O & K).
      assert (G1 : forall name, name <> sub ->
                 channels_get (channels s1) name = channels_get (channels s) name).
      { intros name Hne. subst s1. cbn [with_channels channels].
        rewrite !channels_get_update_other by congruence. reflexivity. }
      exists chs, extra. rewrite E. split; [reflexivity|].
      split; [exact F|]. split.
      { intros id. rewrite I. subst s1. cbn [with_channels channels].
        rewrite !getChannelName_update by reflexivity. reflexivity. }
      split.
      { rewrite N. subst s1. cbn [with_channels channels].
        now rewrite !names_update. }
      split.
      { intros name Hn. rewrite O by (intros H; apply Hn; now right).
        apply G1. intros ->. apply Hn. now left. }
      intros Hnd name h Hin. inversion Hnd as [|? ? Hfresh Hnd']; subst.
      destruct Hin as [Heq|Hin].
      * inversion Heq; subst. rewrite Eg, (O name Hfresh).
        unfold s1. cbn [with_channels channels].
        rewrite !channels_get_update_same, Eg. reflexivity.
      * assert (Hne : name <> sub).
        { intros ->. apply Hfresh. apply (in_map fst) in Hin. exact Hin. }
        pose proof (K Hnd' name h Hin) as Kn. rewrite (G1 name Hne) in Kn.
        exact Kn.
    + set (s1 := with_wire s _).
      destruct (IH s1) as (chs & extra & E & F & I & N & O & K).
      exists chs, (SoLog Warning ("Invalid channel: " ++ sub) :: extra).
      rewrite E. split.
      { unfold s1, with_events, with_channels, with_wire.
        cbn [base channels wire _running _t close_error].
        now rewrite <- app_assoc. }
      split; [exact F|]. split; [exact I|]. split; [exact N|]. split.
      { intros name Hn. apply O. intros H. apply Hn. now right. }
      intros Hnd name h Hin. inversion Hnd as [|? ? Hfresh Hnd']; subst.
      destruct Hin as [Heq|Hin].
      * inversion Heq; subst. rewrite Eg. split; [|now left].
        rewrite (O name Hfresh). exact Eg.
      * pose proof (K Hnd' name h Hin) as Kn.
        change (channels s1) with (channels s) in Kn.
        destruct (channels_get (channels s) name); [exact Kn|].
        split; [exact (proj1 Kn) | right; exact (proj2 Kn)].
Qed.

Lemma sent_frames_app (a b : list sock_event) :
  sent_frames (a ++ b) = (sent_frames a ++ sent_frames b)%list.
Proof. apply flat_map_app. Qed.

(** X21 — [setSubscribes] never raises and sends nothing: for each
    keyword that names a channel it sets ['sub'] and the callback of
    that channel; for each keyword that names none it only logs a
    warning (the call goes on with the other keywords).  No id changes,
    no other channel changes, and the nonce is not read. *)
Theorem setSubscribes_marks_known_channels_and_sends_nothing
  (subs : list (string * handler)) (s : Socketed) :
  let s' := snd (setSubscribes subs s) in
  fst (setSubscribes subs s) = Returned PNone
  /\ base s' = base s
  /\ sent_frames (wire s') = sent_frames (wire s)
  /\ (forall id, _getChannelName (channels s') id = _getChannelName (channels s) id)
  /\ (forall name, ~ In name (map fst subs) ->
                   channels_get (channels s') name = channels_get (channels s) name)
  /\ (NoDup (map fst subs) ->
      forall name h, In (name, h) subs ->
        match channels_get (channels s) name with
        | Some c => channels_get (channels s') name = Some (marked true (Some h) c)
        | None => channels_get (channels s') name = None
                  /\ In (SoLog Warning ("Invalid channel: " ++ name)) (wire s')
        end).
Proof.
  destruct (setSubscribes_run subs s) as (chs & extra & E & F & I & N & O & K).
  cbv zeta. rewrite E.
  cbn [fst snd with_events with_channels base channels wire].
  repeat apply conj; auto.
  - rewrite sent_frames_app, F. apply app_nil_r.
  - intros Hnd name h Hin. specialize (K Hnd name h Hin).
    destruct (channels_get (channels s) name); [exact K|].
    split; [exact (proj1 K)|]. apply in_or_app. right. exact (proj2 K).
Qed.

Lemma setSubscribes_marks_known_channels_and_sends_nothing_witness :
  channels_get
    (channels (snd (setSubscribes [("ticker", user_handler 5);
                                   ("BTC_XMR", user_handler 6)]
                      (socketed (world0 0 (status_response 200)) static_channels))))
    "ticker"
  = Some {| ch_id := "1002"; ch_sub := Some true;
            ch_callback := Some (user_handler 5) |}
  /\ In (SoLog Warning "Invalid channel: BTC_XMR")
        (wire (snd (setSubscribes [("ticker", user_handler 5);
                                   ("BTC_XMR", user_handler 6)]
                      (socketed (world0 0 (status_response 200))
                                static_channels)))).
Proof.
  assert (Hnd : NoDup (map fst [("ticker", user_handler 5);
                                ("BTC_XMR", user_handler 6)]))
    by (cbn; repeat constructor; cbn; intuition discriminate).
  destruct (setSubscribes_marks_known_channels_and_sends_nothing
              [("ticker", user_handler 5); ("BTC_XMR", user_handler 6)]
              (socketed (world0 0 (status_response 200)) static_channels))
    as (_ & _ & _ & _ & _ & K).
  split.
  - exact (K Hnd "ticker" (user_handler 5) (or_introl eq_refl)).
  - exact (proj2 (K Hnd "BTC_XMR" (user_handler 6) (or_intror (or_introl eq_refl)))).
Defined.



(** X23 — [setCallback] on a known channel changes the callback of that
    channel and nothing else, and an [int] that is the id of the channel
    does the same as its name.  When the channel is the first of the
    registry with its id (the one [_getChannelName] finds), every data
    frame with that id that arrives afterwards is handed to the new
    callback and to no other: stripped as the channel requires on a
    channel other than the heartbeat, and whole, twice, on the heartbeat
    channel.  For a name or an [int] that denotes no channel it raises
    [KeyError] and changes nothing. *)
Theorem setCallback_routes_the_feed_to_the_new_handler
  (container_str : pyval -> string) (s : Socketed) (name : string) (h : handler) :
  (forall c,
     channels_get (channels s) name = Some c ->
     exists s',
       setCallback (ByName name) h s = (Returned PNone, s')
       /\ wire s' = wire s /\ base s' = base s
       /\ channels_get (channels s') name = Some (set_callback h c)
       /\ (forall other, other <> name ->
                         channels_get (channels s') other
                         = channels_get (channels s) other)
       /\ (forall id, _getChannelName (channels s') id
                      = _getChannelName (channels s) id)
       /\ (_getChannelName (channels s) (ch_id c) = Some name ->
           (forall id, Text.str_of_Z id = ch_id c ->
                       setCallback (ById id) h s = (Returned PNone, s'))
           /\ (forall l m0 w,
                 not_error_frame l = true ->
                 nth_error l 0 = Some m0 -> py_str container_str m0 = ch_id c ->
                 (name <> "heartbeat" ->
                  forall m1, nth_error l 1 = Some m1 -> is_ack m1 = false ->
                    on_message container_str (channels s') (FList l) w
                    = (Returned PNone,
                       snd (emit (EvCallback h
                                    (if command_in name ["ticker"; "24hvolume"]
                                     then skipn 2 l else skipn 1 l)) w)))
                 /\ (name = "heartbeat" ->
                     on_message container_str (channels s') (FList l) w
                     = (Returned PNone,
                        snd (emit (EvCallback h l)
                               (snd (emit (EvCallback h l) w))))))))
  /\ (channels_get (channels s) name = None ->
      setCallback (ByName name) h s = (Raised KeyError, s))
  /\ (forall id, _getChannelName (channels s) (Text.str_of_Z id) = None ->
                 setCallback (ById id) h s = (Raised KeyError, s)).
Proof.
  repeat apply conj.
  - intros c Hget. eexists. split.
    { unfold setCallback. cbn [resolve]. rewrite Hget. reflexivity. }
    cbn [with_channels wire base channels]. repeat apply conj; auto.
    + rewrite channels_get_update_same, Hget. reflexivity.
    + intros other Hne. apply channels_get_update_other. congruence.
    + intros id. now apply getChannelName_update.
    + intros Hid. split.
      * intros id Hstr. unfold setCallback. cbn [resolve].
        rewrite Hstr, Hid, Hget. reflexivity.
      * intros l m0 w Herr H0 Hm0.
        assert (Hid' : _getChannelName
                         (channels_update (channels s) name (set_callback h))
                         (py_str container_str m0) = Some name)
          by (rewrite Hm0, getChannelName_update by reflexivity; exact Hid).
        assert (Hget' : channels_get
                          (channels_update (channels s) name (set_callback h)) name
                        = Some (set_callback h c))
          by (rewrite channels_get_update_same, Hget; reflexivity).
        split.
        -- intros Hhb m1 H1 Hack.
           apply (on_message_data container_str _ l m0 m1 name
                    (set_callback h c) h w); auto.
           now apply String.eqb_neq.
        -- intros ->.
           apply (on_message_heartbeat container_str _ l m0
                    (set_callback h c) h w); auto.
  - intros Hget. unfold setCallback. cbn [resolve]. now rewrite Hget.
  - intros id Hid. unfold setCallback. cbn [resolve]. now rewrite Hid.
Qed.

Lemma setCallback_routes_the_feed_to_the_new_handler_witness :
  exists s',
    setCallback (ById 1002) (user_handler 9)
      (socketed (world0 0 (status_response 200)) subscribed_channels)
    = (Returned PNone, s')
    /\ log (snd (on_message (fun _ => "") (channels s')
                   (FList [PInt 1002; PNone; PList [PInt 148; PStr "0.03"]])
                   (world0 0 (status_response 200))))
       = [EvCallback (user_handler 9) [PList [PInt 148; PStr "0.03"]]].
Proof.
  destruct (proj1 (setCallback_routes_the_feed_to_the_new_handler (fun _ => "")
                     (socketed (world0 0 (status_response 200)) subscribed_channels)
                     "ticker" (user_handler 9))
              _ eq_refl)
    as (s' & _ & _ & _ & _ & _ & _ & Hfirst).
  destruct (Hfirst eq_refl) as (Hint & Hfeed).
  exists s'. split; [exact (Hint 1002 eq_refl)|].
  rewrite (proj1 (Hfeed [PInt 1002; PNone; PList [PInt 148; PStr "0.03"]]
                    (PInt 1002) (world0 0 (status_response 200))
                    eq_refl eq_refl eq_refl)
             ltac:(discriminate) PNone eq_refl eq_refl).
  reflexivity.
Defined.

(** ** The markets of the ticker *)

Lemma channels_get_set_same (chs : registry) (name : string) (c : Channel) :
  channels_get (channels_set chs name c) name = Some c.
Proof.
  induction chs as [|[k c0] chs IH]; cbn [channels_set channels_get].
  - now rewrite String.eqb_refl.
  - destruct (String.eqb k name) eqn:E; cbn [channels_get]; rewrite E;
      [reflexivity | exact IH].
Qed.

Lemma channels_get_set_other (chs : registry) (name other : string) (c : Channel) :
  name <> other ->
  channels_get (channels_set chs name c) other = channels_get chs other.
Proof.
  intros Hne. induction chs as [|[k c0] chs IH]; cbn [channels_set channels_get].
  - apply String.eqb_neq in Hne. now rewrite Hne.
  - destruct (String.eqb k name) eqn:E; cbn [channels_get].
    + apply String.eqb_eq in E. subst k. apply String.eqb_neq in Hne.
      now rewrite Hne.
    + now rewrite IH.
Qed.

(** X24 — the loop of [PoloniexSocketed.__init__] over the ticker goes
    through exactly when every entry of the ticker has an ['id'] (an
    entry without one raises out of the constructor).  When it does,
    every market of the ticker is a channel whose id is the text of the
    market's id, with no subscription and no callback, and the channels
    whose name is no market are as they were. *)
Theorem add_markets_registers_every_market
  (container_str : pyval -> string) (tick : dict) :
  forall chs : registry,
    ((exists chs', add_markets container_str chs tick = Returned chs')
     <-> (forall market entry, In (market, entry) tick ->
            exists id, py_getitem entry "id" = Returned id))
    /\ (forall chs',
          add_markets container_str chs tick = Returned chs' ->
          (forall name, ~ In name (map fst tick) ->
                        channels_get chs' name = channels_get chs name)
          /\ (NoDup (map fst tick) ->
              forall market entry, In (market, entry) tick ->
                exists id,
                  py_getitem entry "id" = Returned id
                  /\ channels_get chs' market
                     = Some {| ch_id := py_str container_str id;
                               ch_sub := None; ch_callback := None |})).
Proof.
  induction tick as [|[m e] rest IH]; intros chs.
  - split.
    + split; [intros _ market entry [] | intros _; now exists chs].
    + intros chs' H. cbn in H. inversion H; subst. split; [reflexivity|].
      intros _ market entry [].
  - cbn [add_markets map fst].
    destruct (py_getitem e "id") as [id|err] eqn:Eid.
    + set (ch := {| ch_id := py_str container_str id; ch_sub := None;
                    ch_callback := None |}).
      destruct (IH (channels_set chs m ch)) as [[IHa IHb] IHc]. split.
      * split.
        -- intros Hex market entry [Heq|Hin];
             [inversion Heq; subst; now exists id | exact (IHa Hex market entry Hin)].
        -- intros Hall. apply IHb. intros market entry Hin.
           apply (Hall market entry). now right.
      * intros chs' Hrun. destruct (IHc chs' Hrun) as [Hother Hin]. split.
        -- intros name Hn. rewrite Hother by (intros H; apply Hn; now right).
           apply channels_get_set_other. intros ->. apply Hn. now left.
        -- intros Hnd market entry Hm.
           inversion Hnd as [|? ? Hfresh Hnd']; subst.
           destruct Hm as [Heq|Hm].
           ++ inversion Heq; subst. exists id. split; [exact Eid|].
              rewrite (Hother market Hfresh). apply channels_get_set_same.
           ++ exact (Hin Hnd' market entry Hm).
    + split.
      * split.
        -- intros [chs' H]. discriminate.
        -- intros Hall. destruct (Hall m e (or_introl eq_refl)) as [id Hid].
           rewrite Hid in Eid. discriminate.
      * intros chs' H. discriminate.
Qed.

Lemma add_markets_registers_every_market_witness :
  (exists chs',
     add_markets (fun _ => "") static_channels
       [("BTC_ETH", PDict [("id", PInt 148); ("last", PStr "0.03")])]
     = Returned chs')
  /\ ~ (exists chs',
          add_markets (fun _ => "") static_channels
            [("BTC_ETH", PDict [("last", PStr "0.03")])]
          = Returned chs').
Proof.
  split.
  - apply (proj1 (add_markets_registers_every_market (fun _ => "")
                    [("BTC_ETH", PDict [("id", PInt 148); ("last", PStr "0.03")])]
                    static_channels)).
    intros market entry [Heq|[]]. inversion Heq; subst.
    exists (PInt 148). reflexivity.
  - intros Hex.
    destruct (proj1 (proj1 (add_markets_registers_every_market (fun _ => "")
                              [("BTC_ETH", PDict [("last", PStr "0.03")])]
                              static_channels)) Hex
                "BTC_ETH" _ (or_introl eq_refl)) as [id Hid].
    discriminate.
Defined.
